(* ===== verification/_CoqProject ===== *)
-Q . S2P
Prelude.v
Random.v
Chance.v
Number.v
Text.v
Types.v
Constants.v
Sidebar.v
SidebarView.v
MathGenerator.v
Expression.v
GeneratorSpec.v
Exactness.v
Operands.v
App.v
GeminiService.v
CanvasPreview.v
Interaction.v
