(* ===== verification/Prelude.v ===== *)
(** * BODMAS card generator: a verification development

    The program (TypeScript, under [src/]) is a visual editor for "math
    challenge" cards: a question generator, an application component that
    holds the state, a sidebar of controls that edit it, a preview that
    draws the card, and a call to a critique service.  Its parts, and the
    files that model them, in the order of their dependencies:

    - [src/services/mathGenerator.ts], the question generator
      [generateBODMAS]: a difficulty and three toggles go in, a pair of a
      question text and a numeric answer comes out, every operand drawn from
      [Math.random()].
      -- [Random.v]: the random source.  A computation that draws numbers is
         a tree [Rand A] over the two ways the code uses [Math.random()]:
         [getRandom min max] and the test [Math.random() > p].  [run] is the
         semantics on a stream of samples in [0,1), [outcomes] the finite
         list of results, [wp] the postcondition calculus;
      -- [Chance.v]: the dual calculus [may] (some choice of the draws
         gives a result with the property) and the laws of [prob], the
         probability of an event when the samples are uniform;
      -- [Number.v]: JavaScript numbers as IEEE-754 binary64 values (the
         Standard Library's executable [SpecFloat], precision 53, emax 1024),
         with their exact rational value [to_Q];
      -- [Text.v]: strings as UTF-8 byte strings, decimal printing of
         integers ([toString]), and the superscript table [toSuperscript];
      -- [MathGenerator.v]: [factorial], the three term generators and the
         four difficulty branches of [generateBODMAS], statement for
         statement;
      -- [Expression.v]: expressions, and an evaluator of question texts
         under the usual order of operations, in exact rational arithmetic:
         the reader's side of the contract "the answer is what the text
         evaluates to";
      -- [GeneratorSpec.v]: the specification of the generator as lists of
         expressions, the refinement theorem, and the properties of every
         run; [Exactness.v]: the converse of the refinement and the
         probability of the factorial term of the last branch;
         [Operands.v]: operand ranges, clean division, the number of
         samples read, and the scenarios of the specification.
    - [src/types.ts] and [src/constants.ts]: [Types.v] (the enumerations
      with their strings, [AppState] field for field, the typed update
      [{...prev, [key]: value}]) and [Constants.v] (the four tables).
    - [src/components/Sidebar.tsx]: [Sidebar.v] has the named handlers
      ([toggleSection], [handleLogoUpload], [adjustFontSize],
      [adjustLayoutValue], [shuffleFood]); [SidebarView.v] has what the
      component returns, section by section: every control with what it
      shows of the state, the condition under which it is rendered, and its
      handler.
    - [src/App.tsx]: [App.v] has [isDarkColor], the initial state,
      [handleGenerate] and the two effects with their dependency arrays;
      [Interaction.v] has the rest of the component ([handleAnalyze],
      [handleExport], the analysis panel) and puts the parts together: the
      page as a transition system whose steps are the events of the
      controls and the returns of the asynchronous calls.
    - [src/components/CanvasPreview.tsx]: [CanvasPreview.v], the card as a
      function of the state.
    - [src/services/geminiService.ts]: [GeminiService.v], the prompt, the
      request, and the result of [analyzeVirality] for every reply of the
      service.

    ** Modelling choices

    - Numbers.  The operands the generator draws are integers and are kept as
      [Z]; they become binary64 values ([of_Z]) where the code computes the
      answer, so every [+], [-], [*] and [/] of an answer is the IEEE
      operation, rounding included.  Sizes, paddings and offsets of the
      state are integers: the controls only ever write integers.
    - Randomness.  A sample of [Math.random()] is a rational in [0,1); the
      source is a function [nat -> Q] read at a cursor.  [getRandom] is
      [floor (r * (max - min + 1)) + min] in exact arithmetic.
    - Strings.  Texts are Rocq strings holding the UTF-8 encoding of the
      JavaScript string; the glyphs of the operators and the superscript
      digits are multi-byte.  The encoding is injective, so equality tests
      are preserved.
    - State.  [setState] takes an updater, a function on [AppState]; a
      handler is a function of the rendered state that returns the updater.
      An effect is a function of the rendered state that returns an updater
      or nothing, and runs when its dependencies differ from those of the
      previous render.
    - The environment.  The browser, the critique service, [JSON.parse] and
      the renderer of images are not under [src/]: they are parameters or
      choices of the environment.  [Interaction.delivers] says what an event
      of each kind of control carries (an option of the [select], an integer
      between the bounds of the slider, a colour [#rrggbb]); the service is
      any function from requests to replies; [JSON.parse] is any partial
      function from texts to values.
    - Fuel.  [factorial] recurses on an integer: its measure is
      [Z.to_nat n].  The evaluator of texts takes the length of the text as
      fuel.  The retry loop of [handleGenerate] has no bound in the code;
      the model takes an explicit bound, and [App.handleGenerate_stuck]
      shows that no bound is enough on some sources.  The renders that
      follow an update are run with fuel 2, which [App.settle_enough]
      shows to be enough for every state.

    ** What the theorems show

    - [Random.v], [Chance.v]: runs on unit samples are exactly the
      outcomes, and the postcondition calculus is exact for them
      ([wp_runs]); a possible result is the result of a run ([may_run]);
      [prob] is a probability ([prob_range], [prob_total]).
    - [GeneratorSpec.v], [Operands.v]: every result of [generateBODMAS] is
      an expression of the specification (refinement); for every run the
      answer is finite, agrees with the text read under the order of
      operations, and is exact without fractions; a toggle that is off
      leaves no trace in the text; the operands are in their ranges and the
      divisions leave no remainder; a call reads at most ten samples.
    - [Exactness.v]: every expression of the specification is returned by
      some run, so the specification is exactly the set of results
      ([generateBODMAS_exact]); the factorial term of the last branch
      appears with probability one minus 0.3, not 0.3.
    - [App.v]: what [handleGenerate] installs, that its loop may not end,
      that the effects stop after two updates and what they establish.
    - [SidebarView.v]: no control stores a string that is not a value of
      the field it writes, although [update] takes a value of any type.
    - [CanvasPreview.v]: the card has one background, the paddings and the
      shadow follow the container, the texts on a food image are light, and
      eleven fields of the state have no effect on the card.
    - [GeminiService.v]: a failure of the service gives the fallback; the
      result has the members of its type when the service honours the
      schema, and is not checked otherwise.
    - [Interaction.v]: the invariants of every reachable page, by induction
      on the steps (values within the bounds of their sliders, colours that
      parse, the contrast colour, flags that follow the calls), and their
      consequences for the card, the exports and the analysis panel; two
      states the effects do not prevent.

    ** Not modelled

    - The markup that does not depend on the state: class names, icons,
      labels and hints of [Sidebar.tsx] and [App.tsx], the decoration of the
      card.
    - Input and output: reading the logo file ([FileReader]), rasterising
      the card ([html2canvas]) and the download link, the network call of
      the critique service, writing to the console.  Each is represented by
      its outcome.
    - Time: [Date.now()] in the name of the downloaded file, and the
      absence of a timer around the call of the service.
    - React itself: batching of updates and the order of renders are taken
      as one update per event, followed by the effects.

    ** This file

    The shared layer: integer ranges, clamping, boolean reflection helpers,
    the hint database [bodmas] and the tactics the other files use. *)

From Stdlib Require Export ZArith QArith Qround Qabs Lia Lqa.
From stdpp Require Export base tactics option list numbers strings sets.

#[local] Open Scope Z_scope.

Create HintDb bodmas discriminated.
Create Rewrite HintDb bodmas_rw.

(** ** Tactics *)

(** Turn the boolean tests of the code into the propositions they decide. *)
Ltac bool_to_prop :=
  repeat first
    [ progress rewrite ?andb_true_iff, ?orb_true_iff, ?negb_true_iff,
        ?Z.leb_le, ?Z.ltb_lt, ?Z.eqb_eq, ?Z.leb_gt, ?Z.ltb_ge, ?Z.eqb_neq,
        ?andb_false_iff, ?orb_false_iff, ?negb_false_iff in *
    | match goal with
      | H : Is_true _ |- _ => apply Is_true_true in H
      | |- Is_true _ => apply Is_true_true
      end ].

(** Case analysis on the first [if] or [match] scrutinee of the goal. *)
Ltac case_scrutinee :=
  match goal with
  | |- context [if ?b then _ else _] => destruct b eqn:?
  | |- context [match ?x with _ => _ end] => destruct x eqn:?
  end.

(** ** Integer ranges *)

(** [zrange lo hi] is the list [lo; lo+1; ...; hi] (empty when [hi < lo]). *)
Fixpoint zrange_from (lo : Z) (n : nat) : list Z :=
  match n with
  | O => []
  | S n' => lo :: zrange_from (lo + 1) n'
  end.

Definition zrange (lo hi : Z) : list Z := zrange_from lo (Z.to_nat (hi - lo + 1)).

(** The counting loop above is stdpp's [seqZ], which brings its lemmas. *)
Lemma zrange_from_seqZ lo n : zrange_from lo n = seqZ lo (Z.of_nat n).
Proof.
  revert lo. induction n as [|n IH]; intros lo; [done|].
  rewrite seqZ_cons by lia. cbn [zrange_from]. rewrite IH. do 2 f_equal; lia.
Qed.

Lemma zrange_seqZ lo hi : zrange lo hi = seqZ lo (hi - lo + 1).
Proof.
  unfold zrange. rewrite zrange_from_seqZ.
  destruct (decide (0 ≤ hi - lo + 1)); [by rewrite Z2Nat.id|].
  rewrite Z2Nat.nonpos by lia. by rewrite !seqZ_nil by lia.
Qed.

Lemma elem_of_zrange lo hi k : k ∈ zrange lo hi ↔ lo ≤ k ≤ hi.
Proof. rewrite zrange_seqZ, elem_of_seqZ. lia. Qed.

Lemma length_zrange lo hi : length (zrange lo hi) = Z.to_nat (hi - lo + 1).
Proof. rewrite zrange_seqZ. apply length_seqZ. Qed.

Lemma zrange_lookup lo hi (i : nat) :
  (Z.of_nat i ≤ hi - lo) → zrange lo hi !! i = Some (lo + Z.of_nat i).
Proof. intros. rewrite zrange_seqZ. apply lookup_seqZ. lia. Qed.

Lemma NoDup_zrange lo hi : NoDup (zrange lo hi).
Proof. rewrite zrange_seqZ. apply NoDup_seqZ. Qed.

(** A boolean check over a range decides the bounded quantifier. *)
Lemma forallb_zrange (f : Z → bool) lo hi :
  forallb f (zrange lo hi) = true ↔ ∀ k, lo ≤ k ≤ hi → f k = true.
Proof.
  rewrite forallb_forall. setoid_rewrite <- list_elem_of_In.
  by setoid_rewrite elem_of_zrange.
Qed.

Lemma forallb_elem_of {A} (f : A → bool) (l : list A) x :
  forallb f l = true → x ∈ l → f x = true.
Proof. rewrite forallb_forall. intros H Hx. by apply H, list_elem_of_In. Qed.

Lemma Forall_zrange (P : Z → Prop) lo hi :
  (∀ x, lo ≤ x ≤ hi → P x) → Forall P (zrange lo hi).
Proof. rewrite Forall_forall. by setoid_rewrite elem_of_zrange. Qed.

(** ** List comprehensions *)

(** The introduction rule of [Forall] on a comprehension [x ← l; f x]. *)
Lemma Forall_bind_2 {A B} (P : B → Prop) (f : A → list B) l :
  Forall (λ x, Forall P (f x)) l → Forall P (l ≫= f).
Proof. apply Forall_bind. Qed.

Lemma list_bind_mono {A B} (f g : A → list B) (l k : list A) :
  l ⊆ k → (∀ x, f x ⊆ g x) → l ≫= f ⊆ k ≫= g.
Proof.
  intros Hl Hf y (x & Hy & Hx)%list_elem_of_bind.
  apply list_elem_of_bind. exists x. split; [by apply Hf|by apply Hl].
Qed.

Lemma list_app_mono {A} (l1 l2 k1 k2 : list A) :
  l1 ⊆ k1 → l2 ⊆ k2 → l1 ++ l2 ⊆ k1 ++ k2.
Proof. intros H1 H2 x [?|?]%elem_of_app; apply elem_of_app; [left; auto|right; auto]. Qed.

(** Decompose [Forall P l] along the comprehension [l]: one goal per
    generator, its variable (under the name the comprehension gives it) and
    its range in the context. *)
Ltac forall_comp :=
  cbv beta;
  lazymatch goal with
  | |- Forall _ [] => apply Forall_nil_2
  | |- Forall _ (_ :: _) => apply Forall_cons_2; forall_comp
  | |- Forall _ (zrange _ _ ≫= (λ x, _)) =>
      let y := fresh x in
      apply Forall_bind_2, Forall_zrange; intros y ?; forall_comp
  | |- Forall _ (zrange _ _) => apply Forall_zrange; intros ? ?; forall_comp
  | |- Forall _ (_ ≫= _) => apply Forall_bind_2; forall_comp
  | |- Forall _ (_ ++ _) => apply Forall_app_2; forall_comp
  | |- _ => idtac
  end.

(** ** Array reads at an integer index *)

(** [l[i]] for an integer [i]: [None] stands for JavaScript's [undefined],
    which a read outside [0 .. length - 1] returns. *)
Definition nth_Z {A} (l : list A) (i : Z) : option A :=
  if i <? 0 then None else l !! Z.to_nat i.

Lemma nth_Z_is_Some {A} (l : list A) i :
  is_Some (nth_Z l i) ↔ 0 ≤ i < Z.of_nat (length l).
Proof.
  unfold nth_Z. destruct (Z.ltb_spec i 0).
  - split; [by intros []|lia].
  - rewrite lookup_lt_is_Some. lia.
Qed.

Lemma nth_Z_elem_of {A} (l : list A) i x : nth_Z l i = Some x → x ∈ l.
Proof.
  unfold nth_Z. destruct (i <? 0); [done|]. apply list_elem_of_lookup_2.
Qed.

(** ** Clamping, as [Math.min(max, Math.max(min, x))] *)

Definition clamp (lo hi x : Z) : Z := Z.min hi (Z.max lo x).

Lemma clamp_range lo hi x : lo ≤ hi → lo ≤ clamp lo hi x ≤ hi.
Proof. unfold clamp. lia. Qed.

Lemma clamp_id lo hi x : lo ≤ x ≤ hi → clamp lo hi x = x.
Proof. unfold clamp. lia. Qed.

Lemma clamp_low lo hi x : lo ≤ hi → x ≤ lo → clamp lo hi x = lo.
Proof. unfold clamp. lia. Qed.

Lemma clamp_high lo hi x : lo ≤ hi → hi ≤ x → clamp lo hi x = hi.
Proof. unfold clamp. lia. Qed.

Lemma clamp_idemp lo hi x : lo ≤ hi → clamp lo hi (clamp lo hi x) = clamp lo hi x.
Proof. unfold clamp. lia. Qed.

Lemma clamp_mono lo hi x y : x ≤ y → clamp lo hi x ≤ clamp lo hi y.
Proof. unfold clamp. lia. Qed.

#[export] Hint Resolve clamp_range clamp_mono : bodmas.
#[export] Hint Rewrite clamp_idemp using lia : bodmas_rw.

(** ** Rationals in the unit interval *)

Lemma inject_Z_pos (n : Z) : 0 < n → (0 < inject_Z n)%Q.
Proof. intros Hn. change 0%Q with (inject_Z 0). by rewrite <- Zlt_Qlt. Qed.

(** Scaling a sample of [0,1) by a positive integer and taking the floor
    gives an index below that integer. *)
Lemma Qfloor_scale_range (r : Q) (n : Z) :
  (0 <= r)%Q → (r < 1)%Q → 0 < n → 0 ≤ Qfloor (r * inject_Z n) < n.
Proof.
  intros H0 H1 Hn.
  pose proof (inject_Z_pos n Hn) as Hq.
  split.
  - rewrite <- (Qfloor_Z 0). apply Qfloor_resp_le.
    change (inject_Z 0) with 0%Q. by apply Qmult_le_0_compat, Qlt_le_weak.
  - assert (Hlt : (r * inject_Z n < inject_Z n)%Q).
    { rewrite <- (Qmult_1_l (inject_Z n)) at 2. by apply Qmult_lt_compat_r. }
    pose proof (Qfloor_le (r * inject_Z n)) as Hfl.
    rewrite Zlt_Qlt. eapply Qle_lt_trans; eauto.
Qed.

(** The sample [k / n] is in the unit interval and scales back to [k]. *)
Lemma Qfloor_scale_inv (k n : Z) :
  0 ≤ k < n → Qfloor ((inject_Z k / inject_Z n) * inject_Z n) = k.
Proof.
  intros Hk. rewrite <- (Qfloor_Z k) at 2. apply Qfloor_comp.
  field. intros E. apply (inject_Z_injective n 0) in E. lia.
Qed.

Lemma Qunit_of_ratio (k n : Z) :
  0 ≤ k < n → (0 <= inject_Z k / inject_Z n)%Q ∧ (inject_Z k / inject_Z n < 1)%Q.
Proof.
  intros Hk.
  assert (Hq : (0 < inject_Z n)%Q) by (apply inject_Z_pos; lia).
  split.
  - apply Qle_shift_div_l; [done|]. rewrite Qmult_0_l.
    change 0%Q with (inject_Z 0). rewrite <- Zle_Qle. lia.
  - apply Qlt_shift_div_r; [done|]. rewrite Qmult_1_l.
    rewrite <- Zlt_Qlt. lia.
Qed.
