(* ===== verification/Random.v ===== *)
(** * Random.v: the random source and computations that draw from it

    [src/services/mathGenerator.ts] reads [Math.random()] in two ways only:
    through the local helper
    [getRandom = (min, max) => Math.floor(Math.random() * (max - min + 1)) + min]
    and through the tests [Math.random() > 0.5] and [Math.random() > 0.3].
    A computation is a tree [Rand A] over these two operations.

    - [run] is the semantics on a source of samples (a function [nat -> Q]
      read at a cursor): the value returned and the cursor after the call.
    - [outcomes] lists the results the tree can produce, [all_outcomes] checks
      a boolean property on all of them without building the list, [depth]
      bounds the number of samples read, [prob] is the probability of an
      event when the samples are uniform.
    - [wf] says that no [getRandom] is called on an empty range and that the
      thresholds lie in [0,1); under it the runs on unit samples are exactly
      the [outcomes]. *)

From S2P Require Import Prelude.

#[local] Open Scope Z_scope.

(** ** The source *)

(** The i-th value returned by [Math.random()]. *)
Definition source : Type := nat → Q.

(** [Math.random()] returns a number in [0,1). *)
Definition unit_sample (r : Q) : Prop := (0 <= r)%Q ∧ (r < 1)%Q.
Definition unit_source (rnd : source) : Prop := ∀ i, unit_sample (rnd i).

(** [Math.floor(r * (max - min + 1)) + min], the body of [getRandom]. *)
Definition scale (r : Q) (min max : Z) : Z :=
  Qfloor (r * inject_Z (max - min + 1)) + min.

(** [r > p] on samples. *)
Definition Qgtb (r p : Q) : bool := negb (Qle_bool r p).

(** The sample that makes [getRandom min max] return [n]. *)
Definition sample_for (n min max : Z) : Q :=
  (inject_Z (n - min) / inject_Z (max - min + 1))%Q.

(** The sample that makes [Math.random() > p] come out as [b]. *)
Definition sample_gt (b : bool) (p : Q) : Q := if b then ((p + 1) / 2)%Q else 0%Q.

(** A source that yields [r] first and then the samples of [rnd]. *)
Definition cons_source (r : Q) (rnd : source) : source :=
  λ i, match i with O => r | S j => rnd j end.

(** ** Computations *)

Inductive Rand (A : Type) : Type :=
| Ret (a : A)
| GetRandom (min max : Z) (k : Z → Rand A)
| RandomGt (p : Q) (k : bool → Rand A).
Arguments Ret {A} a.
Arguments GetRandom {A} min max k.
Arguments RandomGt {A} p k.

(** The two operations as computations. *)
Definition getRandom (min max : Z) : Rand Z := GetRandom min max Ret.
Definition randomGt (p : Q) : Rand bool := RandomGt p Ret.

Fixpoint bind {A B} (m : Rand A) (f : A → Rand B) : Rand B :=
  match m with
  | Ret a => f a
  | GetRandom min max k => GetRandom min max (λ n, bind (k n) f)
  | RandomGt p k => RandomGt p (λ b, bind (k b) f)
  end.

#[export] Instance Rand_ret : MRet Rand := @Ret.
#[export] Instance Rand_bind : MBind Rand := λ A B f m, bind m f.
#[export] Instance Rand_fmap : FMap Rand := λ A B f m, bind m (λ a, Ret (f a)).

(** ** Semantics on a source *)

Fixpoint run {A} (m : Rand A) (rnd : source) (i : nat) : A * nat :=
  match m with
  | Ret a => (a, i)
  | GetRandom min max k => run (k (scale (rnd i) min max)) rnd (S i)
  | RandomGt p k => run (k (Qgtb (rnd i) p)) rnd (S i)
  end.

Definition result {A} (m : Rand A) (rnd : source) (i : nat) : A := fst (run m rnd i).
Definition cursor {A} (m : Rand A) (rnd : source) (i : nat) : nat := snd (run m rnd i).

(** ** The results a computation can produce *)

Fixpoint outcomes {A} (m : Rand A) : list A :=
  match m with
  | Ret a => [a]
  | GetRandom min max k => n ← zrange min max; outcomes (k n)
  | RandomGt p k => outcomes (k true) ++ outcomes (k false)
  end.

Fixpoint all_outcomes {A} (P : A → bool) (m : Rand A) : bool :=
  match m with
  | Ret a => P a
  | GetRandom min max k => forallb (λ n, all_outcomes P (k n)) (zrange min max)
  | RandomGt p k => all_outcomes P (k true) && all_outcomes P (k false)
  end.

(** Well-formed computations: ranges are not empty, thresholds are in [0,1). *)
Fixpoint wf {A} (m : Rand A) : Prop :=
  match m with
  | Ret _ => True
  | GetRandom min max k => min ≤ max ∧ ∀ n, min ≤ n ≤ max → wf (k n)
  | RandomGt p k => unit_sample p ∧ ∀ b, wf (k b)
  end.

Fixpoint wfb {A} (m : Rand A) : bool :=
  match m with
  | Ret _ => true
  | GetRandom min max k => (min <=? max) && forallb (λ n, wfb (k n)) (zrange min max)
  | RandomGt p k =>
      Qle_bool 0 p && Qgtb 1 p && wfb (k true) && wfb (k false)
  end.

(** The longest path: a bound on the samples one call reads. *)
Fixpoint depth {A} (m : Rand A) : nat :=
  match m with
  | Ret _ => 0
  | GetRandom min max k => S (max_list ((λ n, depth (k n)) <$> zrange min max))
  | RandomGt p k => S (depth (k true) `max` depth (k false))
  end.

(** The probability of an event when every sample is uniform on [0,1):
    [getRandom min max] is uniform on its range and [Math.random() > p]
    holds with probability [1 - p]. *)
Fixpoint prob {A} (P : A → bool) (m : Rand A) : Q :=
  match m with
  | Ret a => if P a then 1 else 0
  | GetRandom min max k =>
      foldr (λ n acc, prob P (k n) + acc) 0 (zrange min max) / inject_Z (max - min + 1)
  | RandomGt p k => (1 - p) * prob P (k true) + p * prob P (k false)
  end%Q.

(** The postcondition calculus: [wp m Q] says that [Q] holds of every
    result of [m], whatever the draws (within their ranges) and the tests
    give. *)
Fixpoint wp {A} (m : Rand A) (Q : A → Prop) : Prop :=
  match m with
  | Ret a => Q a
  | GetRandom min max k => ∀ n, min ≤ n ≤ max → wp (k n) Q
  | RandomGt p k => ∀ b, wp (k b) Q
  end.

(** ** Extensional equality of computations *)

Inductive Rand_equiv {A} : Equiv (Rand A) :=
| Ret_equiv a : Ret a ≡ Ret a
| GetRandom_equiv min max k k' :
    (∀ n, k n ≡ k' n) → GetRandom min max k ≡ GetRandom min max k'
| RandomGt_equiv p k k' :
    (∀ b, k b ≡ k' b) → RandomGt p k ≡ RandomGt p k'.
#[export] Existing Instance Rand_equiv.

(** ** Theorems *)

Section Laws.
Context {A : Type}.
Implicit Types (m : Rand A) (rnd : source) (i : nat).

#[export] Instance Rand_equiv_refl : Reflexive (≡@{Rand A}).
Proof. intros m. induction m; constructor; auto. Qed.

#[export] Instance Rand_equiv_sym : Symmetric (≡@{Rand A}).
Proof. intros m m' H. induction H; constructor; auto. Qed.

#[export] Instance Rand_equiv_trans : Transitive (≡@{Rand A}).
Proof.
  intros m1 m2 m3 H. revert m3.
  induction H; intros m3 H3; inversion H3; subst; constructor; auto.
Qed.

#[export] Instance Rand_equivalence : Equivalence (≡@{Rand A}).
Proof. split; apply _. Qed.

(** Equivalent computations run alike and have the same outcomes. *)
#[export] Instance run_proper : Proper ((≡) ==> (=) ==> (=) ==> (=)) (@run A).
Proof.
  intros m m' H rnd ? <- i ? <-. revert i.
  induction H; intros i; simpl; auto.
Qed.

#[export] Instance outcomes_proper : Proper ((≡) ==> (=)) (@outcomes A).
Proof.
  intros m m' H. induction H; simpl; [done| |by f_equal].
  induction (zrange min max) as [|n l IH]; [done|].
  cbn. by f_equal.
Qed.

(** The run reads the source only from the cursor on. *)
Lemma run_ext m rnd rnd' i :
  (∀ j, (i ≤ j)%nat → rnd j = rnd' j) → run m rnd i = run m rnd' i.
Proof.
  revert i. induction m as [a|min max k IH|p k IH]; intros i E; simpl; [done|..];
    rewrite <- (E i) by lia; apply IH; intros j Hj; apply E; lia.
Qed.

(** The cursor only advances, by at most [depth m]. *)
Lemma cursor_ge m rnd i : (i ≤ cursor m rnd i)%nat.
Proof.
  unfold cursor. revert i.
  induction m as [a|min max k IH|p k IH]; intros i; simpl; [done|..].
  - specialize (IH (scale (rnd i) min max) (S i)). lia.
  - specialize (IH (Qgtb (rnd i) p) (S i)). lia.
Qed.

(** On a source that repeats one sample the result does not depend on
    where the run starts. *)
Lemma result_const m (r : Q) i j : result m (λ _, r) i = result m (λ _, r) j.
Proof.
  unfold result. revert i j.
  induction m as [a|min max k IH|p k IH]; intros i j; simpl; [done|..]; apply IH.
Qed.

End Laws.

(** ** [getRandom] stays in its range *)

Lemma scale_range r min max :
  unit_sample r → min ≤ max → min ≤ scale r min max ≤ max.
Proof.
  intros [H0 H1] Hle. unfold scale.
  pose proof (Qfloor_scale_range r (max - min + 1) H0 H1). lia.
Qed.

Lemma sample_for_unit n min max : min ≤ n ≤ max → unit_sample (sample_for n min max).
Proof. intros. apply Qunit_of_ratio. lia. Qed.

Lemma scale_sample_for n min max : min ≤ n ≤ max → scale (sample_for n min max) min max = n.
Proof. intros. unfold scale, sample_for. rewrite Qfloor_scale_inv; lia. Qed.

Lemma Qgtb_true r p : Qgtb r p = true ↔ (p < r)%Q.
Proof.
  unfold Qgtb. rewrite negb_true_iff, <- not_true_iff_false, Qle_bool_iff.
  split; [apply Qnot_le_lt | apply Qlt_not_le].
Qed.

Lemma Qgtb_false r p : Qgtb r p = false ↔ (r <= p)%Q.
Proof. unfold Qgtb. by rewrite negb_false_iff, Qle_bool_iff. Qed.

Lemma sample_gt_unit b p : unit_sample p → unit_sample (sample_gt b p).
Proof.
  intros [H0 H1]. destruct b; simpl; split; try done.
  - apply Qle_shift_div_l; [done|]. lra.
  - apply Qlt_shift_div_r; [done|]. lra.
Qed.

Lemma Qgtb_sample_gt b p : unit_sample p → Qgtb (sample_gt b p) p = b.
Proof.
  intros [H0 H1]. destruct b; simpl.
  - apply Qgtb_true. apply Qlt_shift_div_l; [done|]. lra.
  - by apply Qgtb_false.
Qed.


Section Bind.
Context {A B : Type}.
Implicit Types (m : Rand A) (f : A → Rand B).

Lemma run_bind m f rnd i :
  run (m ≫= f) rnd i = run (f (result m rnd i)) rnd (cursor m rnd i).
Proof.
  unfold result, cursor. revert i.
  induction m as [a|min max k IH|p k IH]; intros i; simpl; [done|..]; apply IH.
Qed.

Lemma outcomes_bind m f : outcomes (m ≫= f) = outcomes m ≫= (λ a, outcomes (f a)).
Proof.
  induction m as [a|min max k IH|p k IH]; simpl.
  - by rewrite app_nil_r.
  - induction (zrange min max) as [|n l IHl]; [done|].
    cbn. rewrite bind_app. f_equal; [apply IH | apply IHl].
  - rewrite bind_app. f_equal; apply IH.
Qed.

(** The laws of the monad, up to extensional equality. *)
Lemma bind_ret_l (a : A) f : mret a ≫= f = f a.
Proof. done. Qed.

Lemma bind_ret_r m : m ≫= mret ≡ m.
Proof. induction m; constructor; auto. Qed.

Lemma bind_assoc {C} m f (g : B → Rand C) : (m ≫= f) ≫= g ≡ m ≫= (λ a, f a ≫= g).
Proof. induction m as [a|min max k IH|p k IH]; [done|..]; constructor; apply IH. Qed.

#[export] Instance bind_proper :
  Proper (pointwise_relation A (≡) ==> (≡) ==> (≡)) (mbind (M:=Rand) (A:=A) (B:=B)).
Proof.
  intros f f' Hf m m' Hm. induction Hm; [apply Hf|..]; constructor; auto.
Qed.

Lemma wf_bind m f : wf m → (∀ a, a ∈ outcomes m → wf (f a)) → wf (m ≫= f).
Proof.
  induction m as [a|min max k IH|p k IH]; simpl.
  - intros _ H. apply H. set_solver.
  - intros [Hle Hk] H. split; [done|]. intros n Hn. apply IH; [auto|].
    intros a Ha. apply H. apply list_elem_of_bind. exists n.
    by rewrite elem_of_zrange.
  - intros [Hp Hk] H. split; [done|]. intros b. apply IH; [auto|].
    intros a Ha. apply H. destruct b; set_solver.
Qed.

End Bind.

Section Outcomes.
Context {A : Type}.
Implicit Types (m : Rand A) (rnd : source) (i : nat) (P : A → bool).

Lemma wfb_wf m : wfb m = true ↔ wf m.
Proof.
  induction m as [a|min max k IH|p k IH]; simpl.
  - done.
  - rewrite andb_true_iff, Z.leb_le, forallb_zrange. by setoid_rewrite IH.
  - rewrite !andb_true_iff, Qle_bool_iff, Qgtb_true, !IH. unfold unit_sample.
    split; [intros [[[??]?]?]; split; [done|by intros []] | intros [[??] Hk]; auto].
Qed.

Lemma all_outcomes_spec P m :
  all_outcomes P m = true ↔ ∀ a, a ∈ outcomes m → P a = true.
Proof.
  induction m as [a|min max k IH|p k IH]; simpl.
  - set_solver.
  - rewrite forallb_zrange. setoid_rewrite IH. setoid_rewrite list_elem_of_bind.
    setoid_rewrite elem_of_zrange. naive_solver.
  - rewrite andb_true_iff, !IH. setoid_rewrite elem_of_app. naive_solver.
Qed.

Theorem run_outcomes m rnd i :
  wf m → unit_source rnd → result m rnd i ∈ outcomes m.
Proof.
  intros Hwf Hrnd. unfold result. revert i Hwf.
  induction m as [a|min max k IH|p k IH]; intros i; simpl.
  - set_solver.
  - intros [Hle Hk]. pose proof (scale_range (rnd i) min max (Hrnd i) Hle) as Hs.
    apply list_elem_of_bind. exists (scale (rnd i) min max).
    rewrite elem_of_zrange. auto.
  - intros [_ Hk]. destruct (Qgtb (rnd i) p); set_solver.
Qed.

Lemma run_cons_source m r rnd i :
  run m (cons_source r rnd) (S i) = (result m rnd i, S (cursor m rnd i)).
Proof.
  unfold result, cursor. revert i.
  induction m as [a|min max k IH|p k IH]; intros i; simpl; [done|..]; apply IH.
Qed.

Lemma unit_cons_source r rnd :
  unit_sample r → unit_source rnd → unit_source (cons_source r rnd).
Proof. intros ?? [|j]; simpl; auto. Qed.

Theorem outcomes_run m a :
  wf m → a ∈ outcomes m → ∃ rnd, unit_source rnd ∧ result m rnd 0 = a.
Proof.
  unfold result.
  induction m as [a'|min max k IH|p k IH]; simpl.
  - intros _ ->%list_elem_of_singleton. exists (λ _, 0%Q). by split.
  - intros [Hle Hk] (n & Ha & Hn%elem_of_zrange)%list_elem_of_bind.
    destruct (IH n (Hk n Hn) Ha) as (rnd & Hu & Hr).
    exists (cons_source (sample_for n min max) rnd). split.
    + by apply unit_cons_source; [apply sample_for_unit|].
    + simpl. rewrite scale_sample_for, run_cons_source by done. apply Hr.
  - intros [Hp Hk] Ha.
    assert (∃ b, a ∈ outcomes (k b)) as [b Hb] by (set_solver).
    destruct (IH b (Hk b) Hb) as (rnd & Hu & Hr).
    exists (cons_source (sample_gt b p) rnd). split.
    + by apply unit_cons_source; [apply sample_gt_unit|].
    + simpl. rewrite Qgtb_sample_gt, run_cons_source by done. apply Hr.
Qed.

Corollary run_all_outcomes P m rnd i :
  wf m → all_outcomes P m = true → unit_source rnd → P (result m rnd i) = true.
Proof. intros Hwf HP Hrnd. eapply all_outcomes_spec; eauto using run_outcomes. Qed.

Lemma cursor_le_depth m rnd i :
  wf m → unit_source rnd → (cursor m rnd i ≤ i + depth m)%nat.
Proof.
  intros Hwf Hrnd. unfold cursor. revert i Hwf.
  induction m as [a|min max k IH|p k IH]; intros i; simpl.
  - lia.
  - intros [Hle Hk]. pose proof (scale_range (rnd i) min max (Hrnd i) Hle) as Hs.
    specialize (IH _ (S i) (Hk _ Hs)).
    assert (depth (k (scale (rnd i) min max)) ≤
            max_list ((λ n, depth (k n)) <$> zrange min max))%nat; [|lia].
    apply max_list_elem_of_le, list_elem_of_fmap. eexists; split; [done|].
    by apply elem_of_zrange.
  - intros [_ Hk]. specialize (IH (Qgtb (rnd i) p) (S i) (Hk _)).
    destruct (Qgtb (rnd i) p); lia.
Qed.

End Outcomes.

(** ** The postcondition calculus *)

Section Wp.
Context {A : Type}.
Implicit Types (m : Rand A) (Q : A → Prop) (P : A → bool).

Lemma wp_ret (a : A) Q : wp (mret a) Q ↔ Q a.
Proof. done. Qed.

Lemma wp_mono m Q Q' : (∀ a, Q a → Q' a) → wp m Q → wp m Q'.
Proof. intros HQ. induction m; simpl; eauto. Qed.

Lemma wp_conj m Q Q' : wp m Q → wp m Q' → wp m (λ a, Q a ∧ Q' a).
Proof. induction m; simpl; eauto. Qed.

Lemma wp_outcomes m Q : wp m Q ↔ ∀ a, a ∈ outcomes m → Q a.
Proof.
  induction m as [a|min max k IH|p k IH]; simpl.
  - set_solver.
  - setoid_rewrite IH. setoid_rewrite list_elem_of_bind.
    setoid_rewrite elem_of_zrange. naive_solver.
  - setoid_rewrite IH. setoid_rewrite elem_of_app. split.
    + intros H a [?|?]; eapply H; eauto.
    + intros H [] a ?; apply H; auto.
Qed.

Lemma wp_all_outcomes m P : all_outcomes P m = true ↔ wp m (λ a, P a = true).
Proof. by rewrite all_outcomes_spec, wp_outcomes. Qed.

(** What holds of every result holds of every run on unit samples. *)
Theorem wp_run m Q rnd i : wf m → unit_source rnd → wp m Q → Q (result m rnd i).
Proof. intros Hwf Hrnd H. eapply wp_outcomes; eauto using run_outcomes. Qed.

(** Well-formedness of a sequence from that of its parts. *)
Lemma wf_wp_bind {B} m (f : A → Rand B) : wf m → wp m (λ a, wf (f a)) → wf (m ≫= f).
Proof. intros Hm Hf. apply wf_bind; [done|]. by apply wp_outcomes. Qed.

End Wp.

Lemma wp_bind {A B} (m : Rand A) (f : A → Rand B) (Q : B → Prop) :
  wp (m ≫= f) Q ↔ wp m (λ a, wp (f a) Q).
Proof. induction m as [a|min max k IH|p k IH]; simpl; [done|..]; by setoid_rewrite IH. Qed.

Lemma wp_getRandom min max (Q : Z → Prop) :
  wp (getRandom min max) Q ↔ ∀ n, min ≤ n ≤ max → Q n.
Proof. done. Qed.

Lemma wp_randomGt p (Q : bool → Prop) : wp (randomGt p) Q ↔ ∀ b, Q b.
Proof. done. Qed.

Lemma wf_getRandom min max : wf (getRandom min max) ↔ min ≤ max.
Proof. simpl. naive_solver. Qed.

Lemma wf_randomGt p : wf (randomGt p) ↔ unit_sample p.
Proof. simpl. naive_solver. Qed.

(** [getRandom] on a source: the value is in range and one sample is read. *)
Lemma getRandom_run min max rnd i :
  unit_source rnd → min ≤ max →
  min ≤ result (getRandom min max) rnd i ≤ max ∧ cursor (getRandom min max) rnd i = S i.
Proof. intros Hrnd Hle. split; [by apply scale_range|done]. Qed.

(** Every integer of the range is returned on some sample. *)
Lemma getRandom_onto min max n :
  min ≤ n ≤ max → ∃ r, unit_sample r ∧ scale r min max = n.
Proof. exists (sample_for n min max). auto using sample_for_unit, scale_sample_for. Qed.

(** ** The calculus and the runs *)

(** The postcondition calculus is exact: for a well-formed computation,
    [wp m Q] holds exactly when [Q] holds of the result of every run on a
    source of unit samples.  What is proved through [wp] is true of every
    run, and every property of all runs can be proved through [wp]. *)
Theorem wp_runs {A} (m : Rand A) (Q : A → Prop) :
  wf m → wp m Q ↔ ∀ rnd i, unit_source rnd → Q (result m rnd i).
Proof.
  intros Hwf. split.
  - intros Hwp rnd i Hrnd. by apply wp_run.
  - intros Hruns. apply wp_outcomes. intros a (rnd & Hrnd & <-)%outcomes_run; auto.
Qed.

Lemma wp_runs_witness :
  wp (getRandom 5 20) (λ n, 5 ≤ n ≤ 20)
  ↔ ∀ rnd i, unit_source rnd → 5 ≤ result (getRandom 5 20) rnd i ≤ 20.
Proof. apply (wp_runs (getRandom 5 20)). by apply wf_getRandom. Defined.
