(* ===== verification/Chance.v ===== *)
(** * Chance.v: the results a computation can give, and how often

    Two companions of the calculus [wp] of [Random.v].

    - [may m Q] says that some choice of the draws (within their ranges) and
      of the outcomes of the tests leads [m] to a result that satisfies [Q]:
      the dual of [wp].  For a well-formed computation the choice is
      realised by a source of unit samples ([may_run]); with [wp_run] this
      is what makes a specification exact.
    - [prob], the probability of an event when the samples are uniform, is a
      probability: between 0 and 1, and 1 for the sure event
      ([prob_range], [prob_total]).  A part of the computation that has no
      influence on the event can be skipped ([prob_bind_wp]), and a test
      that decides the event gives it the probability of the test
      ([prob_test]). *)

From S2P Require Import Prelude Random.

#[local] Open Scope Z_scope.

(** Some result of [m] satisfies [Q]. *)
Fixpoint may {A} (m : Rand A) (Q : A → Prop) : Prop :=
  match m with
  | Ret a => Q a
  | GetRandom min max k => ∃ n, min ≤ n ≤ max ∧ may (k n) Q
  | RandomGt p k => ∃ b, may (k b) Q
  end.

(** The sum of [g] over a list, as [prob] forms it. *)
Definition Qsum {A} (g : A → Q) (l : list A) : Q :=
  foldr (λ n acc, g n + acc)%Q 0%Q l.

(** ** What a computation can return *)

Section May.
Context {A : Type}.
Implicit Types (m : Rand A) (Q : A → Prop).

Lemma may_ret (a : A) Q : Q a → may (mret a) Q.
Proof. done. Qed.

Lemma may_mono m Q Q' : (∀ a, Q a → Q' a) → may m Q → may m Q'.
Proof. intros HQ. induction m; simpl; naive_solver. Qed.

Lemma may_outcomes m Q : may m Q ↔ ∃ a, a ∈ outcomes m ∧ Q a.
Proof.
  induction m as [a|min max k IH|p k IH]; simpl.
  - set_solver.
  - setoid_rewrite IH. setoid_rewrite list_elem_of_bind.
    setoid_rewrite elem_of_zrange. naive_solver.
  - setoid_rewrite IH. setoid_rewrite elem_of_app. split.
    + intros [[] ?]; naive_solver.
    + intros (a & [?|?] & ?); [exists true|exists false]; eauto.
Qed.

(** [may] is the dual of [wp]. *)
Lemma wp_not_may m Q : wp m (λ a, ¬ Q a) ↔ ¬ may m Q.
Proof. rewrite wp_outcomes, may_outcomes. naive_solver. Qed.

(** A result that is possible is the result of a run. *)
Theorem may_run m Q : wf m → may m Q → ∃ rnd, unit_source rnd ∧ Q (result m rnd 0).
Proof.
  intros Hwf (a & Ha & HQ)%may_outcomes.
  destruct (outcomes_run m a Hwf Ha) as (rnd & ? & <-). eauto.
Qed.

(** What holds of every result holds of the possible one. *)
Lemma wp_may m Q Q' : wp m Q → may m Q' → may m (λ a, Q a ∧ Q' a).
Proof. induction m; simpl; naive_solver. Qed.

End May.

Lemma may_bind {A B} (m : Rand A) (f : A → Rand B) (Q : B → Prop) :
  may (m ≫= f) Q ↔ may m (λ a, may (f a) Q).
Proof. induction m as [a|min max k IH|p k IH]; simpl; [done|..]; by setoid_rewrite IH. Qed.

Section MayBind.
Context {A B : Type}.
Implicit Types (m : Rand A) (f : A → Rand B) (Q : B → Prop).

(** The rules by which a result is shown possible, one per form of the
    computation. *)
Lemma may_bind_ret (a : A) f Q : may (f a) Q → may (mret a ≫= f) Q.
Proof. done. Qed.

Lemma may_bind_eq m f Q (a : A) : may m (λ a', a' = a) → may (f a) Q → may (m ≫= f) Q.
Proof. intros Hm Hf. apply may_bind. eapply may_mono; [|exact Hm]. by intros ? ->. Qed.

Lemma may_bind_assoc {C} m f (g : B → Rand C) (Q : C → Prop) :
  may (m ≫= (λ a, f a ≫= g)) Q → may ((m ≫= f) ≫= g) Q.
Proof. rewrite !may_bind. apply may_mono. intros a Ha. by apply may_bind. Qed.

End MayBind.

Lemma may_draw {B} (n min max : Z) (f : Z → Rand B) (Q : B → Prop) :
  min ≤ n ≤ max → may (f n) Q → may (getRandom min max ≫= f) Q.
Proof. intros. exists n. by split. Qed.

Lemma may_test {B} (b : bool) p (f : bool → Rand B) (Q : B → Prop) :
  may (f b) Q → may (randomGt p ≫= f) Q.
Proof. intros. by exists b. Qed.

(** ** Probabilities *)

Lemma Qsum_cons {A} (g : A → Q) a l : Qsum g (a :: l) = (g a + Qsum g l)%Q.
Proof. done. Qed.

Lemma Qsum_const {A} (g : A → Q) (c : Q) l :
  (∀ a, a ∈ l → g a == c)%Q → (Qsum g l == inject_Z (Z.of_nat (length l)) * c)%Q.
Proof.
  induction l as [|a l IH]; intros Hg; [simpl; ring|].
  rewrite Qsum_cons, IH, (Hg a) by set_solver.
  cbn [length]. rewrite Nat2Z.inj_succ, <- Z.add_1_r, inject_Z_plus. ring.
Qed.

Lemma Qsum_range {A} (g : A → Q) l :
  (∀ a, a ∈ l → 0 <= g a <= 1)%Q → (0 <= Qsum g l <= inject_Z (Z.of_nat (length l)))%Q.
Proof.
  induction l as [|a l IH]; intros Hg; [split; apply Qle_refl|].
  rewrite Qsum_cons. cbn [length]. rewrite Nat2Z.inj_succ, <- Z.add_1_r, inject_Z_plus.
  pose proof (Hg a ltac:(set_solver)). pose proof (IH ltac:(set_solver)).
  change (inject_Z 1) with 1%Q. lra.
Qed.

Section Prob.
Context {A : Type}.
Implicit Types (m : Rand A) (P : A → bool).

Lemma prob_GetRandom P min max k :
  (prob P (GetRandom min max k)
   == Qsum (λ n, prob P (k n)) (zrange min max) / inject_Z (max - min + 1))%Q.
Proof. done. Qed.

Lemma prob_GetRandom_const P min max k (c : Q) :
  min ≤ max → (∀ n, min ≤ n ≤ max → prob P (k n) == c)%Q →
  (prob P (GetRandom min max k) == c)%Q.
Proof.
  intros Hle Hk. rewrite prob_GetRandom, (Qsum_const _ c).
  - rewrite length_zrange, Z2Nat.id by lia. field.
    change 0%Q with (inject_Z 0). rewrite inject_Z_injective. lia.
  - intros n ?%elem_of_zrange. auto.
Qed.

Lemma prob_RandomGt_const P p k (c : Q) :
  (prob P (k true) == c)%Q → (prob P (k false) == c)%Q →
  (prob P (RandomGt p k) == c)%Q.
Proof. intros Ht Hf. cbn [prob]. rewrite Ht, Hf. ring. Qed.

(** An event that every result decides alike has probability 1 or 0. *)
Lemma prob_const P m (b : bool) :
  wf m → wp m (λ a, P a = b) → (prob P m == if b then 1 else 0)%Q.
Proof.
  induction m as [a|min max k IH|p k IH]; simpl wf; simpl wp.
  - intros _ <-. reflexivity.
  - intros [Hle Hk] Hwp. apply prob_GetRandom_const; auto.
  - intros [_ Hk] Hwp. apply prob_RandomGt_const; auto.
Qed.

Theorem prob_total m : wf m → (prob (λ _, true) m == 1)%Q.
Proof. intros Hwf. apply (prob_const _ m true Hwf). by apply wp_outcomes. Qed.

Theorem prob_range P m : wf m → (0 <= prob P m <= 1)%Q.
Proof.
  induction m as [a|min max k IH|p k IH]; simpl wf.
  - intros _. simpl. destruct (P a); lra.
  - intros [Hle Hk]. rewrite prob_GetRandom.
    destruct (Qsum_range (λ n, prob P (k n)) (zrange min max)) as [H0 H1].
    { intros n ?%elem_of_zrange. auto. }
    rewrite length_zrange, Z2Nat.id in H1 by lia.
    assert (0 < inject_Z (max - min + 1))%Q as Hpos.
    { change 0%Q with (inject_Z 0). rewrite <- Zlt_Qlt. lia. }
    split; [by apply Qle_shift_div_l; [|lra] | by apply Qle_shift_div_r; [|lra]].
  - intros [[Hp0 Hp1] Hk]. cbn [prob].
    pose proof (IH true (Hk true)). pose proof (IH false (Hk false)). nra.
Qed.

End Prob.

Section ProbBind.
Context {A B : Type}.
Implicit Types (m : Rand A) (f : A → Rand B) (P : B → bool).

(** The draws of [m] do not matter when the event has the same probability
    after each of its results. *)
Lemma prob_bind_wp P m f (c : Q) :
  wf m → wp m (λ a, prob P (f a) == c)%Q → (prob P (m ≫= f) == c)%Q.
Proof.
  change (m ≫= f) with (bind m f).
  induction m as [a|min max k IH|p k IH]; simpl wf; simpl wp; cbn [bind].
  - done.
  - intros [Hle Hk] Hwp. apply prob_GetRandom_const; auto.
  - intros [_ Hk] Hwp. apply prob_RandomGt_const; auto.
Qed.

Lemma prob_draw P min max (f : Z → Rand B) (c : Q) :
  min ≤ max → (∀ n, min ≤ n ≤ max → prob P (f n) == c)%Q →
  (prob P (getRandom min max ≫= f) == c)%Q.
Proof. intros. by apply (prob_GetRandom_const P min max f). Qed.

(** A test on the source after which the event is sure on one side and
    impossible on the other: the event has the probability of the test. *)
Lemma prob_test P p (f : bool → Rand B) :
  (prob P (f true) == 1)%Q → (prob P (f false) == 0)%Q →
  (prob P (randomGt p ≫= f) == 1 - p)%Q.
Proof.
  intros Ht Hf.
  change (prob P (randomGt p ≫= f))
    with ((1 - p) * prob P (f true) + p * prob P (f false))%Q.
  rewrite Ht, Hf. ring.
Qed.

End ProbBind.
