(* ===== verification/Number.v ===== *)
(** * Number.v: JavaScript numbers

    A JavaScript [number] is an IEEE-754 binary64 value.  The model is the
    Standard Library's executable specification [SpecFloat] at precision 53
    and maximal exponent 1024: [add], [sub], [mul] and [div] are the IEEE
    operations with rounding to nearest, ties to even, which is what
    [+], [-], [*] and [/] compute in the program.

    [of_Z] converts an integer (rounding when it has more than 53 bits),
    [to_Q] is the exact rational value of a finite number, [isFinite] is
    JavaScript's [Number.isFinite], [ltb] is the comparison [<], and [pow] is
    [Math.pow] on the integer arguments the program passes. *)

From Stdlib Require Import Floats.SpecFloat.
From S2P Require Import Prelude.

#[local] Open Scope Z_scope.

Definition prec : Z := 53.
Definition emax : Z := 1024.

Definition number : Type := spec_float.
Definition NaN : number := S754_nan.

(** Equality of representations (not the comparison [===], under which NaN
    differs from itself and the two zeros are equal). *)
#[export] Instance number_eq_dec : EqDecision number.
Proof. solve_decision. Defined.

Definition of_Z (z : Z) : number := binary_normalize prec emax z 0 false.

Definition add (x y : number) : number := SFadd prec emax x y.
Definition sub (x y : number) : number := SFsub prec emax x y.
Definition mul (x y : number) : number := SFmul prec emax x y.
Definition div (x y : number) : number := SFdiv prec emax x y.

(** [x < y]: false when either side is NaN. *)
Definition ltb (x y : number) : bool := SFltb x y.

(** [Math.pow(base, exp)] for integer arguments with an exact result. *)
Definition pow (base exp : Z) : number := of_Z (base ^ exp).

(** [Number.isFinite]: neither an infinity nor NaN. *)
Definition isFinite (x : number) : bool :=
  match x with
  | S754_zero _ | S754_finite _ _ _ => true
  | S754_infinity _ | S754_nan => false
  end.

(** The value is a well-formed binary64: mantissa and exponent in range. *)
Definition valid (x : number) : bool := valid_binary prec emax x.

(** The exact value of a finite number: [(-1)^s * m * 2^e]. *)
Definition to_Q (x : number) : Q :=
  match x with
  | S754_finite s m e =>
      let v := match e with
               | Z0 => inject_Z (Zpos m)
               | Zpos p => inject_Z (Zpos m * 2 ^ Zpos p)
               | Zneg p => Qmake (Zpos m) (2 ^ p)%positive
               end in
      if s then Qopp v else v
  | _ => 0%Q
  end.

(** Two rationals differ by at most [tol]. *)
Definition Qclose (tol x y : Q) : bool := Qle_bool (Qabs (x - y)) tol.

(** The tolerance of the specification's evaluation property, [1e-9]. *)
Definition tolerance : Q := 1 # 1000000000.

Declare Scope num_scope.
Delimit Scope num_scope with num.
Bind Scope num_scope with number.
Infix "+" := add : num_scope.
Infix "-" := sub : num_scope.
Infix "*" := mul : num_scope.
Infix "/" := div : num_scope.

(** ** Integers are represented exactly *)

(** Every integer the program handles (operands, products, factorials and
    powers are all below 2^12) converts without rounding. *)
Lemma of_Z_exact_small (z : Z) :
  -4096 ≤ z ≤ 4096 →
  to_Q (of_Z z) == inject_Z z ∧ isFinite (of_Z z) = true ∧ valid (of_Z z) = true.
Proof.
  intros Hz.
  assert (H : forallb
    (λ z, Qeq_bool (to_Q (of_Z z)) (inject_Z z) && isFinite (of_Z z) && valid (of_Z z))
    (zrange (-4096) 4096) = true) by (vm_compute; reflexivity).
  rewrite forallb_zrange in H. specialize (H z Hz).
  rewrite !andb_true_iff in H. destruct H as [[Hq%Qeq_bool_iff Hf] Hv]. done.
Qed.

Lemma Qclose_spec tol x y : Qclose tol x y = true ↔ (Qabs (x - y) <= tol)%Q.
Proof. unfold Qclose. apply Qle_bool_iff. Qed.

Lemma Qclose_refl tol x : (0 <= tol)%Q → Qclose tol x x = true.
Proof.
  intros. apply Qclose_spec.
  assert (E : (x - x == 0)%Q) by ring. by rewrite E.
Qed.
