(* ===== verification/Text.v ===== *)
(** * Text.v: strings, number printing and the superscript table

    A JavaScript string is modelled by the Rocq string of its UTF-8 bytes.
    [toString] is [Number.prototype.toString] on the integers the program
    prints (template literals such as [`${a} + ${b}`] print their operands
    with it).  [toSuperscript] is the function of that name in
    [src/services/mathGenerator.ts]: the decimal digits of a number mapped
    through the table [sups].  [contains] is [String.prototype.includes]. *)

From Stdlib Require Import Ascii DecimalString DecimalZ DecimalPos DecimalFacts.
From stdpp Require Import gmap.
From S2P Require Import Prelude.

#[local] Open Scope string_scope.
#[local] Open Scope Z_scope.

(** ** Definitions *)

(** The decimal text of an integer, with a leading [-] when negative. *)
Definition toString (z : Z) : string := NilZero.string_of_int (Z.to_int z).

(** [s.split('')]: the characters of a string as one-character strings. *)
Fixpoint split_chars (s : string) : list string :=
  match s with
  | EmptyString => []
  | String c s' => String c EmptyString :: split_chars s'
  end.

(** [l.join('')] *)
Definition join (l : list string) : string := foldr String.append "" l.

(** The table of [toSuperscript]. *)
Definition sups : gmap string string :=
  list_to_map
    [("0", "⁰"); ("1", "¹"); ("2", "²"); ("3", "³"); ("4", "⁴");
     ("5", "⁵"); ("6", "⁶"); ("7", "⁷"); ("8", "⁸"); ("9", "⁹")].

(** [num.toString().split('').map(d => sups[d] || d).join('')] *)
Definition toSuperscript (num : Z) : string :=
  join ((λ d, default d (sups !! d)) <$> split_chars (toString num)).

(** [s.includes(sub)] *)
Fixpoint contains (sub s : string) : bool :=
  String.prefix sub s ||
  match s with
  | EmptyString => false
  | String _ s' => contains sub s'
  end.

(** The superscript glyphs, the values of [sups]. *)
Definition superscripts : list string :=
  ["⁰"; "¹"; "²"; "³"; "⁴"; "⁵"; "⁶"; "⁷"; "⁸"; "⁹"].

Definition has_superscript (s : string) : bool :=
  existsb (λ g, contains g s) superscripts.

(** An ASCII decimal digit. *)
Definition is_digit (c : ascii) : bool :=
  let n := N_of_ascii c in (48 <=? n)%N && (n <=? 57)%N.

Fixpoint all_chars (P : ascii → bool) (s : string) : bool :=
  match s with
  | EmptyString => true
  | String c s' => P c && all_chars P s'
  end.

(** ** Strings *)

Lemma append_cons c (s t : string) : String c s +:+ t = String c (s +:+ t).
Proof. reflexivity. Qed.

Lemma append_assoc (s t u : string) : (s +:+ t) +:+ u = s +:+ t +:+ u.
Proof. induction s as [|c s IH]; [done|]. by rewrite !append_cons, IH. Qed.

Lemma append_nil_r (s : string) : s +:+ "" = s.
Proof. induction s as [|c s IH]; [done|]. by rewrite append_cons, IH. Qed.

#[export] Hint Rewrite append_assoc append_nil_r : bodmas_rw.

Lemma join_split_chars s : join (split_chars s) = s.
Proof. induction s as [|c s IH]; simpl; [done|]. by rewrite IH. Qed.

Lemma length_split_chars s : length (split_chars s) = String.length s.
Proof. induction s; simpl; auto. Qed.

Lemma all_chars_app P s t : all_chars P (s +:+ t) = all_chars P s && all_chars P t.
Proof. induction s as [|c s IH]; simpl; [done|]. by rewrite IH, andb_assoc. Qed.

Lemma prefix_app sub t : String.prefix sub (sub +:+ t) = true.
Proof.
  induction sub as [|c sub IH]; simpl; [by destruct t|].
  destruct (ascii_dec c c); [done|congruence].
Qed.

Lemma prefix_inv sub s : String.prefix sub s = true → ∃ t, s = sub +:+ t.
Proof.
  revert s. induction sub as [|c sub IH]; intros s; [by exists s|].
  destruct s as [|c' s]; simpl; [done|].
  destruct (ascii_dec c c') as [->|]; [|done].
  intros [t ->]%IH. by exists t.
Qed.

(** [contains] finds exactly the substrings. *)
Lemma contains_spec sub s :
  contains sub s = true ↔ ∃ pre post, s = pre +:+ sub +:+ post.
Proof.
  split.
  - induction s as [|c s IH]; cbn [contains]; rewrite orb_true_iff.
    + intros [[t E]%prefix_inv|]; [|done]. by exists "", t.
    + intros [[t E]%prefix_inv|(pre & post & ->)%IH]; [by exists "", t|].
      by exists (String c pre), post.
  - intros (pre & post & ->). induction pre as [|c pre IH].
    + change ("" +:+ sub +:+ post) with (sub +:+ post).
      destruct (sub +:+ post) eqn:E; cbn [contains]; rewrite <- E, prefix_app; done.
    + change (String c pre +:+ sub +:+ post) with (String c (pre +:+ sub +:+ post)).
      cbn [contains]. by rewrite IH, orb_true_r.
Qed.

(** ** Printing integers *)

Lemma toString_inj z z' : toString z = toString z' → z = z'.
Proof.
  unfold toString. intros E. apply to_int_inj.
  apply (f_equal NilZero.int_of_string) in E.
  assert (N : ∀ z, NilZero.int_of_string (NilZero.string_of_int (Z.to_int z))
                   = Some (Z.to_int z)).
  { intros y. apply NilZero.isi; destruct y; simpl; try done;
      intros [=E']; by apply Unsigned.to_uint_nonnil in E'. }
  rewrite !N in E. by injection E.
Qed.

#[export] Instance toString_Inj : Inj (=) (=) toString.
Proof. intros ??. apply toString_inj. Qed.

(** The decimal text of a natural number below 10000 is made of digits and
    is not empty (the range covers every number the program prints). *)
Lemma toString_digits (z : Z) :
  (0 ≤ z ≤ 9999)%Z → all_chars is_digit (toString z) = true ∧ toString z ≠ "".
Proof.
  intros Hz.
  assert (H : forallb (λ z, all_chars is_digit (toString z)
                            && negb (String.eqb (toString z) ""))
                (zrange 0 9999) = true) by (vm_compute; reflexivity).
  rewrite forallb_zrange in H. specialize (H z Hz).
  apply andb_true_iff in H as [H1 H2]. split; [done|].
  intros E. by rewrite E in H2.
Qed.
