(* ===== verification/Types.v ===== *)
(** * Types.v: the enumerations and the application state of [src/types.ts]

    Each TypeScript [enum] is an inductive type with the source's member
    names, declared in a module of the enum's name so that members read as
    in the source ([Difficulty.EASY], [LogoPosition.TOP_LEFT]).  The string
    an enum member stands for is given by its [_value] function, and
    [_values] is [Object.values] of the enum, in declaration order.  The
    string-literal unions ([ContainerStyle], the header style, the watermark
    alignment) are modelled the same way.

    [AppState] is the interface of that name, field for field.  [Key] is
    [keyof AppState]; [field_type], [get] and [update] give the typed read
    and the functional update [{...prev, [key]: value}] that
    [src/components/Sidebar.tsx] and [src/App.tsx] perform on the state.
    Integer-valued numbers (sizes, paddings, offsets, the food variant) are
    [Z]; [lineSpacing] (1.2, never changed) is a rational; [answer] is a
    binary64 number. *)

From S2P Require Import Prelude Number.

#[local] Open Scope string_scope.

(** ** String-valued enumerations *)

(** What the program needs of an enumeration: the string each member
    stands for, the list of its members, and that the two determine each
    other. *)
Class StringEnum (A : Type) := {
  enum_value : A → string;
  enum_values : list A;
  enum_complete x : x ∈ enum_values;
  enum_value_inj : Inj (=) (=) enum_value
}.

(** The member a string stands for ([value as Difficulty] on the value of a
    select whose options are the members): [None] for any other string. *)
Definition of_value {A} `{StringEnum A} (s : string) : option A :=
  snd <$> list_find (λ x, enum_value x = s) enum_values.

(** ** Enumerations *)

Module Difficulty.
Inductive Difficulty : Set := EASY | MEDIUM | TRICKY | ULTRA_TRICKY.
End Difficulty.
Abbreviation Difficulty := Difficulty.Difficulty.

#[export] Instance Difficulty_eq_dec : EqDecision Difficulty.
Proof. solve_decision. Defined.

Definition Difficulty_value (x : Difficulty) : string :=
  match x with
  | Difficulty.EASY => "Easy"
  | Difficulty.MEDIUM => "Medium"
  | Difficulty.TRICKY => "Tricky"
  | Difficulty.ULTRA_TRICKY => "Ultra-Tricky (Viral)"
  end.

Definition Difficulty_values : list Difficulty :=
  [Difficulty.EASY; Difficulty.MEDIUM; Difficulty.TRICKY; Difficulty.ULTRA_TRICKY].

Module Platform.
Inductive Platform : Set := SQUARE | PORTRAIT.
End Platform.
Abbreviation Platform := Platform.Platform.

#[export] Instance Platform_eq_dec : EqDecision Platform.
Proof. solve_decision. Defined.

Definition Platform_value (x : Platform) : string :=
  match x with
  | Platform.SQUARE => "1:1 (Post)"
  | Platform.PORTRAIT => "9:16 (Reel/Shorts)"
  end.

Definition Platform_values : list Platform :=
  [Platform.SQUARE; Platform.PORTRAIT].

Module BgStyle.
Inductive BgStyle : Set := GRADIENT | CHALKBOARD | NEON | MINIMAL | VIBRANT | CUSTOM | FOOD.
End BgStyle.
Abbreviation BgStyle := BgStyle.BgStyle.

#[export] Instance BgStyle_eq_dec : EqDecision BgStyle.
Proof. solve_decision. Defined.

Definition BgStyle_value (x : BgStyle) : string :=
  match x with
  | BgStyle.GRADIENT => "Gradient"
  | BgStyle.CHALKBOARD => "Chalkboard"
  | BgStyle.NEON => "Neon Glow"
  | BgStyle.MINIMAL => "Minimal White"
  | BgStyle.VIBRANT => "Vibrant Pattern"
  | BgStyle.CUSTOM => "Custom Color"
  | BgStyle.FOOD => "Food Background"
  end.

Definition BgStyle_values : list BgStyle :=
  [BgStyle.GRADIENT; BgStyle.CHALKBOARD; BgStyle.NEON; BgStyle.MINIMAL; BgStyle.VIBRANT; BgStyle.CUSTOM; BgStyle.FOOD].

Module FoodType.
Inductive FoodType : Set := VEG | MEAL | DESSERT | SNACKS.
End FoodType.
Abbreviation FoodType := FoodType.FoodType.

#[export] Instance FoodType_eq_dec : EqDecision FoodType.
Proof. solve_decision. Defined.

Definition FoodType_value (x : FoodType) : string :=
  match x with
  | FoodType.VEG => "Veg"
  | FoodType.MEAL => "Starter + Main Course"
  | FoodType.DESSERT => "Dessert"
  | FoodType.SNACKS => "Snacks"
  end.

Definition FoodType_values : list FoodType :=
  [FoodType.VEG; FoodType.MEAL; FoodType.DESSERT; FoodType.SNACKS].

Module LogoPosition.
Inductive LogoPosition : Set := TOP_LEFT | TOP_RIGHT | BOTTOM_RIGHT.
End LogoPosition.
Abbreviation LogoPosition := LogoPosition.LogoPosition.

#[export] Instance LogoPosition_eq_dec : EqDecision LogoPosition.
Proof. solve_decision. Defined.

Definition LogoPosition_value (x : LogoPosition) : string :=
  match x with
  | LogoPosition.TOP_LEFT => "Top-Left"
  | LogoPosition.TOP_RIGHT => "Top-Right"
  | LogoPosition.BOTTOM_RIGHT => "Bottom-Right"
  end.

Definition LogoPosition_values : list LogoPosition :=
  [LogoPosition.TOP_LEFT; LogoPosition.TOP_RIGHT; LogoPosition.BOTTOM_RIGHT].

Module RankPosition.
Inductive RankPosition : Set := TOP_LEFT | TOP_RIGHT | BOTTOM_LEFT | CENTER_RIGHT.
End RankPosition.
Abbreviation RankPosition := RankPosition.RankPosition.

#[export] Instance RankPosition_eq_dec : EqDecision RankPosition.
Proof. solve_decision. Defined.

Definition RankPosition_value (x : RankPosition) : string :=
  match x with
  | RankPosition.TOP_LEFT => "Top-Left"
  | RankPosition.TOP_RIGHT => "Top-Right"
  | RankPosition.BOTTOM_LEFT => "Bottom-Left"
  | RankPosition.CENTER_RIGHT => "Center-Right"
  end.

Definition RankPosition_values : list RankPosition :=
  [RankPosition.TOP_LEFT; RankPosition.TOP_RIGHT; RankPosition.BOTTOM_LEFT; RankPosition.CENTER_RIGHT].

Module ContainerStyle.
Inductive ContainerStyle : Set := none | ribbon | badge | glass | minimal.
End ContainerStyle.
Abbreviation ContainerStyle := ContainerStyle.ContainerStyle.

#[export] Instance ContainerStyle_eq_dec : EqDecision ContainerStyle.
Proof. solve_decision. Defined.

Definition ContainerStyle_value (x : ContainerStyle) : string :=
  match x with
  | ContainerStyle.none => "none"
  | ContainerStyle.ribbon => "ribbon"
  | ContainerStyle.badge => "badge"
  | ContainerStyle.glass => "glass"
  | ContainerStyle.minimal => "minimal"
  end.

Definition ContainerStyle_values : list ContainerStyle :=
  [ContainerStyle.none; ContainerStyle.ribbon; ContainerStyle.badge; ContainerStyle.glass; ContainerStyle.minimal].

Module HeaderStyle.
Inductive HeaderStyle : Set := ribbon | badge | glow | minimal.
End HeaderStyle.
Abbreviation HeaderStyle := HeaderStyle.HeaderStyle.

#[export] Instance HeaderStyle_eq_dec : EqDecision HeaderStyle.
Proof. solve_decision. Defined.

Definition HeaderStyle_value (x : HeaderStyle) : string :=
  match x with
  | HeaderStyle.ribbon => "ribbon"
  | HeaderStyle.badge => "badge"
  | HeaderStyle.glow => "glow"
  | HeaderStyle.minimal => "minimal"
  end.

Definition HeaderStyle_values : list HeaderStyle :=
  [HeaderStyle.ribbon; HeaderStyle.badge; HeaderStyle.glow; HeaderStyle.minimal].

Module WatermarkAlign.
Inductive WatermarkAlign : Set := left | center | right.
End WatermarkAlign.
Abbreviation WatermarkAlign := WatermarkAlign.WatermarkAlign.

#[export] Instance WatermarkAlign_eq_dec : EqDecision WatermarkAlign.
Proof. solve_decision. Defined.

Definition WatermarkAlign_value (x : WatermarkAlign) : string :=
  match x with
  | WatermarkAlign.left => "left"
  | WatermarkAlign.center => "center"
  | WatermarkAlign.right => "right"
  end.

Definition WatermarkAlign_values : list WatermarkAlign :=
  [WatermarkAlign.left; WatermarkAlign.center; WatermarkAlign.right].

(** ** The application state *)

Module AppState.
Record AppState : Type := Build {
  question : string;
  answer : number;
  difficulty : Difficulty;
  platform : Platform;
  useFactorials : bool;
  useExponents : bool;
  useFractions : bool;
  fontFamily : string;
  fontSize : Z;
  fontWeight : string;
  letterSpacing : Z;
  lineSpacing : Q;
  fontColor : string;
  autoColor : bool;
  headerEnabled : bool;
  headerText : string;
  headerFont : string;
  headerStyle : HeaderStyle;
  questionBgStyle : ContainerStyle;
  questionPaddingX : Z;
  questionPaddingY : Z;
  questionYOffset : Z;
  questionBorderRadius : Z;
  bgStyle : BgStyle;
  bgColors : list string;
  customBgColor : string;
  foodType : FoodType;
  foodVariant : Z;
  logoUrl : option string;
  logoPosition : LogoPosition;
  showGlow : bool;
  showShadow : bool;
  showCommentFooter : bool;
  showRankBadge : bool;
  rankPosition : RankPosition;
  showWatermark : bool;
  watermarkText : string;
  watermarkAlign : WatermarkAlign;
  watermarkOffset : Z
}.
End AppState.
Abbreviation AppState := AppState.AppState.

(** [keyof AppState] *)
Module Key.
Inductive Key : Set :=
| question
| answer
| difficulty
| platform
| useFactorials
| useExponents
| useFractions
| fontFamily
| fontSize
| fontWeight
| letterSpacing
| lineSpacing
| fontColor
| autoColor
| headerEnabled
| headerText
| headerFont
| headerStyle
| questionBgStyle
| questionPaddingX
| questionPaddingY
| questionYOffset
| questionBorderRadius
| bgStyle
| bgColors
| customBgColor
| foodType
| foodVariant
| logoUrl
| logoPosition
| showGlow
| showShadow
| showCommentFooter
| showRankBadge
| rankPosition
| showWatermark
| watermarkText
| watermarkAlign
| watermarkOffset.
End Key.
Abbreviation Key := Key.Key.

#[export] Instance Key_eq_dec : EqDecision Key.
Proof. solve_decision. Defined.

Definition Key_values : list Key :=
  [Key.question; Key.answer; Key.difficulty; Key.platform; Key.useFactorials;
   Key.useExponents; Key.useFractions; Key.fontFamily; Key.fontSize;
   Key.fontWeight; Key.letterSpacing; Key.lineSpacing; Key.fontColor;
   Key.autoColor; Key.headerEnabled; Key.headerText; Key.headerFont;
   Key.headerStyle; Key.questionBgStyle; Key.questionPaddingX;
   Key.questionPaddingY; Key.questionYOffset; Key.questionBorderRadius;
   Key.bgStyle; Key.bgColors; Key.customBgColor; Key.foodType;
   Key.foodVariant; Key.logoUrl; Key.logoPosition; Key.showGlow;
   Key.showShadow; Key.showCommentFooter; Key.showRankBadge;
   Key.rankPosition; Key.showWatermark; Key.watermarkText;
   Key.watermarkAlign; Key.watermarkOffset].

(** [AppState[K]] *)
Definition field_type (key : Key) : Type :=
  match key with
  | Key.question => string
  | Key.answer => number
  | Key.difficulty => Difficulty
  | Key.platform => Platform
  | Key.useFactorials => bool
  | Key.useExponents => bool
  | Key.useFractions => bool
  | Key.fontFamily => string
  | Key.fontSize => Z
  | Key.fontWeight => string
  | Key.letterSpacing => Z
  | Key.lineSpacing => Q
  | Key.fontColor => string
  | Key.autoColor => bool
  | Key.headerEnabled => bool
  | Key.headerText => string
  | Key.headerFont => string
  | Key.headerStyle => HeaderStyle
  | Key.questionBgStyle => ContainerStyle
  | Key.questionPaddingX => Z
  | Key.questionPaddingY => Z
  | Key.questionYOffset => Z
  | Key.questionBorderRadius => Z
  | Key.bgStyle => BgStyle
  | Key.bgColors => list string
  | Key.customBgColor => string
  | Key.foodType => FoodType
  | Key.foodVariant => Z
  | Key.logoUrl => option string
  | Key.logoPosition => LogoPosition
  | Key.showGlow => bool
  | Key.showShadow => bool
  | Key.showCommentFooter => bool
  | Key.showRankBadge => bool
  | Key.rankPosition => RankPosition
  | Key.showWatermark => bool
  | Key.watermarkText => string
  | Key.watermarkAlign => WatermarkAlign
  | Key.watermarkOffset => Z
  end.

(** [state[key]] *)
Definition get (key : Key) (s : AppState) : field_type key :=
  match key with
  | Key.question => AppState.question s
  | Key.answer => AppState.answer s
  | Key.difficulty => AppState.difficulty s
  | Key.platform => AppState.platform s
  | Key.useFactorials => AppState.useFactorials s
  | Key.useExponents => AppState.useExponents s
  | Key.useFractions => AppState.useFractions s
  | Key.fontFamily => AppState.fontFamily s
  | Key.fontSize => AppState.fontSize s
  | Key.fontWeight => AppState.fontWeight s
  | Key.letterSpacing => AppState.letterSpacing s
  | Key.lineSpacing => AppState.lineSpacing s
  | Key.fontColor => AppState.fontColor s
  | Key.autoColor => AppState.autoColor s
  | Key.headerEnabled => AppState.headerEnabled s
  | Key.headerText => AppState.headerText s
  | Key.headerFont => AppState.headerFont s
  | Key.headerStyle => AppState.headerStyle s
  | Key.questionBgStyle => AppState.questionBgStyle s
  | Key.questionPaddingX => AppState.questionPaddingX s
  | Key.questionPaddingY => AppState.questionPaddingY s
  | Key.questionYOffset => AppState.questionYOffset s
  | Key.questionBorderRadius => AppState.questionBorderRadius s
  | Key.bgStyle => AppState.bgStyle s
  | Key.bgColors => AppState.bgColors s
  | Key.customBgColor => AppState.customBgColor s
  | Key.foodType => AppState.foodType s
  | Key.foodVariant => AppState.foodVariant s
  | Key.logoUrl => AppState.logoUrl s
  | Key.logoPosition => AppState.logoPosition s
  | Key.showGlow => AppState.showGlow s
  | Key.showShadow => AppState.showShadow s
  | Key.showCommentFooter => AppState.showCommentFooter s
  | Key.showRankBadge => AppState.showRankBadge s
  | Key.rankPosition => AppState.rankPosition s
  | Key.showWatermark => AppState.showWatermark s
  | Key.watermarkText => AppState.watermarkText s
  | Key.watermarkAlign => AppState.watermarkAlign s
  | Key.watermarkOffset => AppState.watermarkOffset s
  end.

(** The value of field [k] after a write of [v] at [key]: [v] when [k] is
    [key], the previous value [d] otherwise. *)
Definition pick {k : Key} (key : Key) (v : field_type key) (d : field_type k)
    : field_type k :=
  match decide (key = k) with
  | left e => eq_rect key field_type v k e
  | right _ => d
  end.

(** [{...prev, [key]: value}] *)
Definition update (key : Key) (v : field_type key) (s : AppState) : AppState :=
  {|
    AppState.question := pick (k := Key.question) key v (AppState.question s);
    AppState.answer := pick (k := Key.answer) key v (AppState.answer s);
    AppState.difficulty := pick (k := Key.difficulty) key v (AppState.difficulty s);
    AppState.platform := pick (k := Key.platform) key v (AppState.platform s);
    AppState.useFactorials := pick (k := Key.useFactorials) key v (AppState.useFactorials s);
    AppState.useExponents := pick (k := Key.useExponents) key v (AppState.useExponents s);
    AppState.useFractions := pick (k := Key.useFractions) key v (AppState.useFractions s);
    AppState.fontFamily := pick (k := Key.fontFamily) key v (AppState.fontFamily s);
    AppState.fontSize := pick (k := Key.fontSize) key v (AppState.fontSize s);
    AppState.fontWeight := pick (k := Key.fontWeight) key v (AppState.fontWeight s);
    AppState.letterSpacing := pick (k := Key.letterSpacing) key v (AppState.letterSpacing s);
    AppState.lineSpacing := pick (k := Key.lineSpacing) key v (AppState.lineSpacing s);
    AppState.fontColor := pick (k := Key.fontColor) key v (AppState.fontColor s);
    AppState.autoColor := pick (k := Key.autoColor) key v (AppState.autoColor s);
    AppState.headerEnabled := pick (k := Key.headerEnabled) key v (AppState.headerEnabled s);
    AppState.headerText := pick (k := Key.headerText) key v (AppState.headerText s);
    AppState.headerFont := pick (k := Key.headerFont) key v (AppState.headerFont s);
    AppState.headerStyle := pick (k := Key.headerStyle) key v (AppState.headerStyle s);
    AppState.questionBgStyle := pick (k := Key.questionBgStyle) key v (AppState.questionBgStyle s);
    AppState.questionPaddingX := pick (k := Key.questionPaddingX) key v (AppState.questionPaddingX s);
    AppState.questionPaddingY := pick (k := Key.questionPaddingY) key v (AppState.questionPaddingY s);
    AppState.questionYOffset := pick (k := Key.questionYOffset) key v (AppState.questionYOffset s);
    AppState.questionBorderRadius := pick (k := Key.questionBorderRadius) key v (AppState.questionBorderRadius s);
    AppState.bgStyle := pick (k := Key.bgStyle) key v (AppState.bgStyle s);
    AppState.bgColors := pick (k := Key.bgColors) key v (AppState.bgColors s);
    AppState.customBgColor := pick (k := Key.customBgColor) key v (AppState.customBgColor s);
    AppState.foodType := pick (k := Key.foodType) key v (AppState.foodType s);
    AppState.foodVariant := pick (k := Key.foodVariant) key v (AppState.foodVariant s);
    AppState.logoUrl := pick (k := Key.logoUrl) key v (AppState.logoUrl s);
    AppState.logoPosition := pick (k := Key.logoPosition) key v (AppState.logoPosition s);
    AppState.showGlow := pick (k := Key.showGlow) key v (AppState.showGlow s);
    AppState.showShadow := pick (k := Key.showShadow) key v (AppState.showShadow s);
    AppState.showCommentFooter := pick (k := Key.showCommentFooter) key v (AppState.showCommentFooter s);
    AppState.showRankBadge := pick (k := Key.showRankBadge) key v (AppState.showRankBadge s);
    AppState.rankPosition := pick (k := Key.rankPosition) key v (AppState.rankPosition s);
    AppState.showWatermark := pick (k := Key.showWatermark) key v (AppState.showWatermark s);
    AppState.watermarkText := pick (k := Key.watermarkText) key v (AppState.watermarkText s);
    AppState.watermarkAlign := pick (k := Key.watermarkAlign) key v (AppState.watermarkAlign s);
    AppState.watermarkOffset := pick (k := Key.watermarkOffset) key v (AppState.watermarkOffset s)
  |}.

(** A state for the instances of the theorems: the values [src/App.tsx]
    starts with, a question of the Tricky template and the white font the
    gradient background gets. *)
Definition sample_state : AppState :=
  {|
    AppState.question := "24 ÷ 6 × 3 + 6";
    AppState.answer := of_Z 18;
    AppState.difficulty := Difficulty.TRICKY;
    AppState.platform := Platform.SQUARE;
    AppState.useFactorials := false;
    AppState.useExponents := false;
    AppState.useFractions := false;
    AppState.fontFamily := "'Poppins', sans-serif";
    AppState.fontSize := 50%Z;
    AppState.fontWeight := "700";
    AppState.letterSpacing := 0%Z;
    AppState.lineSpacing := (12 # 10)%Q;
    AppState.fontColor := "#ffffff";
    AppState.autoColor := true;
    AppState.headerEnabled := true;
    AppState.headerText := "Only 1% Get This Right!";
    AppState.headerFont := "'Poppins', sans-serif";
    AppState.headerStyle := HeaderStyle.badge;
    AppState.questionBgStyle := ContainerStyle.none;
    AppState.questionPaddingX := 12%Z;
    AppState.questionPaddingY := 12%Z;
    AppState.questionYOffset := 0%Z;
    AppState.questionBorderRadius := 24%Z;
    AppState.bgStyle := BgStyle.GRADIENT;
    AppState.bgColors := ["#4f46e5"; "#9333ea"];
    AppState.customBgColor := "#4f46e5";
    AppState.foodType := FoodType.VEG;
    AppState.foodVariant := 0%Z;
    AppState.logoUrl := None;
    AppState.logoPosition := LogoPosition.BOTTOM_RIGHT;
    AppState.showGlow := true;
    AppState.showShadow := true;
    AppState.showCommentFooter := true;
    AppState.showRankBadge := false;
    AppState.rankPosition := RankPosition.TOP_LEFT;
    AppState.showWatermark := false;
    AppState.watermarkText := "Maths Mint";
    AppState.watermarkAlign := WatermarkAlign.right;
    AppState.watermarkOffset := 5%Z
  |}.

(** ** Laws of the enumerations *)

Section StringEnum.
Context {A : Type} `{StringEnum A}.

Lemma of_value_value (x : A) : of_value (enum_value x) = Some x.
Proof.
  unfold of_value.
  destruct (list_find _ enum_values) as [[i y]|] eqn:E; simpl.
  - apply list_find_Some in E as (_ & Hy & _).
    by apply enum_value_inj in Hy as ->.
  - apply list_find_None in E. eapply Forall_forall in E; [|apply (enum_complete x)].
    done.
Qed.

Lemma of_value_Some s (x : A) : of_value s = Some x ↔ enum_value x = s.
Proof.
  split; [|intros <-; apply of_value_value].
  unfold of_value. destruct (list_find _ enum_values) as [[i y]|] eqn:E; [|done].
  apply list_find_Some in E as (_ & Hy & _). by intros [= <-].
Qed.

Lemma of_value_None s : of_value (A:=A) s = None ↔ ∀ x : A, enum_value x ≠ s.
Proof.
  split.
  - intros E x Hx%of_value_Some. congruence.
  - intros Hs. destruct (of_value s) as [x|] eqn:E; [|done].
    by apply of_value_Some, Hs in E.
Qed.

End StringEnum.


#[export] Instance Difficulty_enum : StringEnum Difficulty :=
  {| enum_value := Difficulty_value; enum_values := Difficulty_values;
     enum_complete := ltac:(intros []; repeat constructor);
     enum_value_inj := ltac:(intros [] []; simpl; congruence) |}.

#[export] Instance Platform_enum : StringEnum Platform :=
  {| enum_value := Platform_value; enum_values := Platform_values;
     enum_complete := ltac:(intros []; repeat constructor);
     enum_value_inj := ltac:(intros [] []; simpl; congruence) |}.

#[export] Instance BgStyle_enum : StringEnum BgStyle :=
  {| enum_value := BgStyle_value; enum_values := BgStyle_values;
     enum_complete := ltac:(intros []; repeat constructor);
     enum_value_inj := ltac:(intros [] []; simpl; congruence) |}.

#[export] Instance FoodType_enum : StringEnum FoodType :=
  {| enum_value := FoodType_value; enum_values := FoodType_values;
     enum_complete := ltac:(intros []; repeat constructor);
     enum_value_inj := ltac:(intros [] []; simpl; congruence) |}.

#[export] Instance LogoPosition_enum : StringEnum LogoPosition :=
  {| enum_value := LogoPosition_value; enum_values := LogoPosition_values;
     enum_complete := ltac:(intros []; repeat constructor);
     enum_value_inj := ltac:(intros [] []; simpl; congruence) |}.

#[export] Instance RankPosition_enum : StringEnum RankPosition :=
  {| enum_value := RankPosition_value; enum_values := RankPosition_values;
     enum_complete := ltac:(intros []; repeat constructor);
     enum_value_inj := ltac:(intros [] []; simpl; congruence) |}.

#[export] Instance ContainerStyle_enum : StringEnum ContainerStyle :=
  {| enum_value := ContainerStyle_value; enum_values := ContainerStyle_values;
     enum_complete := ltac:(intros []; repeat constructor);
     enum_value_inj := ltac:(intros [] []; simpl; congruence) |}.

#[export] Instance HeaderStyle_enum : StringEnum HeaderStyle :=
  {| enum_value := HeaderStyle_value; enum_values := HeaderStyle_values;
     enum_complete := ltac:(intros []; repeat constructor);
     enum_value_inj := ltac:(intros [] []; simpl; congruence) |}.

#[export] Instance WatermarkAlign_enum : StringEnum WatermarkAlign :=
  {| enum_value := WatermarkAlign_value; enum_values := WatermarkAlign_values;
     enum_complete := ltac:(intros []; repeat constructor);
     enum_value_inj := ltac:(intros [] []; simpl; congruence) |}.

(** ** Simplification of reads after writes *)

(** Resolve each [pick] at concrete keys. *)
Ltac pick_simpl :=
  repeat match goal with
    | |- context [@pick ?k ?key ?v ?d] =>
        let b := eval vm_compute in (bool_decide (key = k)) in
        lazymatch b with
        | true => change (@pick k key v d) with v
        | false => change (@pick k key v d) with d
        end
    end.

Ltac pick_simpl_in H :=
  repeat match type of H with
    | context [@pick ?k ?key ?v ?d] =>
        let b := eval vm_compute in (bool_decide (key = k)) in
        lazymatch b with
        | true => change (@pick k key v d) with v in H
        | false => change (@pick k key v d) with d in H
        end
    end.

(** Reduce the fields of updated states. *)
Ltac state_cbn :=
  cbn [update get
      AppState.question AppState.answer AppState.difficulty AppState.platform
      AppState.useFactorials AppState.useExponents AppState.useFractions
      AppState.fontFamily AppState.fontSize AppState.fontWeight
      AppState.letterSpacing AppState.lineSpacing AppState.fontColor
      AppState.autoColor AppState.headerEnabled AppState.headerText
      AppState.headerFont AppState.headerStyle AppState.questionBgStyle
      AppState.questionPaddingX AppState.questionPaddingY
      AppState.questionYOffset AppState.questionBorderRadius AppState.bgStyle
      AppState.bgColors AppState.customBgColor AppState.foodType
      AppState.foodVariant AppState.logoUrl AppState.logoPosition
      AppState.showGlow AppState.showShadow AppState.showCommentFooter
      AppState.showRankBadge AppState.rankPosition AppState.showWatermark
      AppState.watermarkText AppState.watermarkAlign AppState.watermarkOffset].

Ltac state_cbn_in H :=
  cbn [update get
      AppState.question AppState.answer AppState.difficulty AppState.platform
      AppState.useFactorials AppState.useExponents AppState.useFractions
      AppState.fontFamily AppState.fontSize AppState.fontWeight
      AppState.letterSpacing AppState.lineSpacing AppState.fontColor
      AppState.autoColor AppState.headerEnabled AppState.headerText
      AppState.headerFont AppState.headerStyle AppState.questionBgStyle
      AppState.questionPaddingX AppState.questionPaddingY
      AppState.questionYOffset AppState.questionBorderRadius AppState.bgStyle
      AppState.bgColors AppState.customBgColor AppState.foodType
      AppState.foodVariant AppState.logoUrl AppState.logoPosition
      AppState.showGlow AppState.showShadow AppState.showCommentFooter
      AppState.showRankBadge AppState.rankPosition AppState.showWatermark
      AppState.watermarkText AppState.watermarkAlign AppState.watermarkOffset] in H.

Tactic Notation "state_simpl" := state_cbn; pick_simpl.
Tactic Notation "state_simpl" "in" hyp(H) := state_cbn_in H; pick_simpl_in H.


(** ** Laws of the state update *)

(** Reading the field just written gives the value written. *)
Lemma get_update key v s : get key (update key v s) = v.
Proof. by destruct key, s. Qed.

(** Writing a field does not change any other. *)
Lemma get_update_ne key key' v s : key ≠ key' → get key' (update key v s) = get key' s.
Proof. intros Hne. destruct s. destruct key; destruct key'; done. Qed.

(** Writing back what was read changes nothing. *)
Lemma update_get key s : update key (get key s) s = s.
Proof. by destruct key, s. Qed.

(** The last write to a field wins. *)
Lemma update_update key v w s : update key v (update key w s) = update key v s.
Proof. by destruct key, s. Qed.

(** Writes to different fields commute. *)
Lemma update_comm key key' v w s :
  key ≠ key' → update key v (update key' w s) = update key' w (update key v s).
Proof. intros Hne. destruct s. destruct key; destruct key'; done. Qed.

