(* ===== verification/Constants.v ===== *)
(** * Constants.v: the constant tables of [src/constants.ts]

    [FONTS], [HEADLINES], [FOOD_IMAGES] and [BG_PRESETS], entry for entry.
    A [Record<K, V>] over an enumeration is a total function on it.  The
    lemmas are what the rest of the program relies on: the tables read at
    index 0 are not empty, every food pool has the same positive size (the
    modulus of [shuffleFood]), and the preset colours are hex colours. *)

From Stdlib Require Import Ascii.
From S2P Require Import Prelude Text Types.

#[local] Open Scope string_scope.

(** ** Definitions *)

Record Font : Type := { name : string; family : string }.

Definition FONTS : list Font :=
  [ {| name := "Poppins"; family := "'Poppins', sans-serif" |};
    {| name := "Montserrat"; family := "'Montserrat', sans-serif" |};
    {| name := "Oswald"; family := "'Oswald', sans-serif" |};
    {| name := "Bebas Neue"; family := "'Bebas Neue', cursive" |};
    {| name := "Anton"; family := "'Anton', sans-serif" |};
    {| name := "Comic Neue"; family := "'Comic Neue', cursive" |};
    {| name := "Fredoka"; family := "'Fredoka', sans-serif" |};
    {| name := "Luckiest Guy"; family := "'Luckiest Guy', cursive" |};
    {| name := "Pacifico"; family := "'Pacifico', cursive" |};
    {| name := "Lobster"; family := "'Lobster', cursive" |};
    {| name := "Caveat"; family := "'Caveat', cursive" |};
    {| name := "Zeyada"; family := "'Zeyada', cursive" |};
    {| name := "Dancing Script"; family := "'Dancing Script', cursive" |};
    {| name := "Playfair Display"; family := "'Playfair Display', serif" |};
    {| name := "Digital"; family := "'Roboto Mono', monospace" |} ].

Definition HEADLINES : list string :=
  [ "🧠 Can You Solve This?";
    "Only 1% Get This Right!";
    "BODMAS Challenge 🔥";
    "Math Genius Test ⚡";
    "Tricky Math Quiz 🧪" ].

(** The common prefix and suffix of the image addresses. *)
Definition unsplash (id : string) : string :=
  "https://images.unsplash.com/photo-" +:+ id +:+ "?auto=format&fit=crop&w=1200&q=80".

Definition FOOD_IMAGES (foodType : FoodType) : list string :=
  match foodType with
  | FoodType.VEG =>
      [ unsplash "1512621776951-a57141f2eefd";
        unsplash "1540189549336-e6e99c3679fe";
        unsplash "1490645935967-10de6ba17061" ]
  | FoodType.MEAL =>
      [ unsplash "1559339352-11d035aa65de";
        unsplash "1504674900247-0877df9cc836";
        unsplash "1546069901-ba9599a7e63c" ]
  | FoodType.DESSERT =>
      [ unsplash "1563729784474-d77dbb933a9e";
        unsplash "1551024601-bec78aea704b";
        unsplash "1488477181946-6428a0291777" ]
  | FoodType.SNACKS =>
      [ unsplash "1599490659213-e2b9527bb087";
        unsplash "1534422298391-e4f8c170db06";
        unsplash "1565299624946-b28f40a0ae38" ]
  end.

Record Preset : Type := { colors : list string; class : string }.

(** The quotation mark, which the chalkboard class contains. *)
Definition dquote : string := String (ascii_of_nat 34) EmptyString.

Definition BG_PRESETS (bgStyle : BgStyle) : Preset :=
  match bgStyle with
  | BgStyle.GRADIENT =>
      {| colors := ["#4f46e5"; "#9333ea"];
         class := "bg-gradient-to-br from-indigo-600 to-purple-600" |}
  | BgStyle.CHALKBOARD =>
      {| colors := ["#1e293b"];
         class :=
           "bg-[#1a2e26] relative overflow-hidden before:content-[" +:+ dquote +:+
           dquote +:+ "] before:absolute before:inset-0 before:opacity-10 " +:+
           "before:bg-[url(" +:+ dquote +:+
           "https://www.transparenttextures.com/patterns/chalkboard.png" +:+
           dquote +:+ ")]" |}
  | BgStyle.NEON =>
      {| colors := ["#000000"];
         class := "bg-black border-2 border-cyan-500 shadow-[0_0_20px_rgba(6,182,212,0.5)]" |}
  | BgStyle.MINIMAL => {| colors := ["#ffffff"]; class := "bg-white" |}
  | BgStyle.VIBRANT =>
      {| colors := ["#f59e0b"; "#ef4444"];
         class := "bg-gradient-to-tr from-orange-400 to-red-500" |}
  | BgStyle.CUSTOM => {| colors := []; class := "" |}
  | BgStyle.FOOD => {| colors := []; class := "bg-cover bg-center" |}
  end.

(** A colour written [#rrggbb]. *)
Definition is_hex_digit (c : ascii) : bool :=
  let n := N_of_ascii c in
  ((48 <=? n) && (n <=? 57) || (97 <=? n) && (n <=? 102) || (65 <=? n) && (n <=? 70))%N.

Definition is_hex_color (s : string) : bool :=
  match s with
  | String "#" hex => (String.length hex =? 6)%nat && all_chars is_hex_digit hex
  | _ => false
  end.

(** ** Lemmas *)

(** Every pool of food images has three entries. *)
Lemma FOOD_IMAGES_length foodType : length (FOOD_IMAGES foodType) = 3%nat.
Proof. by destruct foodType. Qed.

(** [FONTS[0]] and [HEADLINES[0]], which the initial state reads, exist. *)
Lemma FONTS_head : family <$> FONTS !! 0%nat = Some "'Poppins', sans-serif".
Proof. reflexivity. Qed.

Lemma HEADLINES_head : is_Some (HEADLINES !! 0%nat).
Proof. by eexists. Qed.

(** The font families identify the fonts: the font selector compares them. *)
Lemma FONTS_family_NoDup : NoDup (family <$> FONTS).
Proof. apply (bool_decide_unpack _). by vm_compute. Qed.

Lemma HEADLINES_NoDup : NoDup HEADLINES.
Proof. apply (bool_decide_unpack _). by vm_compute. Qed.

(** The colours of the presets are hex colours. *)
Lemma BG_PRESETS_colors bgStyle c :
  c ∈ colors (BG_PRESETS bgStyle) → is_hex_color c = true.
Proof.
  destruct bgStyle; simpl; intros Hc;
    repeat (apply elem_of_cons in Hc as [->|Hc]; [by vm_compute|]);
    by apply elem_of_nil in Hc.
Qed.
