(* ===== verification/Sidebar.v ===== *)
(** * Sidebar.v: the editing handlers of [src/components/Sidebar.tsx]

    The component receives the rendered [state] and the setter [setState].
    A handler computes a value from the rendered state and passes the setter
    an updater [prev => ({...prev, [key]: value})]: here a handler is a
    function of the rendered state that returns the updater, a function on
    [AppState].  The two states are the same when the handler runs on the
    latest render; they differ when two handlers run before the component
    is rendered again ([adjustFontSize_stale]).

    - [update] is [Types.update].
    - [toggleSection] acts on the component's own record of open sections,
      a finite map from section names to booleans; a missing key reads as
      [undefined], whose negation is [true].
    - [adjustFontSize], [adjustLayoutValue] and [shuffleFood] are the
      functions of those names.  [x % n] is the remainder that has the sign
      of [x] ([Z.rem]).
    - [handleLogoUpload] starts an asynchronous read of the chosen file; its
      parameter here is the outcome of the read, the data address of the
      file when there is one. *)

From stdpp Require Import gmap.
From S2P Require Import Prelude Number Types Constants.

#[local] Open Scope Z_scope.

(** ** Definitions *)

(** The initial value of [openSections]. *)
Definition openSections : gmap string bool :=
  list_to_map
    [("logo", false); ("general", true); ("bg", false); ("header", false);
     ("boosters", false); ("typo", false); ("qstyling", true)]%string.

(** [prev => ({ ...prev, [key]: !prev[key] })] *)
Definition toggleSection (key : string) (prev : gmap string bool) : gmap string bool :=
  <[key := negb (default false (prev !! key))]> prev.

(** [update('logoUrl', event.target?.result)] once the file is read. *)
Definition handleLogoUpload (file : option string) : AppState → AppState :=
  match file with
  | Some result => update Key.logoUrl (Some result)
  | None => id
  end.

(** [update('fontSize', Math.min(250, Math.max(10, state.fontSize + delta)))] *)
Definition adjustFontSize (state : AppState) (delta : Z) : AppState → AppState :=
  update Key.fontSize (clamp 10 250 (AppState.fontSize state + delta)).

(** The keys [adjustLayoutValue] accepts. *)
Module LayoutKey.
Inductive LayoutKey : Set := questionYOffset | questionPaddingX | questionPaddingY.
End LayoutKey.
Abbreviation LayoutKey := LayoutKey.LayoutKey.

(** The table [limits]: the least and the greatest value of each key. *)
Definition limits (key : LayoutKey) : Z * Z :=
  match key with
  | LayoutKey.questionYOffset => (-300, 300)
  | LayoutKey.questionPaddingX => (0, 150)
  | LayoutKey.questionPaddingY => (0, 100)
  end.

(** [state[key]] and [update(key, v)] at a layout key. *)
Definition layout_get (key : LayoutKey) (s : AppState) : Z :=
  match key with
  | LayoutKey.questionYOffset => AppState.questionYOffset s
  | LayoutKey.questionPaddingX => AppState.questionPaddingX s
  | LayoutKey.questionPaddingY => AppState.questionPaddingY s
  end.

Definition layout_update (key : LayoutKey) (v : Z) : AppState → AppState :=
  match key with
  | LayoutKey.questionYOffset => update Key.questionYOffset v
  | LayoutKey.questionPaddingX => update Key.questionPaddingX v
  | LayoutKey.questionPaddingY => update Key.questionPaddingY v
  end.

(** [update(key, Math.min(max, Math.max(min, state[key] + delta)))] *)
Definition adjustLayoutValue (state : AppState) (key : LayoutKey) (delta : Z)
    : AppState → AppState :=
  let '(min, max) := limits key in
  layout_update key (clamp min max (layout_get key state + delta)).

(** [update('foodVariant', (state.foodVariant + 1) % poolSize)] *)
Definition shuffleFood (state : AppState) : AppState → AppState :=
  let poolSize := Z.of_nat (length (FOOD_IMAGES (AppState.foodType state))) in
  update Key.foodVariant (Z.rem (AppState.foodVariant state + 1) poolSize).

(** ** Sections *)

Lemma toggleSection_lookup key prev :
  toggleSection key prev !! key = Some (negb (default false (prev !! key))).
Proof. apply lookup_insert_eq. Qed.

Lemma toggleSection_lookup_ne key key' prev :
  key ≠ key' → toggleSection key prev !! key' = prev !! key'.
Proof. intros. by apply lookup_insert_ne. Qed.

(** C40. Toggling a section twice restores the record of open sections,
    when the section is in it. *)
Lemma toggleSection_twice key prev :
  is_Some (prev !! key) → toggleSection key (toggleSection key prev) = prev.
Proof.
  intros [b Hb]. unfold toggleSection.
  rewrite lookup_insert_eq, insert_insert_eq, Hb. simpl.
  rewrite negb_involutive. by apply insert_id.
Qed.

(** A name that is not in the record is added open, and stays in it. *)
Lemma toggleSection_missing key prev :
  prev !! key = None → toggleSection key prev !! key = Some true.
Proof. intros Hk. by rewrite toggleSection_lookup, Hk. Qed.

Lemma toggleSection_dom key prev :
  is_Some (prev !! key) → dom (toggleSection key prev) = dom prev.
Proof. intros Hk. unfold toggleSection. rewrite dom_insert_L. apply elem_of_dom in Hk. set_solver. Qed.

(** ** The clamped adjustments *)

Lemma limits_ordered key : (limits key).1 ≤ (limits key).2.
Proof. by destruct key. Qed.

Lemma layout_get_update key v s : layout_get key (layout_update key v s) = v.
Proof. by destruct key, s. Qed.

Lemma layout_get_update_ne key key' v s :
  key ≠ key' → layout_get key' (layout_update key v s) = layout_get key' s.
Proof. by destruct key, key', s. Qed.

Lemma adjustFontSize_fontSize state delta prev :
  AppState.fontSize (adjustFontSize state delta prev)
  = clamp 10 250 (AppState.fontSize state + delta).
Proof. by destruct prev. Qed.

Lemma adjustFontSize_other state delta prev key :
  key ≠ Key.fontSize → get key (adjustFontSize state delta prev) = get key prev.
Proof. intros. by apply get_update_ne. Qed.

Lemma adjustLayoutValue_get state key delta prev :
  layout_get key (adjustLayoutValue state key delta prev)
  = clamp (limits key).1 (limits key).2 (layout_get key state + delta).
Proof. unfold adjustLayoutValue. destruct (limits key). apply layout_get_update. Qed.

Lemma shuffleFood_foodVariant state prev :
  AppState.foodVariant (shuffleFood state prev)
  = Z.rem (AppState.foodVariant state + 1) 3.
Proof. unfold shuffleFood. rewrite FOOD_IMAGES_length. by destruct prev. Qed.

(** Two adjustments computed from the same render count once: the second
    updater writes the value the first wrote. *)
Lemma adjustFontSize_stale state delta prev :
  adjustFontSize state delta (adjustFontSize state delta prev)
  = adjustFontSize state delta prev.
Proof. apply update_update. Qed.

(** Whatever the step and the states, the font size [adjustFontSize]
    writes is between 10 and 250, and no other field changes. *)
Theorem adjustFontSize_range state delta prev :
  10 ≤ AppState.fontSize (adjustFontSize state delta prev) ≤ 250
  ∧ ∀ key, key ≠ Key.fontSize → get key (adjustFontSize state delta prev) = get key prev.
Proof.
  split; [|by intros; apply adjustFontSize_other].
  rewrite adjustFontSize_fontSize. by apply clamp_range.
Qed.

(** Within the bounds a step changes the size by exactly [delta]; at a
    bound a step outwards changes nothing. *)
Theorem adjustFontSize_step s delta :
  10 ≤ AppState.fontSize s ≤ 250 →
  AppState.fontSize (adjustFontSize s delta s)
  = if decide (AppState.fontSize s + delta < 10) then 10
    else if decide (250 < AppState.fontSize s + delta) then 250
    else AppState.fontSize s + delta.
Proof.
  intros Hs. rewrite adjustFontSize_fontSize. unfold clamp.
  repeat case_decide; lia.
Qed.

(** The value [adjustLayoutValue] writes is within the limits of its
    key. *)
Theorem adjustLayoutValue_range state key delta prev :
  (limits key).1 ≤ layout_get key (adjustLayoutValue state key delta prev)
  ≤ (limits key).2.
Proof. rewrite adjustLayoutValue_get. apply clamp_range, limits_ordered. Qed.

(** From a variant that is not negative, [shuffleFood] moves to an
    index of the pool of the current food type. *)
Theorem shuffleFood_range state prev :
  0 ≤ AppState.foodVariant state →
  is_Some (nth_Z (FOOD_IMAGES (AppState.foodType state))
             (AppState.foodVariant (shuffleFood state prev))).
Proof.
  intros Hv. apply nth_Z_is_Some. rewrite shuffleFood_foodVariant, FOOD_IMAGES_length.
  pose proof (Z.rem_bound_pos (AppState.foodVariant state + 1) 3). lia.
Qed.

(** Three shuffles from an index of the pool come back to it. *)
Theorem shuffleFood_cycle s :
  0 ≤ AppState.foodVariant s < 3 →
  let next s := shuffleFood s s in
  AppState.foodVariant (next (next (next s))) = AppState.foodVariant s.
Proof.
  intros Hv next. unfold next. rewrite !shuffleFood_foodVariant.
  assert (AppState.foodVariant s = 0 ∨ AppState.foodVariant s = 1
          ∨ AppState.foodVariant s = 2) as [->|[->| ->]] by lia; done.
Qed.

(** ** Instances *)

(** A state for the examples: only the fields the handlers read matter. *)
Definition example_state : AppState :=
  {| AppState.question := "6 ÷ 3(2 + 1)"; AppState.answer := of_Z 6;
     AppState.difficulty := Difficulty.ULTRA_TRICKY; AppState.platform := Platform.SQUARE;
     AppState.useFactorials := false; AppState.useExponents := false;
     AppState.useFractions := false; AppState.fontFamily := "'Poppins', sans-serif";
     AppState.fontSize := 249; AppState.fontWeight := "700"; AppState.letterSpacing := 0;
     AppState.lineSpacing := 12 # 10; AppState.fontColor := "#ffffff";
     AppState.autoColor := true; AppState.headerEnabled := true;
     AppState.headerText := "BODMAS Challenge"; AppState.headerFont := "'Anton', sans-serif";
     AppState.headerStyle := HeaderStyle.badge;
     AppState.questionBgStyle := ContainerStyle.none; AppState.questionPaddingX := 12;
     AppState.questionPaddingY := 12; AppState.questionYOffset := 0;
     AppState.questionBorderRadius := 24; AppState.bgStyle := BgStyle.FOOD;
     AppState.bgColors := []; AppState.customBgColor := "#4f46e5";
     AppState.foodType := FoodType.DESSERT; AppState.foodVariant := 2;
     AppState.logoUrl := None; AppState.logoPosition := LogoPosition.BOTTOM_RIGHT;
     AppState.showGlow := true; AppState.showShadow := true;
     AppState.showCommentFooter := true; AppState.showRankBadge := false;
     AppState.rankPosition := RankPosition.TOP_LEFT; AppState.showWatermark := false;
     AppState.watermarkText := "Maths Mint"; AppState.watermarkAlign := WatermarkAlign.right;
     AppState.watermarkOffset := 5 |}%string.

Lemma adjustFontSize_step_witness :
  AppState.fontSize (adjustFontSize example_state 5 example_state) = 250.
Proof. apply (adjustFontSize_step example_state 5). simpl. lia. Defined.

Lemma shuffleFood_range_witness :
  is_Some (nth_Z (FOOD_IMAGES FoodType.DESSERT)
             (AppState.foodVariant (shuffleFood example_state example_state))).
Proof. apply (shuffleFood_range example_state example_state). simpl. lia. Defined.

Lemma shuffleFood_cycle_witness :
  AppState.foodVariant
    (shuffleFood (shuffleFood (shuffleFood example_state example_state)
                    (shuffleFood example_state example_state))
       (shuffleFood (shuffleFood example_state example_state)
          (shuffleFood example_state example_state)))
  = 2.
Proof. apply (shuffleFood_cycle example_state). simpl. lia. Defined.

Lemma toggleSection_twice_witness :
  toggleSection "bg" (toggleSection "bg" openSections) = openSections.
Proof. apply toggleSection_twice. exists false. by vm_compute. Defined.
