(* ===== verification/SidebarView.v ===== *)
(** * SidebarView.v: the controls of [src/components/Sidebar.tsx]

    What the component returns: seven collapsible sections of controls and
    the button that asks for a new question.  A control is an [Element]: the
    kind of input it is, what it shows of the state, and its handler.  A
    handler is a function from what the event carries (the value of
    [e.target], nothing for a click) to an [Action]: the call of [setState]
    it makes, with the updater, or the call of [onGenerate].

    - [update(key, value)] takes a [value] of type [any].  Where the value
      is the string of a [select] or of a literal list and the field is an
      enumeration, the handler is [update_value]: the action is the update
      with the member the string stands for, and [ill_typed] when there is
      none, which the typed state cannot hold.  [Sidebar_well_typed] shows
      that no control of the sidebar can produce it.
    - A range input delivers the integer its value denotes
      ([parseInt(e.target.value)]), between its [min] and [max].
    - Elements that show nothing of the state and have no handler (labels,
      icons, hints) are left out, and so are class names, except for the
      highlight of the button of the current choice ([active]).
    - A section that is closed is still rendered, with no height: its
      controls are in the tree whether it is open or not. *)

From stdpp Require Import gmap.
From S2P Require Import Prelude Number Text Types Constants Sidebar.

#[local] Open Scope string_scope.
#[local] Open Scope Z_scope.

(** ** Definitions *)

(** What a handler does. *)
Inductive Action : Type :=
| setState (updater : AppState → AppState)
| onGenerate
| ill_typed (key : Key) (value : string).

(** The controls. *)
Inductive Element : Type :=
| file_input (label : string) (onChange : option string → Action)
| select (value : string) (options : list string) (onChange : string → Action)
| textarea (value : string) (onChange : string → Action)
| checkbox (checked : bool) (onChange : bool → Action)
| button (label : string) (active : bool) (onClick : Action)
| color_input (value : string) (onChange : string → Action)
| range (min max value : Z) (onChange : Z → Action)
| readout (text : string).

(** [update(key, value)] with a [value] of the type of the field. *)
Definition update_field (key : Key) (value : field_type key) : Action :=
  setState (update key value).

(** [update(key, value)] with a string for a field that is an enumeration. *)
Definition update_value {A} `{StringEnum A} (key : Key) (write : A → AppState → AppState)
    (value : string) : Action :=
  match of_value value with
  | Some member => setState (write member)
  | None => ill_typed key value
  end.

(** [Object.values(E).map(v => <option value={v}>)] *)
Definition options_of (A : Type) `{StringEnum A} : list string :=
  enum_value <$> enum_values (A := A).

(** [CollapsibleSection]: the title, whether the body is shown, the handler
    of the title bar, and the body. *)
Record CollapsibleSection : Type := {
  title : string;
  isOpen : bool;
  onToggle : gmap string bool → gmap string bool;
  children : list Element
}.

(** [openSections[key]] as a condition. *)
Definition is_open (openSections : gmap string bool) (key : string) : bool :=
  default false (openSections !! key).

(** *** 1. Brand logo *)

Definition logo_section (state : AppState) : list Element :=
  [ file_input
      (match AppState.logoUrl state with
       | Some logoUrl => if String.eqb logoUrl "" then "Upload 1:1 Logo" else "Change Logo"
       | None => "Upload 1:1 Logo"
       end)
      (λ file, setState (handleLogoUpload file));
    select (enum_value (AppState.logoPosition state)) (options_of LogoPosition)
      (update_value Key.logoPosition (update Key.logoPosition)) ].

(** *** 2. General information *)

Definition general_section (state : AppState) : list Element :=
  [ textarea (AppState.question state) (update_field Key.question);
    select (enum_value (AppState.difficulty state)) (options_of Difficulty)
      (update_value Key.difficulty (update Key.difficulty));
    select (enum_value (AppState.platform state)) (options_of Platform)
      (update_value Key.platform (update Key.platform));
    checkbox (AppState.useFactorials state) (update_field Key.useFactorials);
    checkbox (AppState.useExponents state) (update_field Key.useExponents);
    checkbox (AppState.useFractions state) (update_field Key.useFractions) ].

(** *** 3. Background *)

Definition bg_section (state : AppState) : list Element :=
  ((λ style, button (enum_value style) (bool_decide (AppState.bgStyle state = style))
               (update_field Key.bgStyle style))
     <$> enum_values (A := BgStyle))
  ++ (if decide (AppState.bgStyle state = BgStyle.CUSTOM) then
        [ color_input (AppState.customBgColor state) (update_field Key.customBgColor) ]
      else [])
  ++ (if decide (AppState.bgStyle state = BgStyle.FOOD) then
        [ select (enum_value (AppState.foodType state)) (options_of FoodType)
            (update_value Key.foodType (update Key.foodType));
          button "Next Background Image" false (setState (shuffleFood state)) ]
      else []).

(** *** 4. Question container *)

(** The two buttons, the value shown and the slider of a layout value. *)
Definition layout_controls (state : AppState) (key : LayoutKey) : list Element :=
  [ button "Minus" false (setState (adjustLayoutValue state key (-1)));
    readout (toString (layout_get key state) +:+ "px");
    button "Plus" false (setState (adjustLayoutValue state key 1));
    range (limits key).1 (limits key).2 (layout_get key state)
      (λ value, setState (layout_update key value)) ].

Definition qstyling_section (state : AppState) : list Element :=
  ((λ s, button s.2 (String.eqb (enum_value (AppState.questionBgStyle state)) s.1)
           (update_value Key.questionBgStyle (update Key.questionBgStyle) s.1))
     <$> [ ("none", "No Container"); ("ribbon", "Ribbon"); ("badge", "Badge");
           ("glass", "Glassmorphism"); ("minimal", "Minimal Box") ])
  ++ layout_controls state LayoutKey.questionYOffset
  ++ (if decide (AppState.questionBgStyle state ≠ ContainerStyle.none) then
        layout_controls state LayoutKey.questionPaddingX
        ++ layout_controls state LayoutKey.questionPaddingY
      else []).

(** *** 5. Header *)

Definition header_section (state : AppState) : list Element :=
  checkbox (AppState.headerEnabled state) (update_field Key.headerEnabled)
  :: (if AppState.headerEnabled state then
        select (AppState.headerText state) HEADLINES (update_field Key.headerText)
        :: ((λ style, button style
                        (String.eqb (enum_value (AppState.headerStyle state)) style)
                        (update_value Key.headerStyle (update Key.headerStyle) style))
              <$> ["ribbon"; "badge"; "glow"; "minimal"])
      else []).

(** *** 6. Boosters *)

Module Booster.
Inductive Booster : Set := showGlow | showShadow | showCommentFooter | showRankBadge.
End Booster.
Abbreviation Booster := Booster.Booster.

(** [state[feature.key]] and [update(feature.key, v)] at a booster. *)
Definition booster_get (key : Booster) (s : AppState) : bool :=
  match key with
  | Booster.showGlow => AppState.showGlow s
  | Booster.showShadow => AppState.showShadow s
  | Booster.showCommentFooter => AppState.showCommentFooter s
  | Booster.showRankBadge => AppState.showRankBadge s
  end.

Definition booster_update (key : Booster) (v : bool) : AppState → AppState :=
  match key with
  | Booster.showGlow => update Key.showGlow v
  | Booster.showShadow => update Key.showShadow v
  | Booster.showCommentFooter => update Key.showCommentFooter v
  | Booster.showRankBadge => update Key.showRankBadge v
  end.

Definition boosters_section (state : AppState) : list Element :=
  ((λ feature, button feature.1 (booster_get feature.2 state)
                 (setState (booster_update feature.2 (negb (booster_get feature.2 state)))))
     <$> [ ("Glow Effect", Booster.showGlow); ("Text Shadow", Booster.showShadow);
           ("Comment Footer", Booster.showCommentFooter);
           ("Verified Rank", Booster.showRankBadge) ])
  ++ (if AppState.showRankBadge state then
        [ select (enum_value (AppState.rankPosition state)) (options_of RankPosition)
            (update_value Key.rankPosition (update Key.rankPosition)) ]
      else []).

(** *** 7. Typography *)

Definition typo_section (state : AppState) : list Element :=
  ((λ f, button (name f) (String.eqb (AppState.fontFamily state) (family f))
           (update_field Key.fontFamily (family f)))
     <$> FONTS)
  ++ [ select (AppState.fontWeight state) ["400"; "600"; "800"; "900"]
         (update_field Key.fontWeight);
       checkbox (AppState.autoColor state) (update_field Key.autoColor) ]
  ++ (if negb (AppState.autoColor state) then
        [ color_input (AppState.fontColor state) (update_field Key.fontColor) ]
      else [])
  ++ [ button "Minus" false (setState (adjustFontSize state (-1)));
       readout (toString (AppState.fontSize state) +:+ "px");
       button "Plus" false (setState (adjustFontSize state 1));
       range 10 250 (AppState.fontSize state) (update_field Key.fontSize) ].

(** *** The component *)

Definition generate_button : Element := button "Generate New Question" false onGenerate.

Definition Sidebar (state : AppState) (openSections : gmap string bool)
    : list CollapsibleSection * Element :=
  ([ {| title := "Brand Logo"; isOpen := is_open openSections "logo";
        onToggle := toggleSection "logo"; children := logo_section state |};
     {| title := "General Info"; isOpen := is_open openSections "general";
        onToggle := toggleSection "general"; children := general_section state |};
     {| title := "Background Style"; isOpen := is_open openSections "bg";
        onToggle := toggleSection "bg"; children := bg_section state |};
     {| title := "Question Visibility"; isOpen := is_open openSections "qstyling";
        onToggle := toggleSection "qstyling"; children := qstyling_section state |};
     {| title := "Header Settings"; isOpen := is_open openSections "header";
        onToggle := toggleSection "header"; children := header_section state |};
     {| title := "Viral Boosters"; isOpen := is_open openSections "boosters";
        onToggle := toggleSection "boosters"; children := boosters_section state |};
     {| title := "Typography"; isOpen := is_open openSections "typo";
        onToggle := toggleSection "typo"; children := typo_section state |} ],
   generate_button).

(** The controls of the sidebar, in the order of the tree. *)
Definition controls (state : AppState) : list Element :=
  logo_section state ++ general_section state ++ bg_section state
  ++ qstyling_section state ++ header_section state ++ boosters_section state
  ++ typo_section state ++ [generate_button].

(** The handler does not store a value that is not of the field's type. *)
Definition typed (action : Action) : Prop :=
  match action with
  | ill_typed _ _ => False
  | _ => True
  end.

(** Every action the control can take is typed: a [select] delivers one of
    its options, the other inputs any value of their kind. *)
Definition well_typed (el : Element) : Prop :=
  match el with
  | file_input _ onChange => ∀ file, typed (onChange file)
  | select _ options onChange => ∀ value, value ∈ options → typed (onChange value)
  | textarea _ onChange | color_input _ onChange => ∀ value, typed (onChange value)
  | checkbox _ onChange => ∀ checked, typed (onChange checked)
  | button _ _ onClick => typed onClick
  | range _ _ _ onChange => ∀ value, typed (onChange value)
  | readout _ => True
  end.

(** The [select] shows its value: the value is one of the options. *)
Definition shows_value (el : Element) : Prop :=
  match el with
  | select value options _ => value ∈ options
  | _ => True
  end.

(** ** Typing of the handlers *)

Lemma update_value_member {A} `{StringEnum A} key write (member : A) :
  update_value key write (enum_value member) = setState (write member).
Proof. unfold update_value. by rewrite of_value_value. Qed.

(** A string that stands for no member is not stored. *)
Lemma update_value_other {A} `{StringEnum A} key (write : A → AppState → AppState) value :
  (∀ member : A, enum_value member ≠ value) →
  update_value key write value = ill_typed key value.
Proof. intros Hv. unfold update_value. by rewrite (proj2 (of_value_None value)). Qed.

Lemma typed_update_value {A} `{StringEnum A} key (write : A → AppState → AppState) value :
  value ∈ options_of A → typed (update_value key write value).
Proof.
  intros (member & -> & _)%list_elem_of_fmap. by rewrite update_value_member.
Qed.

Lemma elem_of_options_of {A} `{StringEnum A} (member : A) : enum_value member ∈ options_of A.
Proof. apply list_elem_of_fmap. eauto using enum_complete. Qed.

#[export] Hint Resolve typed_update_value elem_of_options_of : bodmas.

(** One element of a section. *)
Ltac typed_element :=
  lazymatch goal with
  | |- well_typed (select _ (options_of _) _) => intros ? ?; by apply typed_update_value
  | |- well_typed (button _ _ (update_value _ _ _)) =>
      apply typed_update_value; apply (bool_decide_unpack _); by vm_compute
  | |- well_typed _ => by simpl
  end.

(** The elements of a section, the conditional parts case by case. *)
Ltac by_elements tac :=
  repeat lazymatch goal with
    | |- Forall _ [] => apply Forall_nil_2
    | |- Forall _ (_ :: _) => apply Forall_cons_2; [tac|]
    | |- Forall _ (_ ++ _)%list => apply Forall_app_2
    | |- Forall _ (if decide _ then _ else _) => case_decide
    | |- Forall _ (if ?b then _ else _) => destruct b
    end.

Lemma layout_controls_well_typed state key : Forall well_typed (layout_controls state key).
Proof. unfold layout_controls. by_elements ltac:(idtac; typed_element). Qed.

#[export] Hint Resolve layout_controls_well_typed : bodmas.

(** C33. The handlers are well typed: whatever the state, no control of the
    sidebar stores a string that is not a value of the field it writes; the
    strings of the option lists and of the literal lists of buttons all
    stand for members of the enumeration of their field. *)
Theorem Sidebar_well_typed state : Forall well_typed (controls state).
Proof.
  unfold controls, logo_section, general_section, bg_section, qstyling_section,
    header_section, boosters_section, typo_section, generate_button.
  cbn [fmap list_fmap enum_values BgStyle_enum BgStyle_values FONTS].
  by_elements ltac:(idtac; typed_element); auto with bodmas.
Qed.

(** ** The values shown *)


(** The weight the application starts with is not one of the options. *)
Lemma fontWeight_700_not_offered state :
  AppState.fontWeight state = "700" →
  ¬ Forall shows_value (typo_section state).
Proof.
  intros Hw. unfold typo_section. rewrite !Forall_app, Forall_cons, Hw. simpl.
  intros (_ & [Hin _] & _). set_solver.
Qed.

(** ** Instances *)

