(* ===== verification/MathGenerator.v ===== *)
(** * MathGenerator.v: the question generator of [src/services/mathGenerator.ts]

    [generateBODMAS difficulty useFactorials useExponents useFractions] is
    the function of that name: a computation over the random source
    ([Random.v]) that returns the question text and its numeric answer.  Its
    four branches are the definitions [easy], [medium], [tricky] and
    [ultraTricky]; the local helpers [getSmallFact], [getSmallExp] and
    [getSmallFrac] keep their names, as do [factorial] and [toSuperscript]
    ([Text.v]).

    How the code maps:
    - the operands drawn by [getRandom] are integers ([Z]); [b * getRandom(4, 10)]
      and [multiplier * factor] are integer products;
    - the values of terms and every step of an answer are binary64 numbers:
      [(valA / b) * valC + valD] is [((of_Z a / of_Z b) * valC + valD)%num];
    - a template literal is a concatenation of the printed operands;
    - the array [options] of mode names is a list of [Mode], and
      [options[i]] is [nth_Z options i], which is [None] where JavaScript
      reads [undefined];
    - [cond && Math.random() > p] reads the source only when [cond] holds;
    - the literals [0.5] and [0.3] are the binary64 numbers they denote. *)

From Equations Require Import Equations.
From S2P Require Import Prelude Random Number Text Types.

#[local] Open Scope string_scope.
#[local] Open Scope Z_scope.

(** ** Data *)

(** A term: its rendering and its value, [{ text, val }]. *)
Record Term : Type := { text : string; val : number }.

(** The result, [{ question, answer }]. *)
Record Question : Type := { question : string; answer : number }.

(** The names pushed on [options]: ['exp'], ['fact'], ['frac']. *)
Module Mode.
Inductive Mode : Set := exp | fact | frac.
End Mode.
Abbreviation Mode := Mode.Mode.

#[export] Instance Mode_eq_dec : EqDecision Mode.
Proof. solve_decision. Defined.

(** The number literals [0.5] and [0.3] of the two tests on [Math.random()]. *)
Definition literal_0_5 : Q := to_Q (of_Z 1 / of_Z 2)%num.
Definition literal_0_3 : Q := to_Q (of_Z 3 / of_Z 10)%num.

(** ** [factorial] *)

Equations? factorial (n : Z) : Z by wf (Z.to_nat n) lt :=
  factorial n with decide (n ≤ 1) := {
    | left _ => 1
    | right _ => n * factorial (n - 1) }.
Proof. lia. Qed.

(** ** The term generators *)

(** [{ text: `${n}!`, val: factorial(n) }] for [n] in 2..5. *)
Definition getSmallFact : Rand Term :=
  n ← getRandom 2 5;
  mret {| text := toString n +:+ "!"; val := of_Z (factorial n) |}.

(** [{ text: `${base}${toSuperscript(exp)}`, val: Math.pow(base, exp) }]. *)
Definition getSmallExp : Rand Term :=
  base ← getRandom 2 5;
  exp ← getRandom 2 3;
  mret {| text := toString base +:+ toSuperscript exp; val := pow base exp |}.

Definition denominators : list Z := [2; 4; 5; 10].

(** [{ text: `${num}/${den}`, val: num / den }].  When the read of
    [denominators] is out of range, [den] is [undefined]: [getRandom(1, NaN)]
    still reads one sample, and text and value are ["NaN/undefined"] and
    NaN. *)
Definition getSmallFrac : Rand Term :=
  i ← getRandom 0 (Z.of_nat (length denominators) - 1);
  match nth_Z denominators i with
  | Some den =>
      num ← getRandom 1 (den - 1);
      mret {| text := toString num +:+ "/" +:+ toString den;
              val := (of_Z num / of_Z den)%num |}
  | None =>
      _ ← randomGt 0;
      mret {| text := "NaN/undefined"; val := NaN |}
  end.

(** [if (flag) options.push(mode)] *)
Definition push_if (flag : bool) (mode : Mode) (options : list Mode) : list Mode :=
  if flag then options ++ [mode] else options.

(** ** The four branches *)

(** [Difficulty.EASY]: [a + b - c]. *)
Definition easy : Rand Question :=
  a ← getRandom 5 20;
  b ← getRandom 5 20;
  c ← getRandom 1 10;
  mret {| question := toString a +:+ " + " +:+ toString b +:+ " - " +:+ toString c;
          answer := (of_Z a + of_Z b - of_Z c)%num |}.

(** [Difficulty.MEDIUM]: [a × b + c], the product replaced by an exponent or
    a fraction when one is enabled and the test on the source succeeds. *)
Definition medium (useExponents useFractions : bool) : Rand Question :=
  a ← getRandom 2 10;
  b ← getRandom 2 10;
  c ← getRandom 1 20;
  let leftSide := (of_Z a * of_Z b)%num in
  let leftText := toString a +:+ " × " +:+ toString b in
  let options := push_if useFractions Mode.frac (push_if useExponents Mode.exp []) in
  replace ← (if (0 <? Z.of_nat (length options)) then randomGt literal_0_5 else mret false);
  '(leftText, leftSide) ←
    (if (replace : bool) then
       i ← getRandom 0 (Z.of_nat (length options) - 1);
       match nth_Z options i with
       | Some Mode.exp => exp ← getSmallExp; mret (text exp, val exp)
       | _ => frac ← getSmallFrac; mret (text frac, val frac)
       end
     else mret (leftText, leftSide));
  mret {| question := leftText +:+ " + " +:+ toString c;
          answer := (leftSide + of_Z c)%num |}.

(** [Difficulty.TRICKY]: [a ÷ b × c + d] with [a] a multiple of [b]; one
    enabled option, when there is one, replaces [c] (exponent, fraction) or
    [d] (factorial). *)
Definition tricky (useFactorials useExponents useFractions : bool) : Rand Question :=
  b ← getRandom 2 6;
  k ← getRandom 4 10;
  let a := b * k in
  c ← getRandom 2 5;
  d ← getRandom 5 15;
  let valA := of_Z a in
  let txtA := toString a in
  let valC := of_Z c in
  let txtC := toString c in
  let valD := of_Z d in
  let txtD := toString d in
  let options :=
    push_if useFractions Mode.frac
      (push_if useFactorials Mode.fact (push_if useExponents Mode.exp [])) in
  '(txtC, valC, txtD, valD) ←
    (if (0 <? Z.of_nat (length options)) then
       i ← getRandom 0 (Z.of_nat (length options) - 1);
       match nth_Z options i with
       | Some Mode.exp => exp ← getSmallExp; mret (text exp, val exp, txtD, valD)
       | Some Mode.fact => fact ← getSmallFact; mret (txtC, valC, text fact, val fact)
       | Some Mode.frac => frac ← getSmallFrac; mret (text frac, val frac, txtD, valD)
       | None => mret (txtC, valC, txtD, valD)
       end
     else mret (txtC, valC, txtD, valD));
  let answer := ((valA / of_Z b) * valC + valD)%num in
  let question :=
    txtA +:+ " ÷ " +:+ toString b +:+ " × " +:+ txtC +:+ " + " +:+ txtD in
  mret {| question := question; answer := answer |}.

(** The last branch ([Difficulty.ULTRA_TRICKY]): [dividend ÷ multiplier(inner)],
    with an optional factorial term added in front. *)
Definition ultraTricky (useFactorials useExponents useFractions : bool) : Rand Question :=
  multiplier ← getRandom 2 6;
  factor ← getRandom 2 4;
  inside1 ← getRandom 1 4;
  inside2 ← getRandom 1 4;
  let dividend := multiplier * factor in
  let qInner := toString inside1 +:+ " + " +:+ toString inside2 in
  let innerVal := (of_Z inside1 + of_Z inside2)%num in
  let options := push_if useFractions Mode.frac (push_if useExponents Mode.exp []) in
  replace ← (if (0 <? Z.of_nat (length options)) then randomGt literal_0_5 else mret false);
  '(qInner, innerVal) ←
    (if (replace : bool) then
       i ← getRandom 0 (Z.of_nat (length options) - 1);
       match nth_Z options i with
       | Some Mode.exp =>
           exp ← getSmallExp;
           mret (text exp +:+ " + " +:+ toString inside2, (val exp + of_Z inside2)%num)
       | _ =>
           frac ← getSmallFrac;
           mret (text frac +:+ " + " +:+ toString inside2, (val frac + of_Z inside2)%num)
       end
     else mret (qInner, innerVal));
  let mainPartVal := ((of_Z dividend / of_Z multiplier) * innerVal)%num in
  let mainPartTxt :=
    toString dividend +:+ " ÷ " +:+ toString multiplier +:+ "(" +:+ qInner +:+ ")" in
  prepend ← (if useFactorials then randomGt literal_0_3 else mret false);
  if (prepend : bool) then
    fact ← getSmallFact;
    mret {| question := text fact +:+ " + " +:+ mainPartTxt;
            answer := (val fact + mainPartVal)%num |}
  else mret {| question := mainPartTxt; answer := mainPartVal |}.

(** ** [generateBODMAS] *)

Definition generateBODMAS (difficulty : Difficulty)
    (useFactorials useExponents useFractions : bool) : Rand Question :=
  if decide (difficulty = Difficulty.EASY) then easy
  else if decide (difficulty = Difficulty.MEDIUM) then medium useExponents useFractions
  else if decide (difficulty = Difficulty.TRICKY) then
    tricky useFactorials useExponents useFractions
  else ultraTricky useFactorials useExponents useFractions.
