(* ===== verification/Expression.v ===== *)
(** * Expression.v: arithmetic expressions, their text and their values

    The questions [src/services/mathGenerator.ts] builds are arithmetic
    expressions.  [Expr] is their syntax; [render] is the text the template
    literals of the generator produce, [evalF] the binary64 value the
    generator computes along the same structure, and [evalQ] the exact
    rational value.

    [eval_text] is the reader's side: an evaluator of question texts under
    the usual order of operations, written independently of [Expr].  It
    splits the text into tokens ([lex]) and evaluates sums of products of
    postfix terms, left to right, in exact rational arithmetic:
    - [+] and [-] bind weakest; [×], [÷], [/] and a parenthesis that follows
      a term (implicit multiplication) bind next, left to right;
    - [!] and superscript digits apply to the term they follow;
    - a division by zero, a factorial of a non-natural number and a malformed
      text have no value ([None]).
    The fuel of the evaluator is four times the number of tokens plus four,
    which covers one call per token at each of its four levels. *)

From Stdlib Require Import Ascii Factorial.
From S2P Require Import Prelude Number Text MathGenerator.

#[local] Open Scope string_scope.
#[local] Open Scope Z_scope.

(** ** Syntax *)

Inductive Expr : Type :=
| Num (n : Z)
| Fact (n : Z)
| Pow (base exp : Z)
| Frac (num den : Z)
| Add (x y : Expr)
| Sub (x y : Expr)
| Mul (x y : Expr)
| Div (x y : Expr)
| Juxt (x y : Expr).

(** The text, as the generator's template literals build it. *)
Fixpoint render (e : Expr) : string :=
  match e with
  | Num n => toString n
  | Fact n => toString n +:+ "!"
  | Pow base exp => toString base +:+ toSuperscript exp
  | Frac num den => toString num +:+ "/" +:+ toString den
  | Add x y => render x +:+ " + " +:+ render y
  | Sub x y => render x +:+ " - " +:+ render y
  | Mul x y => render x +:+ " × " +:+ render y
  | Div x y => render x +:+ " ÷ " +:+ render y
  | Juxt x y => render x +:+ "(" +:+ render y +:+ ")"
  end.

(** The value the generator computes: binary64 operations in the order of
    the syntax. *)
Fixpoint evalF (e : Expr) : number :=
  match e with
  | Num n => of_Z n
  | Fact n => of_Z (factorial n)
  | Pow base exp => pow base exp
  | Frac num den => (of_Z num / of_Z den)%num
  | Add x y => (evalF x + evalF y)%num
  | Sub x y => (evalF x - evalF y)%num
  | Mul x y => (evalF x * evalF y)%num
  | Div x y => (evalF x / evalF y)%num
  | Juxt x y => (evalF x * evalF y)%num
  end.

(** The mathematical factorial of an integer (1 below 1). *)
Definition Zfact (n : Z) : Z := Z.of_nat (fact (Z.to_nat n)).

(** The exact value. *)
Fixpoint evalQ (e : Expr) : Q :=
  match e with
  | Num n => inject_Z n
  | Fact n => inject_Z (Zfact n)
  | Pow base exp => inject_Z (base ^ exp)
  | Frac num den => inject_Z num / inject_Z den
  | Add x y => evalQ x + evalQ y
  | Sub x y => evalQ x - evalQ y
  | Mul x y => evalQ x * evalQ y
  | Div x y => evalQ x / evalQ y
  | Juxt x y => evalQ x * evalQ y
  end%Q.

(** The question the generator returns for an expression. *)
Definition question_of (e : Expr) : Question :=
  {| question := render e; answer := evalF e |}.

(** ** Tokens *)

Inductive token : Set :=
| TNum (n : Z)
| TSup (n : Z)
| TBang
| TPlus
| TMinus
| TTimes
| TDivide
| TLParen
| TRParen.

(** [strip pre s] is what follows [pre] in [s], when [s] starts with it. *)
Fixpoint strip (pre s : string) : option string :=
  match pre, s with
  | EmptyString, _ => Some s
  | String a pre', String b s' => if Ascii.eqb a b then strip pre' s' else None
  | String _ _, EmptyString => None
  end.

Definition digit_value (c : ascii) : option Z :=
  if is_digit c then Some (Z.of_N (N_of_ascii c) - 48) else None.

(** A leading superscript digit and what follows it. *)
Definition sup_value (s : string) : option (Z * string) :=
  head (omap (λ '(d, g), rest ← strip g s; Some (d, rest))
          (zip (zrange 0 9) superscripts)).

(** The longest run of decimal digits at the head of [s], read after [acc]. *)
Fixpoint lex_digits (acc : Z) (s : string) : Z * string :=
  match s with
  | String c s' =>
      match digit_value c with
      | Some d => lex_digits (10 * acc + d) s'
      | None => (acc, s)
      end
  | EmptyString => (acc, s)
  end.

(** The same for superscript digits; each takes at least two bytes, so the
    length of the text bounds the loop. *)
Fixpoint lex_sups (fuel : nat) (acc : Z) (s : string) : Z * string :=
  match fuel with
  | O => (acc, s)
  | S fuel' =>
      match sup_value s with
      | Some (d, rest) => lex_sups fuel' (10 * acc + d) rest
      | None => (acc, s)
      end
  end.

Definition symbols : list (string * token) :=
  [("+", TPlus); ("-", TMinus); ("×", TTimes); ("÷", TDivide); ("/", TDivide);
   ("!", TBang); ("(", TLParen); (")", TRParen)].

Definition lex_symbol (s : string) : option (token * string) :=
  head (omap (λ '(g, t), rest ← strip g s; Some (t, rest)) symbols).

Fixpoint lex (fuel : nat) (s : string) : option (list token) :=
  match fuel with
  | O => if String.eqb s "" then Some [] else None
  | S fuel' =>
      match s with
      | EmptyString => Some []
      | String c s' =>
          if Ascii.eqb c " " then lex fuel' s'
          else match digit_value c with
               | Some d =>
                   let '(n, rest) := lex_digits d s' in
                   ts ← lex fuel' rest; Some (TNum n :: ts)
               | None =>
                   match sup_value s with
                   | Some (d, rest) =>
                       let '(n, rest) := lex_sups fuel' d rest in
                       ts ← lex fuel' rest; Some (TSup n :: ts)
                   | None =>
                       '(t, rest) ← lex_symbol s;
                       ts ← lex fuel' rest; Some (t :: ts)
                   end
               end
      end
  end.

(** ** Evaluation *)

Definition Qdiv_checked (x y : Q) : option Q :=
  if Qeq_bool y 0 then None else Some (x / y)%Q.

(** [x!] for a natural number [x]. *)
Definition Qfact (x : Q) : option Q :=
  let r := Qred x in
  if (Qden r =? 1)%positive && (0 <=? Qnum r) then Some (inject_Z (Zfact (Qnum r)))
  else None.

Fixpoint eval_sum (fuel : nat) (ts : list token) : option (Q * list token) :=
  match fuel with
  | O => None
  | S fuel' => '(v, ts) ← eval_product fuel' ts; sum_rest fuel' v ts
  end
with sum_rest (fuel : nat) (acc : Q) (ts : list token) : option (Q * list token) :=
  match fuel with
  | O => None
  | S fuel' =>
      match ts with
      | TPlus :: ts => '(v, ts) ← eval_product fuel' ts; sum_rest fuel' (acc + v)%Q ts
      | TMinus :: ts => '(v, ts) ← eval_product fuel' ts; sum_rest fuel' (acc - v)%Q ts
      | _ => Some (acc, ts)
      end
  end
with eval_product (fuel : nat) (ts : list token) : option (Q * list token) :=
  match fuel with
  | O => None
  | S fuel' => '(v, ts) ← eval_postfix fuel' ts; product_rest fuel' v ts
  end
with product_rest (fuel : nat) (acc : Q) (ts : list token) : option (Q * list token) :=
  match fuel with
  | O => None
  | S fuel' =>
      match ts with
      | TTimes :: ts =>
          '(v, ts) ← eval_postfix fuel' ts; product_rest fuel' (acc * v)%Q ts
      | TDivide :: ts =>
          '(v, ts) ← eval_postfix fuel' ts;
          q ← Qdiv_checked acc v; product_rest fuel' q ts
      | TLParen :: _ =>
          '(v, ts) ← eval_postfix fuel' ts; product_rest fuel' (acc * v)%Q ts
      | _ => Some (acc, ts)
      end
  end
with eval_postfix (fuel : nat) (ts : list token) : option (Q * list token) :=
  match fuel with
  | O => None
  | S fuel' =>
      match ts with
      | TNum n :: ts => postfix_rest fuel' (inject_Z n) ts
      | TLParen :: ts =>
          '(v, ts) ← eval_sum fuel' ts;
          match ts with
          | TRParen :: ts => postfix_rest fuel' v ts
          | _ => None
          end
      | _ => None
      end
  end
with postfix_rest (fuel : nat) (acc : Q) (ts : list token) : option (Q * list token) :=
  match fuel with
  | O => None
  | S fuel' =>
      match ts with
      | TBang :: ts => v ← Qfact acc; postfix_rest fuel' v ts
      | TSup n :: ts => postfix_rest fuel' (acc ^ n)%Q ts
      | _ => Some (acc, ts)
      end
  end.

Definition eval_tokens (ts : list token) : option Q :=
  match eval_sum (4 * length ts + 4) ts with
  | Some (v, []) => Some v
  | _ => None
  end.

Definition eval_text (s : string) : option Q :=
  lex (String.length s) s ≫= eval_tokens.

(** The text has the value [q]. *)
Definition has_value (s : string) (q : Q) : bool :=
  match eval_text s with
  | Some v => Qeq_bool v q
  | None => false
  end.
