(* ===== verification/GeneratorSpec.v ===== *)
(** * GeneratorSpec.v: what [generateBODMAS] returns

    The specification of the generator ([MathGenerator.v]) and the theorems
    that it is met.

    - [spec difficulty useFactorials useExponents useFractions] lists, as
      expressions ([Expression.v]), the questions a call may return: one
      comprehension per branch, the operand ranges written out.
    - Refinement: every result of [generateBODMAS] is [question_of e] for an
      [e] of the list ([generateBODMAS_refines]), whatever the random source
      gives; the text is [render e] and the answer [evalF e].
    - The computation is well formed ([generateBODMAS_wf]): no [getRandom]
      is called on an empty range, the array of options is never read out of
      range, the thresholds of the two tests are in [0,1).
    - The expressions of the specification are finitely many.  Their
      properties are checked by evaluation over the list [universe], which
      contains the specification of every toggle setting
      ([spec_universe]): the answer is a finite binary64 number within
      [tolerance] of the exact value, equal to it and an integer when no
      fraction occurs, and the text, read under the usual order of operations
      by [eval_text], has that exact value.
    - From these, for every run on a source of unit samples: the theorems of
      the section [Run]. *)

From S2P Require Import Prelude Random Number Text Types MathGenerator Expression.

#[local] Open Scope string_scope.
#[local] Open Scope Z_scope.

#[local] Arguments toString : simpl never.
#[local] Arguments toSuperscript : simpl never.
#[local] Arguments of_Z : simpl never.
#[local] Arguments pow : simpl never.
#[local] Arguments factorial : simpl never.
#[local] Arguments add : simpl never.
#[local] Arguments sub : simpl never.
#[local] Arguments mul : simpl never.
#[local] Arguments div : simpl never.

(** ** The abstract specification *)

Definition term_of (e : Expr) : Term := {| text := render e; val := evalF e |}.

Definition when {A} (flag : bool) (l : list A) : list A := if flag then l else [].

Definition facts : list Expr := n ← zrange 2 5; [Fact n].
Definition exps : list Expr := base ← zrange 2 5; exp ← zrange 2 3; [Pow base exp].
Definition fracs : list Expr := den ← denominators; num ← zrange 1 (den - 1); [Frac num den].

Definition easy_spec : list Expr :=
  a ← zrange 5 20; b ← zrange 5 20; c ← zrange 1 10;
  [Sub (Add (Num a) (Num b)) (Num c)].

Definition products : list Expr :=
  a ← zrange 2 10; b ← zrange 2 10; [Mul (Num a) (Num b)].

Definition medium_spec (useExponents useFractions : bool) : list Expr :=
  left ← (products ++ when useExponents exps ++ when useFractions fracs)%list;
  c ← zrange 1 20;
  [Add left (Num c)].

Definition tricky_expr (b k : Z) (C D : Expr) : Expr :=
  Add (Mul (Div (Num (b * k)) (Num b)) C) D.

(** What can stand in the slots [c] and [d] of the Tricky template. *)
Definition tricky_slots (useFactorials useExponents useFractions : bool)
    : list (Expr * Expr) :=
  (if useFactorials || useExponents || useFractions then
     when useExponents (C ← exps; d ← zrange 5 15; [(C, Num d)]) ++
     when useFactorials (c ← zrange 2 5; D ← facts; [(Num c, D)]) ++
     when useFractions (C ← fracs; d ← zrange 5 15; [(C, Num d)])
   else c ← zrange 2 5; d ← zrange 5 15; [(Num c, Num d)])%list.

Definition tricky_spec (useFactorials useExponents useFractions : bool) : list Expr :=
  b ← zrange 2 6; k ← zrange 4 10;
  slots ← tricky_slots useFactorials useExponents useFractions;
  [tricky_expr b k slots.1 slots.2].

Definition ultra_inner (useExponents useFractions : bool) : list Expr :=
  ((inside1 ← zrange 1 4; inside2 ← zrange 1 4; [Add (Num inside1) (Num inside2)]) ++
   (X ← when useExponents exps ++ when useFractions fracs;
    inside2 ← zrange 1 4; [Add X (Num inside2)]))%list.

Definition ultra_main (multiplier factor : Z) (inner : Expr) : Expr :=
  Juxt (Div (Num (multiplier * factor)) (Num multiplier)) inner.

Definition ultra_spec (useFactorials useExponents useFractions : bool) : list Expr :=
  multiplier ← zrange 2 6; factor ← zrange 2 4;
  inner ← ultra_inner useExponents useFractions;
  ([ultra_main multiplier factor inner] ++
   when useFactorials (F ← facts; [Add F (ultra_main multiplier factor inner)]))%list.

(** What [generateBODMAS] may return, as expressions. *)
Definition spec (difficulty : Difficulty)
    (useFactorials useExponents useFractions : bool) : list Expr :=
  match difficulty with
  | Difficulty.EASY => easy_spec
  | Difficulty.MEDIUM => medium_spec useExponents useFractions
  | Difficulty.TRICKY => tricky_spec useFactorials useExponents useFractions
  | Difficulty.ULTRA_TRICKY => ultra_spec useFactorials useExponents useFractions
  end.

(** The specifications of every toggle setting together. *)
Definition tricky_universe : list (Expr * Expr) :=
  (tricky_slots true true true ++ tricky_slots false false false)%list.

Definition universe (difficulty : Difficulty) : list Expr :=
  match difficulty with
  | Difficulty.TRICKY =>
      b ← zrange 2 6; k ← zrange 4 10; slots ← tricky_universe;
      [tricky_expr b k slots.1 slots.2]
  | _ => spec difficulty true true true
  end.

(** The templates after their clean division: [a ÷ b] is the integer [k],
    and [dividend ÷ multiplier] the integer [factor]. *)
Definition tricky_reduced (k : Z) (C D : Expr) : Expr := Add (Mul (Num k) C) D.
Definition ultra_reduced (factor : Z) (inner : Expr) : Expr := Mul (Num factor) inner.

(** Which advanced terms an expression has. *)
Fixpoint uses_fact (e : Expr) : bool :=
  match e with
  | Fact _ => true
  | Num _ | Pow _ _ | Frac _ _ => false
  | Add x y | Sub x y | Mul x y | Div x y | Juxt x y => uses_fact x || uses_fact y
  end.

Fixpoint uses_exp (e : Expr) : bool :=
  match e with
  | Pow _ _ => true
  | Num _ | Fact _ | Frac _ _ => false
  | Add x y | Sub x y | Mul x y | Div x y | Juxt x y => uses_exp x || uses_exp y
  end.

Fixpoint uses_frac (e : Expr) : bool :=
  match e with
  | Frac _ _ => true
  | Num _ | Fact _ | Pow _ _ => false
  | Add x y | Sub x y | Mul x y | Div x y | Juxt x y => uses_frac x || uses_frac y
  end.

(** A rational that is an integer. *)
Definition Qis_int (q : Q) : bool := (Qden (Qred q) =? 1)%positive.

(** The answer computed for [e]: finite, within [tolerance] of the exact
    value, and, without fractions, equal to it and an integer. *)
Definition check_value (e : Expr) : bool :=
  isFinite (evalF e)
  && Qclose tolerance (to_Q (evalF e)) (evalQ e)
  && (uses_frac e || Qeq_bool (to_Q (evalF e)) (evalQ e) && Qis_int (evalQ e)).

(** The value checks of the two templates with a division, on the reduced
    templates. *)
Definition check_tricky_values : bool :=
  forallb (λ k, forallb (λ slots, check_value (tricky_reduced k slots.1 slots.2))
                  tricky_universe) (zrange 4 10).

Definition check_ultra_values : bool :=
  forallb (λ factor,
    forallb (λ inner,
      check_value (ultra_reduced factor inner)
      && forallb (λ F, check_value (Add F (ultra_reduced factor inner))) facts)
      (ultra_inner true true)) (zrange 2 4).

(** The divisions of the two templates leave no remainder. *)
Definition check_division : bool :=
  forallb (λ b, forallb (λ k,
    bool_decide ((of_Z (b * k) / of_Z b)%num = of_Z k)) (zrange 2 10)) (zrange 2 6).

(** The text of [e]: its value under the order of operations is the exact
    value of [e], and its glyphs tell which advanced terms it has. *)
Definition check_text (e : Expr) : bool :=
  has_value (render e) (evalQ e)
  && bool_decide (contains "!" (render e) = uses_fact e)
  && bool_decide (has_superscript (render e) = uses_exp e)
  && bool_decide (contains "/" (render e) = uses_frac e).

(** A source of unit samples, for examples: 0, 1/7, ..., 6/7, 0, ... *)
Definition example_source : source := λ i, Z.of_nat (i mod 7) # 7.

(** ** Tactics *)

(** Evaluate the closed tests and array reads of the goal. *)
Ltac eval_closed :=
  repeat match goal with
    | |- context [if ?c then _ else _] =>
        let v := eval vm_compute in c in
        lazymatch v with
        | true => change c with true
        | false => change c with false
        end; cbv beta iota
    | |- context [nth_Z ?l ?i] =>
        let v := eval vm_compute in (nth_Z l i) in
        lazymatch v with
        | Some _ => change (nth_Z l i) with v
        | None => change (nth_Z l i) with v
        end; cbv beta iota
    end.

Ltac wp_simpl :=
  cbv beta iota zeta; eval_closed; cbn [text val term_of fst snd].

(** Case analysis on an integer known to lie in a literal range. *)
Ltac zrange_cases i :=
  match goal with
  | H : ?lo ≤ i ≤ ?hi |- _ =>
      let Hi := fresh in
      assert (Hi : i ∈ zrange lo hi) by (by apply elem_of_zrange);
      vm_compute in Hi; clear H;
      repeat (apply elem_of_cons in Hi as [->|Hi]);
      [..|by apply elem_of_nil in Hi]
  end.

(** Use the specification [lem] of the term generator at the head. *)
Ltac use_spec lem :=
  let e := fresh "e" in
  eapply wp_mono; [|apply lem]; intros ? (e & ? & ->).

(** A call of a term generator; set once their specifications are proved. *)
Ltac wp_term := fail.
Ltac wf_term := fail.

(** One step of the generator: a draw keeps the name the source gives it. *)
Ltac wp_step :=
  lazymatch goal with
  | |- wp (getRandom _ _ ≫= (λ x, _)) _ =>
      let y := fresh x in rewrite wp_bind, wp_getRandom; intros y ?
  | |- wp (getRandom _ _) _ => rewrite wp_getRandom; intros ? ?
  | |- wp (randomGt _) _ => rewrite wp_randomGt; intros []
  | |- wp (mret _) _ => rewrite wp_ret
  | |- wp (match nth_Z _ ?i with _ => _ end) _ => zrange_cases i
  | |- wp (_ ≫= _) _ => rewrite wp_bind
  | |- wp _ _ => wp_term
  end; wp_simpl.

(** One step of a proof that the generator is well formed. *)
Ltac wf_step :=
  lazymatch goal with
  | |- wf (mret _) => exact I
  | |- wf (getRandom _ _) => apply wf_getRandom; by vm_compute
  | |- wf (randomGt _) => apply wf_randomGt; by vm_compute
  | |- wf (match nth_Z _ ?i with _ => _ end) => zrange_cases i
  | |- wf (_ ≫= _) => apply wf_wp_bind
  | |- wf _ => wf_term
  | |- wp _ _ => wp_step
  end; wp_simpl.

Ltac in_range := apply elem_of_zrange; first [assumption | lia].

(** Membership in a list comprehension, the element given. *)
Ltac in_comp :=
  cbv beta; cbn [when orb];
  lazymatch goal with
  | |- _ ∈ [_] => apply list_elem_of_singleton; reflexivity
  | |- _ ∈ _ ≫= _ =>
      apply list_elem_of_bind; eexists; split;
      [in_comp | first [assumption | in_range | in_comp] ]
  | |- _ ∈ (_ ++ _)%list =>
      apply elem_of_app; first [left; in_comp | right; in_comp]
  | |- _ => first [assumption | in_range | solve [repeat constructor] ]
  end.

Ltac string_norm := autorewrite with bodmas_rw; reflexivity.

Ltac unfold_spec :=
  unfold universe, spec, easy_spec, medium_spec, tricky_spec, ultra_spec, products,
    tricky_universe, tricky_slots, ultra_inner.

(** The expression [e] is what the code returned. *)
Ltac is_question e :=
  unfold question_of, term_of, tricky_expr, ultra_main; cbn [render evalF];
  f_equal; string_norm.

(** The expression [e] is in the specification and is what the code returned;
    [leaf_with] enters the specification by the lemma [intro]. *)
Ltac leaf e := exists e; split; [unfold_spec; in_comp | is_question e].
Ltac leaf_with intro e :=
  exists e; split;
  [apply intro; [assumption..|unfold_spec; in_comp] | is_question e].

(** ** The literals of the two tests *)

Lemma literal_0_5_exact : (literal_0_5 == 1 # 2)%Q.
Proof. by vm_compute. Qed.

(** The binary64 number [0.3] is a little below 3/10. *)
Lemma literal_0_3_exact : literal_0_3 = 5404319552844595 # 18014398509481984.
Proof. by vm_compute. Qed.

Lemma example_source_unit : unit_source example_source.
Proof.
  intros i. unfold example_source, unit_sample, Qle, Qlt. simpl.
  pose proof (Nat.mod_upper_bound i 7). lia.
Qed.

(** ** The term generators *)

Lemma getSmallFact_spec : wp getSmallFact (λ t, ∃ e, e ∈ facts ∧ t = term_of e).
Proof. unfold getSmallFact, facts. repeat wp_step. leaf (Fact n). Qed.

Lemma getSmallExp_spec : wp getSmallExp (λ t, ∃ e, e ∈ exps ∧ t = term_of e).
Proof. unfold getSmallExp, exps. repeat wp_step. leaf (Pow base exp). Qed.

Lemma getSmallFrac_spec : wp getSmallFrac (λ t, ∃ e, e ∈ fracs ∧ t = term_of e).
Proof.
  unfold getSmallFrac, fracs. repeat wp_step;
    match goal with
    | |- context [toString ?num +:+ "/" +:+ toString ?den] => leaf (Frac num den)
    end.
Qed.

Lemma getSmallFact_wf : wf getSmallFact.
Proof. unfold getSmallFact. repeat wf_step. Qed.

Lemma getSmallExp_wf : wf getSmallExp.
Proof. unfold getSmallExp. repeat wf_step. Qed.

Lemma getSmallFrac_wf : wf getSmallFrac.
Proof. unfold getSmallFrac. repeat wf_step. Qed.

Ltac wp_term ::=
  lazymatch goal with
  | |- wp getSmallFact _ => use_spec getSmallFact_spec
  | |- wp getSmallExp _ => use_spec getSmallExp_spec
  | |- wp getSmallFrac _ => use_spec getSmallFrac_spec
  end.

Ltac wf_term ::=
  lazymatch goal with
  | |- wf getSmallFact => apply getSmallFact_wf
  | |- wf getSmallExp => apply getSmallExp_wf
  | |- wf getSmallFrac => apply getSmallFrac_wf
  end.

(** ** The branches refine their specifications *)

Lemma easy_refines : wp easy (λ q, ∃ e, e ∈ easy_spec ∧ q = question_of e).
Proof. unfold easy. repeat wp_step. leaf (Sub (Add (Num a) (Num b)) (Num c)). Qed.

Lemma medium_refines ue ufr :
  wp (medium ue ufr) (λ q, ∃ e, e ∈ medium_spec ue ufr ∧ q = question_of e).
Proof.
  unfold medium. destruct ue, ufr; repeat wp_step;
    first [leaf (Add (Mul (Num a) (Num b)) (Num c)) | leaf (Add e (Num c))].
Qed.

Lemma tricky_spec_intro b k C D uf ue ufr :
  2 ≤ b ≤ 6 → 4 ≤ k ≤ 10 → (C, D) ∈ tricky_slots uf ue ufr →
  tricky_expr b k C D ∈ tricky_spec uf ue ufr.
Proof.
  intros Hb Hk Hs. unfold tricky_spec.
  apply list_elem_of_bind. exists b. split; [|by apply elem_of_zrange].
  apply list_elem_of_bind. exists k. split; [|by apply elem_of_zrange].
  apply list_elem_of_bind. exists (C, D). split; [|done].
  by apply list_elem_of_singleton.
Qed.

Lemma tricky_refines uf ue ufr :
  wp (tricky uf ue ufr) (λ q, ∃ e, e ∈ tricky_spec uf ue ufr ∧ q = question_of e).
Proof.
  unfold tricky. destruct uf, ue, ufr; repeat wp_step;
    first [ leaf_with tricky_spec_intro (tricky_expr b k (Num c) (Num d))
          | leaf_with tricky_spec_intro (tricky_expr b k e (Num d))
          | leaf_with tricky_spec_intro (tricky_expr b k (Num c) e) ].
Qed.

Lemma ultraTricky_refines uf ue ufr :
  wp (ultraTricky uf ue ufr) (λ q, ∃ e, e ∈ ultra_spec uf ue ufr ∧ q = question_of e).
Proof.
  unfold ultraTricky. destruct uf, ue, ufr; repeat wp_step;
    first [ leaf (ultra_main multiplier factor (Add (Num inside1) (Num inside2)))
          | leaf (ultra_main multiplier factor (Add e (Num inside2)))
          | leaf (Add e (ultra_main multiplier factor (Add (Num inside1) (Num inside2))))
          | leaf (Add e0 (ultra_main multiplier factor (Add e (Num inside2)))) ].
Qed.

(** The specification as a proof rule: what holds of the question of every
    listed expression holds of every result. *)
Lemma generateBODMAS_wp d uf ue ufr (Q : Question → Prop) :
  (∀ e, e ∈ spec d uf ue ufr → Q (question_of e)) →
  wp (generateBODMAS d uf ue ufr) Q.
Proof.
  intros HQ.
  apply (wp_mono _ (λ q, ∃ e, e ∈ spec d uf ue ufr ∧ q = question_of e));
    [by intros q (e & He & ->); apply HQ|].
  unfold generateBODMAS.
  destruct d; repeat case_decide; try done;
    auto using easy_refines, medium_refines, tricky_refines, ultraTricky_refines.
Qed.

(** ** The computation is well formed *)

Lemma easy_wf : wf easy.
Proof. unfold easy. repeat wf_step. Qed.

Lemma medium_wf ue ufr : wf (medium ue ufr).
Proof. unfold medium. destruct ue, ufr; repeat wf_step. Qed.

Lemma tricky_wf uf ue ufr : wf (tricky uf ue ufr).
Proof. unfold tricky. destruct uf, ue, ufr; repeat wf_step. Qed.

Lemma ultraTricky_wf uf ue ufr : wf (ultraTricky uf ue ufr).
Proof. unfold ultraTricky. destruct uf, ue, ufr; repeat wf_step. Qed.

Lemma generateBODMAS_wf d uf ue ufr : wf (generateBODMAS d uf ue ufr).
Proof.
  unfold generateBODMAS.
  repeat case_decide; auto using easy_wf, medium_wf, tricky_wf, ultraTricky_wf.
Qed.

(** ** The expressions of the specification *)

Lemma when_subseteq {A} flag (l : list A) : when flag l ⊆ when true l.
Proof. destruct flag; [done|]. intros x Hx. by apply elem_of_nil in Hx. Qed.

(** Inclusion of comprehensions that differ in their toggles. *)
Ltac mono :=
  lazymatch goal with
  | |- when _ _ ⊆ when true _ => apply when_subseteq
  | |- (_ ++ _)%list ⊆ (_ ++ _)%list => apply list_app_mono; mono
  | |- _ ≫= _ ⊆ _ ≫= _ => apply list_bind_mono; [mono | intros ?; mono]
  | |- ?l ⊆ ?k => first [constr_eq l k; reflexivity | solve [auto with bodmas] ]
  end.

Lemma tricky_slots_universe uf ue ufr : tricky_slots uf ue ufr ⊆ tricky_universe.
Proof.
  unfold tricky_universe, tricky_slots. destruct uf, ue, ufr; cbn [orb];
    first [apply list_subseteq_app_l; mono | by apply list_subseteq_app_r].
Qed.

Lemma ultra_inner_universe ue ufr : ultra_inner ue ufr ⊆ ultra_inner true true.
Proof. unfold ultra_inner. mono. Qed.

#[local] Hint Resolve tricky_slots_universe ultra_inner_universe : bodmas.

Lemma spec_universe d uf ue ufr : spec d uf ue ufr ⊆ universe d.
Proof.
  destruct d; unfold universe, spec, medium_spec, tricky_spec, ultra_spec;
    [done|mono..].
Qed.

(** A disabled toggle keeps its kind of term out of every expression. *)
Ltac no_term := unfold_spec; unfold facts, exps, fracs, denominators; cbn [when orb];
  forall_comp; reflexivity.

Lemma spec_uses_fact d ue ufr : Forall (λ e, uses_fact e = false) (spec d false ue ufr).
Proof. destruct d, ue, ufr; no_term. Qed.

Lemma spec_uses_exp d uf ufr : Forall (λ e, uses_exp e = false) (spec d uf false ufr).
Proof. destruct d, uf, ufr; no_term. Qed.

Lemma spec_uses_frac d uf ue : Forall (λ e, uses_frac e = false) (spec d uf ue false).
Proof. destruct d, uf, ue; no_term. Qed.

(** ** The checks, by evaluation *)

Lemma division_checked : check_division = true.
Proof. vm_cast_no_check (@eq_refl bool true). Qed.

Lemma easy_values_checked : forallb check_value easy_spec = true.
Proof. vm_cast_no_check (@eq_refl bool true). Qed.

Lemma medium_values_checked : forallb check_value (medium_spec true true) = true.
Proof. vm_cast_no_check (@eq_refl bool true). Qed.

Lemma tricky_values_checked : check_tricky_values = true.
Proof. vm_cast_no_check (@eq_refl bool true). Qed.

Lemma ultra_values_checked : check_ultra_values = true.
Proof. vm_cast_no_check (@eq_refl bool true). Qed.

Lemma universe_check_text d : forallb check_text (universe d) = true.
Proof. destruct d; vm_cast_no_check (@eq_refl bool true). Qed.

(** ** Clean division *)

(** The dividend of the Tricky and of the last template is a multiple of
    its divisor, and the binary64 quotient is the integer quotient. *)
Lemma clean_division b k :
  2 ≤ b ≤ 6 → 2 ≤ k ≤ 10 → (of_Z (b * k) / of_Z b)%num = of_Z k.
Proof.
  intros Hb Hk. pose proof division_checked as H. unfold check_division in H.
  rewrite forallb_zrange in H. specialize (H b Hb).
  rewrite forallb_zrange in H. by apply (bool_decide_eq_true_1 _), H.
Qed.

(** Two expressions with the same computed value, the same exact value and
    the same use of fractions. *)
Definition same_value (e e' : Expr) : Prop :=
  evalF e = evalF e' ∧ (evalQ e == evalQ e')%Q ∧ uses_frac e = uses_frac e'.

Lemma Qis_int_proper (p q : Q) : (p == q)%Q → Qis_int p = Qis_int q.
Proof. intros E. unfold Qis_int. by rewrite (Qred_complete _ _ E). Qed.

Lemma check_value_same e e' : same_value e e' → check_value e' = check_value e.
Proof.
  intros (EF & EQ & Efrac). unfold check_value, Qclose.
  assert (Qle_bool (Qabs (to_Q (evalF e') - evalQ e')) tolerance
          = Qle_bool (Qabs (to_Q (evalF e') - evalQ e)) tolerance) as ->.
  { apply eq_true_iff_eq. rewrite !Qle_bool_iff. by rewrite EQ. }
  assert (Qeq_bool (to_Q (evalF e')) (evalQ e')
          = Qeq_bool (to_Q (evalF e')) (evalQ e)) as ->.
  { apply eq_true_iff_eq. rewrite !Qeq_bool_iff. by rewrite EQ. }
  by rewrite EF, Efrac, (Qis_int_proper _ _ EQ).
Qed.

Lemma Qdiv_mult_cancel (b k : Z) : b ≠ 0 → (inject_Z (b * k) / inject_Z b == inject_Z k)%Q.
Proof.
  intros Hb. rewrite inject_Z_mult. field.
  intros E. by apply (inject_Z_injective b 0) in E.
Qed.

Lemma tricky_same b k C D :
  2 ≤ b ≤ 6 → 4 ≤ k ≤ 10 → same_value (tricky_expr b k C D) (tricky_reduced k C D).
Proof.
  intros Hb Hk. unfold same_value, tricky_expr, tricky_reduced. cbn [evalF evalQ uses_frac].
  rewrite clean_division, Qdiv_mult_cancel by lia. done.
Qed.

Lemma ultra_same multiplier factor inner :
  2 ≤ multiplier ≤ 6 → 2 ≤ factor ≤ 4 →
  same_value (ultra_main multiplier factor inner) (ultra_reduced factor inner).
Proof.
  intros Hm Hf. unfold same_value, ultra_main, ultra_reduced. cbn [evalF evalQ uses_frac].
  rewrite clean_division, Qdiv_mult_cancel by lia. done.
Qed.

Lemma Add_same F X X' : same_value X X' → same_value (Add F X) (Add F X').
Proof.
  intros (EF & EQ & Efrac). unfold same_value. cbn [evalF evalQ uses_frac].
  by rewrite EF, EQ, Efrac.
Qed.

(** ** Every expression of the specification passes the checks *)

Lemma tricky_check_value uf ue ufr :
  Forall (λ e, check_value e = true) (tricky_spec uf ue ufr).
Proof.
  unfold tricky_spec. forall_comp. apply Forall_forall.
  intros [C D] Hs%tricky_slots_universe. apply Forall_cons_2; [|apply Forall_nil_2].
  cbn [fst snd]. rewrite <- (check_value_same _ _ (tricky_same _ _ C D ltac:(done) ltac:(done))).
  pose proof tricky_values_checked as Hc. unfold check_tricky_values in Hc.
  rewrite forallb_zrange in Hc.
  by apply (forallb_elem_of _ _ (C, D) (Hc _ ltac:(done))).
Qed.

Lemma ultra_check_value uf ue ufr :
  Forall (λ e, check_value e = true) (ultra_spec uf ue ufr).
Proof.
  unfold ultra_spec. forall_comp. apply Forall_forall.
  intros inner Hi%ultra_inner_universe.
  pose proof ultra_values_checked as Hc. unfold check_ultra_values in Hc.
  rewrite forallb_zrange in Hc.
  pose proof (forallb_elem_of _ _ inner (Hc _ ltac:(done)) Hi) as [H1 H2]%andb_true_iff.
  pose proof (ultra_same _ _ inner ltac:(done) ltac:(done)) as Hsame.
  apply Forall_app_2; [apply Forall_cons_2; [|apply Forall_nil_2]|].
  - by rewrite <- (check_value_same _ _ Hsame).
  - destruct uf; [|apply Forall_nil_2]. cbn [when]. forall_comp.
    apply Forall_forall. intros F HF. apply Forall_cons_2; [|apply Forall_nil_2].
    rewrite <- (check_value_same _ _ (Add_same F _ _ Hsame)).
    by apply (forallb_elem_of _ _ F H2).
Qed.

Lemma spec_check_value d uf ue ufr e : e ∈ spec d uf ue ufr → check_value e = true.
Proof.
  destruct d; cbn [spec]; intros He.
  - by apply (forallb_elem_of _ _ e easy_values_checked).
  - apply (forallb_elem_of _ _ e medium_values_checked).
    by apply (spec_universe Difficulty.MEDIUM uf ue ufr).
  - by eapply Forall_forall in He; [|apply tricky_check_value].
  - by eapply Forall_forall in He; [|apply ultra_check_value].
Qed.

Lemma spec_check_text d uf ue ufr e : e ∈ spec d uf ue ufr → check_text e = true.
Proof.
  intros He. eapply forallb_elem_of; [apply universe_check_text|].
  by eapply spec_universe.
Qed.

Lemma Qis_int_spec q : Qis_int q = true → (q == inject_Z (Qnum (Qred q)))%Q.
Proof.
  unfold Qis_int. intros Hd%Pos.eqb_eq. rewrite <- (Qred_correct q) at 1.
  destruct (Qred q) as [n p]; simpl in *. by subst.
Qed.

Lemma has_value_proper s (v w : Q) : (v == w)%Q → has_value s v = true → has_value s w = true.
Proof.
  unfold has_value. destruct (eval_text s); [|done].
  rewrite !Qeq_bool_iff. intros Hvw ->. done.
Qed.

(** ** Every result *)

(** C1. Refinement: whatever the random source gives, the question
    [generateBODMAS] returns is the rendering of an expression of its
    specification, and the answer is the binary64 value computed along that
    expression. *)
Theorem generateBODMAS_refines d uf ue ufr :
  wp (generateBODMAS d uf ue ufr) (λ q, ∃ e, e ∈ spec d uf ue ufr ∧ q = question_of e).
Proof. apply generateBODMAS_wp. eauto. Qed.

(** ** Every run *)

Section Run.
Context (difficulty : Difficulty) (useFactorials useExponents useFractions : bool).
Context (rnd : source) (i : nat) (Hrnd : unit_source rnd).

#[local] Abbreviation q :=
  (result (generateBODMAS difficulty useFactorials useExponents useFractions) rnd i).

(** What holds of every expression of the specification holds of the run. *)
Lemma run_spec (Q : Question → Prop) :
  (∀ e, e ∈ spec difficulty useFactorials useExponents useFractions → Q (question_of e)) →
  Q q.
Proof. intros HQ. by apply wp_run, generateBODMAS_wp; [apply generateBODMAS_wf|..]. Qed.

(** C3. The answer agrees with the text: read under the usual order of
    operations, the question has an exact rational value, and the answer is
    within 1e-9 of it. *)
Theorem answer_correct :
  ∃ v : Q, has_value (question q) v = true
           ∧ Qclose tolerance (to_Q (answer q)) v = true.
Proof.
  apply run_spec. intros e He. exists (evalQ e).
  pose proof (spec_check_value _ _ _ _ _ He) as Hv.
  pose proof (spec_check_text _ _ _ _ _ He) as Ht.
  unfold check_value, check_text in *. simpl. bool_to_prop. naive_solver.
Qed.

(** C4. The answer is a finite number: never NaN, never an infinity. *)
Theorem answer_finite : isFinite (answer q) = true.
Proof.
  apply run_spec. intros e He%spec_check_value.
  unfold check_value in He. simpl. bool_to_prop. naive_solver.
Qed.

(** C5. Without fractions the answer is exact: the question has an integer
    value and the answer is that integer. *)
Theorem answer_exact :
  useFractions = false →
  ∃ z : Z, has_value (question q) (inject_Z z) = true
           ∧ (to_Q (answer q) == inject_Z z)%Q.
Proof.
  intros Hoff. apply run_spec. intros e He. rewrite Hoff in He. exists (Qnum (Qred (evalQ e))).
  pose proof (spec_check_value _ _ _ _ _ He) as Hv.
  pose proof (spec_check_text _ _ _ _ _ He) as Ht.
  eapply Forall_forall in He; [|apply spec_uses_frac]. simpl in He.
  unfold check_value, check_text in *. rewrite He in Hv. simpl.
  bool_to_prop. destruct Hv as (_ & [[=]|[Heq Hint%Qis_int_spec]]).
  apply Qeq_bool_iff in Heq. split; [|by rewrite Heq].
  eapply has_value_proper; [done|]. naive_solver.
Qed.

(** C10. The factorial toggle is respected: with it off, no [!] is in the
    question. *)
Theorem no_factorial_sign : useFactorials = false → contains "!" (question q) = false.
Proof.
  intros Hoff. apply run_spec. intros e He. rewrite Hoff in He.
  pose proof (spec_check_text _ _ _ _ _ He) as Ht.
  eapply Forall_forall in He; [|apply spec_uses_fact]. simpl in He.
  unfold check_text in Ht. bool_to_prop. simpl.
  destruct Ht as [[[_ Ht%bool_decide_eq_true] _] _]. congruence.
Qed.

(** C11. The exponent toggle is respected: with it off, no superscript is in
    the question. *)
Theorem no_superscript : useExponents = false → has_superscript (question q) = false.
Proof.
  intros Hoff. apply run_spec. intros e He. rewrite Hoff in He.
  pose proof (spec_check_text _ _ _ _ _ He) as Ht.
  eapply Forall_forall in He; [|apply spec_uses_exp]. simpl in He.
  unfold check_text in Ht. bool_to_prop. simpl.
  destruct Ht as [[_ Ht%bool_decide_eq_true] _]. congruence.
Qed.

(** C12. The fraction toggle is respected: with it off, no [/] is in the
    question. *)
Theorem no_fraction_bar : useFractions = false → contains "/" (question q) = false.
Proof.
  intros Hoff. apply run_spec. intros e He. rewrite Hoff in He.
  pose proof (spec_check_text _ _ _ _ _ He) as Ht.
  eapply Forall_forall in He; [|apply spec_uses_frac]. simpl in He.
  unfold check_text in Ht. bool_to_prop. simpl.
  destruct Ht as [_ Ht%bool_decide_eq_true]. congruence.
Qed.

End Run.

(** ** Instances on a concrete source *)

Lemma answer_correct_witness :
  ∃ v : Q,
    has_value (question (result (generateBODMAS Difficulty.TRICKY true true true)
                           example_source 0)) v = true
    ∧ Qclose tolerance
        (to_Q (answer (result (generateBODMAS Difficulty.TRICKY true true true)
                         example_source 0))) v = true.
Proof.
  exact (answer_correct Difficulty.TRICKY true true true example_source 0
           example_source_unit).
Defined.

Lemma answer_finite_witness :
  isFinite (answer (result (generateBODMAS Difficulty.ULTRA_TRICKY true true true)
                      example_source 3)) = true.
Proof.
  exact (answer_finite Difficulty.ULTRA_TRICKY true true true example_source 3
           example_source_unit).
Defined.

Lemma answer_exact_witness :
  ∃ z : Z,
    has_value (question (result (generateBODMAS Difficulty.ULTRA_TRICKY true true false)
                           example_source 1)) (inject_Z z) = true
    ∧ (to_Q (answer (result (generateBODMAS Difficulty.ULTRA_TRICKY true true false)
                       example_source 1)) == inject_Z z)%Q.
Proof.
  exact (answer_exact Difficulty.ULTRA_TRICKY true true false example_source 1
           example_source_unit eq_refl).
Defined.

Lemma no_factorial_sign_witness :
  contains "!" (question (result (generateBODMAS Difficulty.TRICKY false true true)
                            example_source 0)) = false.
Proof.
  exact (no_factorial_sign Difficulty.TRICKY false true true example_source 0
           example_source_unit eq_refl).
Defined.

Lemma no_superscript_witness :
  has_superscript (question (result (generateBODMAS Difficulty.MEDIUM true false true)
                               example_source 2)) = false.
Proof.
  exact (no_superscript Difficulty.MEDIUM true false true example_source 2
           example_source_unit eq_refl).
Defined.

Lemma no_fraction_bar_witness :
  contains "/" (question (result (generateBODMAS Difficulty.MEDIUM false true false)
                            example_source 5)) = false.
Proof.
  exact (no_fraction_bar Difficulty.MEDIUM false true false example_source 5
           example_source_unit eq_refl).
Defined.
