(* ===== verification/Exactness.v ===== *)
(** * Exactness.v: the specification of the generator is exact

    [GeneratorSpec.v] shows that every question [generateBODMAS] returns is
    listed by [spec].  This file shows the converse and what follows from
    both directions.

    - Completeness: every expression of [spec] is returned on some choice of
      the draws ([generateBODMAS_may]), hence by a run on a source of unit
      samples.  The proofs give the draws: the operands of the expression
      where the template uses them, the first value of the range where the
      code draws an operand that a substituted term then replaces, the index
      of the term among the enabled options, and the outcome of each test.
    - Exactness ([generateBODMAS_exact]): the questions of the runs are
      exactly the questions of the listed expressions.
    - Probability ([prepend_probability]): when the factorial toggle is on,
      the last branch puts a factorial term in front with the probability of
      the test [Math.random() > 0.3], which is more than 7/10. *)

From S2P Require Import Prelude Random Chance Number Text Types MathGenerator Expression.
From S2P Require Import GeneratorSpec.

#[local] Open Scope string_scope.
#[local] Open Scope Z_scope.

(** The question shows a factorial. *)
Definition has_fact (q : Question) : bool := contains "!" (question q).

(** ** Tactics *)

(** Take a membership in a comprehension of the specification apart. *)
Ltac in_spec :=
  repeat match goal with
    | H : _ ∈ [] |- _ => by apply elem_of_nil in H
    | H : _ ∈ [_] |- _ => apply list_elem_of_singleton in H; subst
    | H : _ ∈ zrange _ _ |- _ => apply elem_of_zrange in H
    | H : _ ∈ (_ ++ _)%list |- _ => apply elem_of_app in H as [H|H]
    | H : _ ∈ _ ≫= _ |- _ => apply list_elem_of_bind in H as (? & H & ?)
    end.

(** The result of the computation is the question of the expression. *)
Ltac given := apply may_ret; is_question tt.

(** A draw: an operand of the expression with that range, or the first
    values of the range. *)
Ltac draw :=
  multimatch goal with
  | H : ?lo ≤ ?n ≤ ?hi |- may (getRandom ?lo ?hi ≫= _) _ => apply (may_draw n _ _ _ _ H)
  | |- may (getRandom ?lo _ ≫= _) _ =>
      (apply (may_draw lo) + apply (may_draw (lo + 1)) + apply (may_draw (lo + 2))
       + apply (may_draw (lo + 3))); [by vm_compute|]
  end.

(** A call of a term generator; set once their lemmas are proved. *)
Ltac may_term := fail.

(** The draws, tests and calls that make the computation return the
    question of the goal. *)
Ltac may_search :=
  wp_simpl;
  lazymatch goal with
  | |- may (mret _) _ => given
  | |- may ((_ ≫= _) ≫= _) _ => apply may_bind_assoc; may_search
  | |- may (mret _ ≫= _) _ => apply may_bind_ret; may_search
  | |- may (getRandom _ _ ≫= _) _ => draw; may_search
  | |- may (randomGt _ ≫= _) _ =>
      (apply (may_test false) + apply (may_test true)); may_search
  | |- may (_ ≫= _) _ => eapply may_bind_eq; [may_term|]; may_search
  end.

(** ** The term generators *)

Lemma getSmallFact_may e : e ∈ facts → may getSmallFact (λ t, t = term_of e).
Proof. unfold facts, getSmallFact. intros. in_spec. may_search. Qed.

Lemma getSmallExp_may e : e ∈ exps → may getSmallExp (λ t, t = term_of e).
Proof. unfold exps, getSmallExp. intros. in_spec. may_search. Qed.

Lemma getSmallFrac_may e : e ∈ fracs → may getSmallFrac (λ t, t = term_of e).
Proof.
  unfold fracs, getSmallFrac. intros (den & H & Hden)%list_elem_of_bind.
  unfold denominators in Hden.
  repeat (apply elem_of_cons in Hden as [->|Hden]); [..|by apply elem_of_nil in Hden];
    in_spec; may_search.
Qed.

Ltac may_term ::=
  lazymatch goal with
  | |- may getSmallFact _ => apply getSmallFact_may; eassumption
  | |- may getSmallExp _ => apply getSmallExp_may; eassumption
  | |- may getSmallFrac _ => apply getSmallFrac_may; eassumption
  end.

(** ** The branches return every question of their specifications *)

Lemma easy_complete e : e ∈ easy_spec → may easy (λ q, q = question_of e).
Proof. unfold easy_spec, easy. intros. in_spec. may_search. Qed.

Lemma medium_complete ue ufr e :
  e ∈ medium_spec ue ufr → may (medium ue ufr) (λ q, q = question_of e).
Proof.
  unfold medium_spec, products, medium. intros.
  destruct ue, ufr; cbn [when] in *; in_spec; may_search.
Qed.

Lemma tricky_complete uf ue ufr e :
  e ∈ tricky_spec uf ue ufr → may (tricky uf ue ufr) (λ q, q = question_of e).
Proof.
  unfold tricky_spec, tricky_slots, tricky. intros.
  destruct uf, ue, ufr; cbn [when orb] in *; in_spec; cbn [fst snd]; may_search.
Qed.

Lemma ultraTricky_complete uf ue ufr e :
  e ∈ ultra_spec uf ue ufr → may (ultraTricky uf ue ufr) (λ q, q = question_of e).
Proof.
  unfold ultra_spec, ultra_inner, ultraTricky. intros.
  destruct uf, ue, ufr; cbn [when] in *; in_spec; may_search.
Qed.

Lemma generateBODMAS_may d uf ue ufr e :
  e ∈ spec d uf ue ufr → may (generateBODMAS d uf ue ufr) (λ q, q = question_of e).
Proof.
  unfold generateBODMAS.
  destruct d; repeat case_decide; try done; cbn [spec];
    auto using easy_complete, medium_complete, tricky_complete, ultraTricky_complete.
Qed.

(** ** Exactness *)

(** C2. The specification is exact: a question is the result of a run of
    [generateBODMAS] on a source of unit samples if and only if it is the
    question (text and answer) of an expression that [spec] lists for the
    difficulty and the toggles. *)
Theorem generateBODMAS_exact d uf ue ufr (q : Question) :
  (∃ rnd i, unit_source rnd ∧ result (generateBODMAS d uf ue ufr) rnd i = q)
  ↔ ∃ e, e ∈ spec d uf ue ufr ∧ q = question_of e.
Proof.
  split.
  - intros (rnd & i & Hrnd & <-).
    apply (wp_run (generateBODMAS d uf ue ufr)); [apply generateBODMAS_wf|done|].
    apply generateBODMAS_wp. eauto.
  - intros (e & He & ->).
    destruct (may_run (generateBODMAS d uf ue ufr) (λ q, q = question_of e))
      as (rnd & Hrnd & Hq); [apply generateBODMAS_wf|by apply generateBODMAS_may|].
    by exists rnd, 0%nat.
Qed.

(** ** How often the last branch shows a factorial *)

Lemma has_fact_spec d uf ue ufr e q :
  e ∈ spec d uf ue ufr → q = question_of e → has_fact q = uses_fact e.
Proof.
  intros He ->. pose proof (spec_check_text _ _ _ _ _ He) as Ht.
  unfold check_text in Ht. bool_to_prop.
  by destruct Ht as [[[_ Ht%bool_decide_eq_true] _] _].
Qed.

Lemma facts_uses_fact e : e ∈ facts → uses_fact e = true.
Proof. unfold facts. intros. by in_spec. Qed.

Lemma exps_uses_fact e : e ∈ exps → uses_fact e = false.
Proof. unfold exps. intros. by in_spec. Qed.

Lemma fracs_uses_fact e : e ∈ fracs → uses_fact e = false.
Proof. unfold fracs. intros. by in_spec. Qed.

(** The event on a returned question, decided by its expression. *)
Lemma prob_has_fact (b : bool) e q :
  e ∈ universe Difficulty.ULTRA_TRICKY → q = question_of e → uses_fact e = b →
  (prob has_fact (mret q) == if b then 1 else 0)%Q.
Proof.
  intros He Hq <-.
  rewrite <- (has_fact_spec Difficulty.ULTRA_TRICKY true true true e q He Hq). reflexivity.
Qed.

Ltac prob_leaf e :=
  first [apply (prob_has_fact true e) | apply (prob_has_fact false e)];
  [ unfold_spec; in_comp
  | is_question e
  | cbn [uses_fact ultra_main orb];
    rewrite ?facts_uses_fact, ?exps_uses_fact, ?fracs_uses_fact by assumption;
    reflexivity ].

(** One step through the computation that keeps the probability: a draw or
    a test that the event does not depend on, or the test that decides it. *)
Ltac prob_step :=
  lazymatch goal with
  | |- (prob _ (getRandom _ _ ≫= (λ x, _)) == _)%Q =>
      let y := fresh x in apply prob_draw; [by vm_compute|intros y ?]
  | |- (prob _ (randomGt literal_0_3 ≫= _) == _)%Q => apply prob_test
  | |- (prob _ (_ ≫= _) == _)%Q => apply prob_bind_wp; [repeat wf_step|]
  | |- wp _ _ => wp_step
  end; wp_simpl.

Lemma ultraTricky_has_fact ue ufr :
  (prob has_fact (ultraTricky true ue ufr) == 1 - literal_0_3)%Q.
Proof.
  unfold ultraTricky. destruct ue, ufr; repeat prob_step;
    first [ prob_leaf (ultra_main multiplier factor (Add (Num inside1) (Num inside2)))
          | prob_leaf (ultra_main multiplier factor (Add e (Num inside2)))
          | prob_leaf (Add e (ultra_main multiplier factor (Add (Num inside1) (Num inside2))))
          | prob_leaf (Add e0 (ultra_main multiplier factor (Add e (Num inside2)))) ].
Qed.

(** With the factorial toggle off the event is impossible, in every branch. *)
Lemma factorial_off_probability d ue ufr :
  (prob has_fact (generateBODMAS d false ue ufr) == 0)%Q.
Proof.
  apply (prob_const has_fact _ false); [apply generateBODMAS_wf|].
  apply generateBODMAS_wp. intros e He.
  rewrite (has_fact_spec d false ue ufr e _ He eq_refl).
  eapply Forall_forall in He; [|apply spec_uses_fact]. done.
Qed.

(** C13. How often the last branch puts a factorial in front: with the
    factorial toggle on and uniform samples, the question of
    [generateBODMAS] at the last difficulty shows a factorial with the
    probability of the test [Math.random() > 0.3], one minus the binary64
    number 0.3, whatever the other toggles and the other draws.  This is
    more than 7/10. *)
Theorem prepend_probability ue ufr :
  (prob has_fact (generateBODMAS Difficulty.ULTRA_TRICKY true ue ufr) == 1 - literal_0_3)%Q
  ∧ (7 # 10 < 1 - literal_0_3)%Q.
Proof. split; [apply ultraTricky_has_fact|by vm_compute]. Qed.
