(* ===== verification/Operands.v ===== *)
(** * Operands.v: operand ranges, clean division and the samples read

    The range and clean-division properties of the generator
    ([MathGenerator.v]), for every run on a source of unit samples: the
    operands of each template lie in the ranges the code draws them from,
    the dividend of the two templates with a division is a multiple of the
    divisor and the quotient is computed without rounding, and a call reads
    between one and ten samples. *)

From S2P Require Import Prelude Random Number Text Types MathGenerator Expression.
From S2P Require Import GeneratorSpec.

#[local] Open Scope string_scope.
#[local] Open Scope Z_scope.

#[local] Arguments toString : simpl never.
#[local] Arguments of_Z : simpl never.
#[local] Arguments add : simpl never.
#[local] Arguments sub : simpl never.
#[local] Arguments mul : simpl never.
#[local] Arguments div : simpl never.

(** The text of a template, the concatenations associated to the right. *)
Ltac text_eq :=
  unfold question_of, tricky_expr, ultra_main; cbn [question answer render];
  autorewrite with bodmas_rw; reflexivity.

(** A property of every element of a comprehension, one variable at a time. *)
Ltac by_comprehension := refine (proj1 (Forall_forall _ _) _); forall_comp.

Lemma check_value_exact e :
  check_value e = true → uses_frac e = false → (to_Q (evalF e) == evalQ e)%Q.
Proof.
  unfold check_value. intros H Hf. rewrite Hf in H. bool_to_prop.
  destruct H as (_ & [[=]|[H%Qeq_bool_iff _] ]). done.
Qed.

(** The number of samples on the longest path of each branch. *)
Lemma generateBODMAS_depth d uf ue ufr :
  (depth (generateBODMAS d uf ue ufr) <=? 10)%nat = true.
Proof. destruct d, uf, ue, ufr; exact_no_check (@eq_refl bool true). Qed.

(** A computation that starts with a draw reads a sample. *)
Lemma cursor_getRandom_bind {A} min max (f : Z → Rand A) rnd i :
  (i < cursor (getRandom min max ≫= f) rnd i)%nat.
Proof. apply (cursor_ge (f (scale (rnd i) min max)) rnd (S i)). Qed.

Section Operands.
Context (useFactorials useExponents useFractions : bool).
Context (rnd : source) (i : nat) (Hrnd : unit_source rnd).

#[local] Abbreviation run d :=
  (result (generateBODMAS d useFactorials useExponents useFractions) rnd i).

(** C8. Easy: the question is [a + b - c] with [a] and [b] in 5..20 and [c]
    in 1..10, and the answer is exactly the integer [a + b - c]. *)
Theorem easy_operands :
  ∃ a b c, 5 ≤ a ≤ 20 ∧ 5 ≤ b ≤ 20 ∧ 1 ≤ c ≤ 10
    ∧ question (run Difficulty.EASY)
      = toString a +:+ " + " +:+ toString b +:+ " - " +:+ toString c
    ∧ (to_Q (answer (run Difficulty.EASY)) == inject_Z (a + b - c))%Q.
Proof.
  apply (run_spec Difficulty.EASY); [done|]. intros e He.
  pose proof (spec_check_value _ _ _ _ _ He) as Hv. revert e He Hv.
  unfold spec, easy_spec. by_comprehension.
  intros Hv%check_value_exact; [|done].
  exists a, b, c. split_and!; try lia; [text_eq|].
  cbn [answer question_of]. rewrite Hv. cbn [evalQ].
  rewrite <- Z.add_opp_r, !inject_Z_plus, inject_Z_opp. reflexivity.
Qed.

(** C9. Medium: the question is [L + c] with [c] in 1..20, where [L] is a
    product [a × b] of operands in 2..10 or, as the toggles allow, a power
    or a fraction; the answer is the binary64 sum of the two values. *)
Theorem medium_operands :
  ∃ L c, 1 ≤ c ≤ 20
    ∧ ((∃ a b, 2 ≤ a ≤ 10 ∧ 2 ≤ b ≤ 10 ∧ L = Mul (Num a) (Num b))
       ∨ (useExponents = true ∧ L ∈ exps) ∨ (useFractions = true ∧ L ∈ fracs))
    ∧ question (run Difficulty.MEDIUM) = render L +:+ " + " +:+ toString c
    ∧ answer (run Difficulty.MEDIUM) = (evalF L + of_Z c)%num.
Proof.
  apply (run_spec Difficulty.MEDIUM); [done|].
  unfold spec, medium_spec. refine (proj1 (Forall_forall _ _) _).
  apply Forall_bind_2, Forall_forall. intros L HL. forall_comp.
  exists L, c. split_and!; try lia; [|text_eq|done].
  rewrite !elem_of_app in HL. destruct HL as [HL|[HL|HL]].
  - left. revert L HL. unfold products. by_comprehension. eauto 10.
  - right; left. by destruct useExponents; [|apply elem_of_nil in HL].
  - right; right. by destruct useFractions; [|apply elem_of_nil in HL].
Qed.

(** C6. Tricky: the question is [a ÷ b × C + D] with the divisor [b] in
    2..6 and the dividend [a = b × k] for a [k] in 4..10; [C] and [D] are
    as the toggles allow ([tricky_slots]: [c] in 2..5 and [d] in 5..15, or
    one of them replaced); the division is exact and the answer is
    [k × C + D]. *)
Theorem tricky_operands :
  ∃ b k C D, 2 ≤ b ≤ 6 ∧ 4 ≤ k ≤ 10
    ∧ (C, D) ∈ tricky_slots useFactorials useExponents useFractions
    ∧ question (run Difficulty.TRICKY)
      = toString (b * k) +:+ " ÷ " +:+ toString b +:+ " × " +:+
        render C +:+ " + " +:+ render D
    ∧ (of_Z (b * k) / of_Z b)%num = of_Z k
    ∧ answer (run Difficulty.TRICKY) = (of_Z k * evalF C + evalF D)%num.
Proof.
  apply (run_spec Difficulty.TRICKY); [done|].
  unfold spec, tricky_spec. by_comprehension.
  apply Forall_forall. intros [C D] Hs. apply Forall_cons_2; [|apply Forall_nil_2].
  exists b, k, C, D. split_and!; try lia; [done|text_eq|by apply clean_division; lia|].
  cbn [answer question_of fst snd]. by destruct (tricky_same b k C D) as [-> _]; [lia..|].
Qed.

(** C7. The last template: the question is [dividend ÷ multiplier(inner)]
    with the multiplier in 2..6 and the dividend [multiplier × factor] for
    a factor in 2..4, possibly after a factorial term and [+]; the division
    is exact and the value of the main part is [factor × inner]. *)
Theorem ultraTricky_operands :
  ∃ multiplier factor inner,
    2 ≤ multiplier ≤ 6 ∧ 2 ≤ factor ≤ 4
    ∧ inner ∈ ultra_inner useExponents useFractions
    ∧ (of_Z (multiplier * factor) / of_Z multiplier)%num = of_Z factor
    ∧ let main := toString (multiplier * factor) +:+ " ÷ " +:+ toString multiplier +:+
                  "(" +:+ render inner +:+ ")" in
      let value := (of_Z factor * evalF inner)%num in
      (question (run Difficulty.ULTRA_TRICKY) = main
       ∧ answer (run Difficulty.ULTRA_TRICKY) = value)
      ∨ (useFactorials = true
         ∧ ∃ F, F ∈ facts ∧ question (run Difficulty.ULTRA_TRICKY) = render F +:+ " + " +:+ main
                ∧ answer (run Difficulty.ULTRA_TRICKY) = (evalF F + value)%num).
Proof.
  apply (run_spec Difficulty.ULTRA_TRICKY); [done|].
  unfold spec, ultra_spec. by_comprehension.
  apply Forall_forall. intros inner Hi.
  destruct (ultra_same multiplier factor inner) as [HF _]; [done..|].
  assert (Hdiv : (of_Z (multiplier * factor) / of_Z multiplier)%num = of_Z factor)
    by (apply clean_division; lia).
  apply Forall_app_2; [apply Forall_cons_2; [|apply Forall_nil_2]|].
  - exists multiplier, factor, inner. split_and!; try lia; try done. left.
    split; [text_eq|done].
  - destruct useFactorials; [|apply Forall_nil_2]. cbn [when].
    apply Forall_bind_2, Forall_forall.
    intros F HF'. apply Forall_cons_2; [|apply Forall_nil_2].
    exists multiplier, factor, inner. split_and!; try lia; try done. right.
    split; [done|]. exists F. split_and!; [done|text_eq|].
    cbn [answer question_of evalF]. cbn [evalF] in HF. by rewrite HF.
Qed.

(** C16. A call reads at least one and at most ten samples of the source. *)
Theorem draws_bounded d :
  (i < cursor (generateBODMAS d useFactorials useExponents useFractions) rnd i ≤ i + 10)%nat.
Proof.
  split.
  - unfold generateBODMAS.
    repeat case_decide; unfold easy, medium, tricky, ultraTricky;
      apply cursor_getRandom_bind.
  - etrans; [by apply cursor_le_depth, Hrnd; apply generateBODMAS_wf|].
    pose proof (generateBODMAS_depth d useFactorials useExponents useFractions)
      as H%Nat.leb_le. lia.
Qed.

End Operands.

(** ** The scenarios of the specification *)

(** The source that yields the given samples, and then zero. *)
Definition source_of (samples : list Q) : source := foldr cons_source (λ _, 0%Q) samples.

(** Easy, no toggles, with the draws [a = 12], [b = 7], [c = 3]. *)
Example scenario_easy :
  result (generateBODMAS Difficulty.EASY false false false)
    (source_of [sample_for 12 5 20; sample_for 7 5 20; sample_for 3 1 10]) 0
  = {| question := "12 + 7 - 3"; answer := of_Z 16 |}.
Proof. by vm_compute. Qed.


(** The last template, no toggles, with the draws [multiplier = 3],
    [factor = 2], [inside1 = 2], [inside2 = 1]. *)
Example scenario_ultra_minimal :
  result (generateBODMAS Difficulty.ULTRA_TRICKY false false false)
    (source_of [sample_for 3 2 6; sample_for 2 2 4; sample_for 2 1 4; sample_for 1 1 4]) 0
  = {| question := "6 ÷ 3(2 + 1)"; answer := of_Z 6 |}.
Proof. by vm_compute. Qed.

(** ** Instances *)

Lemma easy_operands_witness :
  ∃ a b c, 5 ≤ a ≤ 20 ∧ 5 ≤ b ≤ 20 ∧ 1 ≤ c ≤ 10
    ∧ question (result (generateBODMAS Difficulty.EASY false false false) example_source 0)
      = toString a +:+ " + " +:+ toString b +:+ " - " +:+ toString c
    ∧ (to_Q (answer (result (generateBODMAS Difficulty.EASY false false false)
                       example_source 0))
       == inject_Z (a + b - c))%Q.
Proof. exact (easy_operands false false false example_source 0 example_source_unit). Defined.

Lemma medium_operands_witness :
  ∃ L c, 1 ≤ c ≤ 20
    ∧ ((∃ a b, 2 ≤ a ≤ 10 ∧ 2 ≤ b ≤ 10 ∧ L = Mul (Num a) (Num b))
       ∨ (true = true ∧ L ∈ exps) ∨ (false = true ∧ L ∈ fracs))
    ∧ question (result (generateBODMAS Difficulty.MEDIUM false true false) example_source 0)
      = render L +:+ " + " +:+ toString c
    ∧ answer (result (generateBODMAS Difficulty.MEDIUM false true false) example_source 0)
      = (evalF L + of_Z c)%num.
Proof. exact (medium_operands false true false example_source 0 example_source_unit). Defined.

Lemma tricky_operands_witness :
  ∃ b k C D, 2 ≤ b ≤ 6 ∧ 4 ≤ k ≤ 10
    ∧ (C, D) ∈ tricky_slots true true true
    ∧ question (result (generateBODMAS Difficulty.TRICKY true true true) example_source 0)
      = toString (b * k) +:+ " ÷ " +:+ toString b +:+ " × " +:+
        render C +:+ " + " +:+ render D
    ∧ (of_Z (b * k) / of_Z b)%num = of_Z k
    ∧ answer (result (generateBODMAS Difficulty.TRICKY true true true) example_source 0)
      = (of_Z k * evalF C + evalF D)%num.
Proof. exact (tricky_operands true true true example_source 0 example_source_unit). Defined.

Lemma ultraTricky_operands_witness :
  ∃ multiplier factor inner,
    2 ≤ multiplier ≤ 6 ∧ 2 ≤ factor ≤ 4
    ∧ inner ∈ ultra_inner false false
    ∧ (of_Z (multiplier * factor) / of_Z multiplier)%num = of_Z factor
    ∧ let main := toString (multiplier * factor) +:+ " ÷ " +:+ toString multiplier +:+
                  "(" +:+ render inner +:+ ")" in
      let value := (of_Z factor * evalF inner)%num in
      let q := result (generateBODMAS Difficulty.ULTRA_TRICKY false false false)
                 example_source 0 in
      (question q = main ∧ answer q = value)
      ∨ (false = true
         ∧ ∃ F, F ∈ facts ∧ question q = render F +:+ " + " +:+ main
                ∧ answer q = (evalF F + value)%num).
Proof.
  exact (ultraTricky_operands false false false example_source 0 example_source_unit).
Defined.

Lemma draws_bounded_witness :
  (0 < cursor (generateBODMAS Difficulty.ULTRA_TRICKY true true true) example_source 0
     ≤ 0 + 10)%nat.
Proof.
  exact (draws_bounded true true true example_source 0 example_source_unit
           Difficulty.ULTRA_TRICKY).
Defined.
