(* ===== verification/App.v ===== *)
(** * App.v: the application component of [src/App.tsx]

    - [isDarkColor] reads a colour [#rrggbb]: [replace], [substr] and
      [parseInt(_, 16)] are modelled on strings ([parseInt16] skips leading
      ASCII white space, reads a sign and a [0x] prefix, then the longest run
      of hexadecimal digits; [None] is NaN).  The weighted sum of the three
      components is an integer below 2^53 and is kept as an integer; the
      division by 1000 and the comparison with 128 are the binary64
      operations.
    - [initialState] is the argument of [useState]: it draws the first
      question, so it is a computation over the random source.
    - [handleGenerate] draws questions until the text differs from the one
      shown.  The loop of the source has no bound; [handleGenerate fuel] runs
      at most [fuel] further draws after the first and returns [None] when
      they are used up, and otherwise the updater passed to [setState].
    - The two effects are functions of the rendered state that return the
      updater they pass to [setState], if any; [container_deps] and
      [fontColor_deps] are their dependency arrays.  [run_effects old s] is
      the commit of a render with state [s] when the previous render had
      state [old] ([None] on mount): the effects whose dependencies changed
      run on [s], and their updaters are applied in order.  [settle] repeats
      renders until no effect updates the state. *)

From Stdlib Require Import Ascii.
From S2P Require Import Prelude Random Number Text Types Constants MathGenerator.
From S2P Require Import Expression GeneratorSpec.

#[local] Open Scope string_scope.
#[local] Open Scope Z_scope.

(** ** [isDarkColor] *)

(** [s.replace(c, '')]: [s] without the first occurrence of [c]. *)
Fixpoint remove_first (c : ascii) (s : string) : string :=
  match s with
  | EmptyString => EmptyString
  | String a s' => if Ascii.eqb a c then s' else String a (remove_first c s')
  end.

(** [s.substr(start, length)] *)
Definition substr (start length : nat) (s : string) : string :=
  String.substring start length s.

Definition hex_digit_value (c : ascii) : option Z :=
  let n := Z.of_N (N_of_ascii c) in
  if (48 <=? n) && (n <=? 57) then Some (n - 48)
  else if (97 <=? n) && (n <=? 102) then Some (n - 87)
  else if (65 <=? n) && (n <=? 70) then Some (n - 55)
  else None.

(** The value of the longest run of hexadecimal digits at the head of [s],
    read after [acc]; [None] when there is none. *)
Fixpoint hex_digits (acc : option Z) (s : string) : option Z :=
  match s with
  | String c s' =>
      match hex_digit_value c with
      | Some d => hex_digits (Some (16 * default 0 acc + d)) s'
      | None => acc
      end
  | EmptyString => acc
  end.

Definition is_space (c : ascii) : bool :=
  bool_decide (Z.of_N (N_of_ascii c) ∈ [9; 10; 11; 12; 13; 32]).

Fixpoint trim_start (s : string) : string :=
  match s with
  | String c s' => if is_space c then trim_start s' else s
  | EmptyString => EmptyString
  end.

(** The sign of a numeral and what follows it. *)
Definition read_sign (s : string) : bool * string :=
  match s with
  | String c s' =>
      if Ascii.eqb c "-" then (true, s')
      else if Ascii.eqb c "+" then (false, s')
      else (false, s)
  | EmptyString => (false, s)
  end.

Definition strip_0x (s : string) : string :=
  match s with
  | String a (String b s') =>
      if Ascii.eqb a "0" && (Ascii.eqb b "x" || Ascii.eqb b "X") then s' else s
  | _ => s
  end.

(** [parseInt(s, 16)] *)
Definition parseInt16 (s : string) : option Z :=
  let '(negative, s) := read_sign (trim_start s) in
  n ← hex_digits None (strip_0x s);
  Some (if negative : bool then - n else n).

(** [x / 1000 < 128] on an integer [x]. *)
Definition brightness_dark (x : Z) : bool :=
  ltb (of_Z x / of_Z 1000)%num (of_Z 128).

Definition isDarkColor (color : string) : bool :=
  let hex := remove_first "#" color in
  match parseInt16 (substr 0 2 hex), parseInt16 (substr 2 2 hex),
        parseInt16 (substr 4 2 hex) with
  | Some r, Some g, Some b => brightness_dark (r * 299 + g * 587 + b * 114)
  | _, _, _ => false
  end.

(** ** The initial state *)

(** [FONTS[0].family] and [HEADLINES[0]] *)
Definition first_family : string := default "" (family <$> FONTS !! 0%nat).
Definition first_headline : string := default "" (HEADLINES !! 0%nat).

Definition initialState : Rand AppState :=
  initialQuestion ← generateBODMAS Difficulty.TRICKY false false false;
  mret {|
    AppState.question := question initialQuestion;
    AppState.answer := answer initialQuestion;
    AppState.difficulty := Difficulty.TRICKY;
    AppState.platform := Platform.SQUARE;
    AppState.useFactorials := false;
    AppState.useExponents := false;
    AppState.useFractions := false;
    AppState.fontFamily := first_family;
    AppState.fontSize := 50;
    AppState.fontWeight := "700";
    AppState.letterSpacing := 0;
    AppState.lineSpacing := 12 # 10;
    AppState.fontColor := "#000000";
    AppState.autoColor := true;
    AppState.headerEnabled := true;
    AppState.headerText := first_headline;
    AppState.headerFont := first_family;
    AppState.headerStyle := HeaderStyle.badge;
    AppState.questionBgStyle := ContainerStyle.none;
    AppState.questionPaddingX := 12;
    AppState.questionPaddingY := 12;
    AppState.questionYOffset := 0;
    AppState.questionBorderRadius := 24;
    AppState.bgStyle := BgStyle.GRADIENT;
    AppState.bgColors := colors (BG_PRESETS BgStyle.GRADIENT);
    AppState.customBgColor := "#4f46e5";
    AppState.foodType := FoodType.VEG;
    AppState.foodVariant := 0;
    AppState.logoUrl := None;
    AppState.logoPosition := LogoPosition.BOTTOM_RIGHT;
    AppState.showGlow := true;
    AppState.showShadow := true;
    AppState.showCommentFooter := true;
    AppState.showRankBadge := false;
    AppState.rankPosition := RankPosition.TOP_LEFT;
    AppState.showWatermark := false;
    AppState.watermarkText := "Maths Mint";
    AppState.watermarkAlign := WatermarkAlign.right;
    AppState.watermarkOffset := 5
  |}.

(** ** [handleGenerate] *)

(** [generateBODMAS(state.difficulty, state.useFactorials, ...)] *)
Definition generate (state : AppState) : Rand Question :=
  generateBODMAS (AppState.difficulty state) (AppState.useFactorials state)
    (AppState.useExponents state) (AppState.useFractions state).

(** [while (newQ.question === state.question) newQ = generateBODMAS(...)],
    at most [fuel] turns. *)
Fixpoint retry (fuel : nat) (state : AppState) (newQ : Question) : Rand (option Question) :=
  if String.eqb (question newQ) (AppState.question state) then
    match fuel with
    | O => mret None
    | S fuel' => newQ' ← generate state; retry fuel' state newQ'
    end
  else mret (Some newQ).

(** [prev => ({ ...prev, question: newQ.question, answer: newQ.answer })] *)
Definition set_question (newQ : Question) (prev : AppState) : AppState :=
  update Key.answer (answer newQ) (update Key.question (question newQ) prev).

Definition handleGenerate (fuel : nat) (state : AppState)
    : Rand (option (AppState → AppState)) :=
  newQ ← generate state;
  found ← retry fuel state newQ;
  mret (set_question <$> (found : option Question)).

(** ** The effects *)

(** The first effect: on a food background, a question without a container
    gets the badge. *)
Definition effect_container (state : AppState) : option (AppState → AppState) :=
  if decide (AppState.bgStyle state = BgStyle.FOOD
             ∧ AppState.questionBgStyle state = ContainerStyle.none)
  then Some (update Key.questionBgStyle ContainerStyle.badge)
  else None.

Definition container_deps (state : AppState) : BgStyle := AppState.bgStyle state.

(** Whether the background counts as dark. *)
Definition dark_background (state : AppState) : bool :=
  if decide (AppState.bgStyle state = BgStyle.CUSTOM) then
    isDarkColor (AppState.customBgColor state)
  else if decide (AppState.bgStyle state = BgStyle.FOOD) then true
  else bool_decide (AppState.bgStyle state
                    ∈ [BgStyle.GRADIENT; BgStyle.CHALKBOARD; BgStyle.NEON; BgStyle.VIBRANT]).

(** The colour the second effect chooses. *)
Definition contrast_color (state : AppState) : string :=
  if decide (AppState.questionBgStyle state ≠ ContainerStyle.none) then
    let isDarkContainer :=
      bool_decide (AppState.questionBgStyle state
                   ∈ [ContainerStyle.badge; ContainerStyle.ribbon]) in
    if isDarkContainer then "#ffffff" else "#000000"
  else if dark_background state then "#ffffff" else "#000000".

(** The second effect: with automatic colour, the font contrasts with the
    container, or with the background when there is no container. *)
Definition effect_fontColor (state : AppState) : option (AppState → AppState) :=
  if negb (AppState.autoColor state) then None
  else Some (update Key.fontColor (contrast_color state)).

Definition fontColor_deps (state : AppState)
    : BgStyle * string * bool * FoodType * ContainerStyle :=
  (AppState.bgStyle state, AppState.customBgColor state, AppState.autoColor state,
   AppState.foodType state, AppState.questionBgStyle state).

(** An effect runs after the first render and after a render in which one of
    its dependencies differs from the previous render. *)
Definition changed {D} `{EqDecision D} (deps : AppState → D)
    (old : option AppState) (s : AppState) : bool :=
  match old with
  | None => true
  | Some o => bool_decide (deps o ≠ deps s)
  end.

Definition fire {D} `{EqDecision D} (deps : AppState → D)
    (effect : AppState → option (AppState → AppState))
    (old : option AppState) (s : AppState) : option (AppState → AppState) :=
  if changed deps old s then effect s else None.

(** The commit of a render: [None] when no effect updates the state. *)
Definition run_effects (old : option AppState) (s : AppState) : option AppState :=
  match fire container_deps effect_container old s,
        fire fontColor_deps effect_fontColor old s with
  | None, None => None
  | first, second => Some (default id second (default id first s))
  end.

(** Render until no effect updates the state, [fuel] updates at most. *)
Fixpoint settle (fuel : nat) (old : option AppState) (s : AppState) : option AppState :=
  match run_effects old s with
  | None => Some s
  | Some s' =>
      match fuel with
      | O => None
      | S fuel' => settle fuel' (Some s) s'
      end
  end.

(** ** Specification-side definitions *)

(** The colour [#rrggbb] of three components, in lower-case digits. *)
Definition hex_char (d : Z) : ascii :=
  ascii_of_N (Z.to_N (if d <? 10 then 48 + d else 87 + d)).

Definition hex2 (n : Z) : string :=
  String (hex_char (n / 16)) (String (hex_char (n mod 16)) EmptyString).

Definition hex_color (r g b : Z) : string := "#" +:+ hex2 r +:+ hex2 g +:+ hex2 b.

(** The font colour is the contrast colour whenever it is automatic. *)
Definition contrasted (s : AppState) : Prop :=
  AppState.autoColor s = true → AppState.fontColor s = contrast_color s.

(** What a commit does to the state: the container effect alone (automatic
    colour is off), the colour effect alone, or both, each computed from the
    state of the render. *)
Inductive commit (s : AppState) : AppState → Prop :=
| commit_container :
    AppState.bgStyle s = BgStyle.FOOD →
    AppState.questionBgStyle s = ContainerStyle.none →
    AppState.autoColor s = false →
    commit s (update Key.questionBgStyle ContainerStyle.badge s)
| commit_fontColor :
    AppState.autoColor s = true →
    commit s (update Key.fontColor (contrast_color s) s)
| commit_both :
    AppState.bgStyle s = BgStyle.FOOD →
    AppState.questionBgStyle s = ContainerStyle.none →
    AppState.autoColor s = true →
    commit s (update Key.fontColor (contrast_color s)
                (update Key.questionBgStyle ContainerStyle.badge s)).

(** ** [isDarkColor] on colours *)

Lemma parseInt16_hex2 n : 0 ≤ n ≤ 255 → parseInt16 (hex2 n) = Some n.
Proof.
  intros Hn.
  assert (H : forallb (λ n, bool_decide (parseInt16 (hex2 n) = Some n)) (zrange 0 255)
              = true) by (by vm_compute).
  rewrite forallb_zrange in H. by apply (bool_decide_eq_true_1 _), H.
Qed.

(** On a colour [#rrggbb], [isDarkColor] compares the weighted sum of the
    components, divided by 1000, with 128. *)
Lemma isDarkColor_hex_color r g b :
  0 ≤ r ≤ 255 → 0 ≤ g ≤ 255 → 0 ≤ b ≤ 255 →
  isDarkColor (hex_color r g b) = brightness_dark (r * 299 + g * 587 + b * 114).
Proof.
  intros Hr Hg Hb. unfold isDarkColor.
  change (remove_first "#" (hex_color r g b)) with (hex2 r +:+ hex2 g +:+ hex2 b).
  change (substr 0 2 (hex2 r +:+ hex2 g +:+ hex2 b)) with (hex2 r).
  change (substr 2 2 (hex2 r +:+ hex2 g +:+ hex2 b)) with (hex2 g).
  change (substr 4 2 (hex2 r +:+ hex2 g +:+ hex2 b)) with (hex2 b).
  by rewrite !parseInt16_hex2.
Qed.

(** Around the threshold the binary64 comparison is the exact one: the
    quotient is below 128 exactly when the sum is below 128000. *)
Lemma brightness_dark_exact x :
  127000 ≤ x ≤ 129000 → brightness_dark x = (x <? 128000).
Proof.
  intros Hx.
  assert (H : forallb (λ x, bool_decide (brightness_dark x = (x <? 128000)))
                (zrange 127000 129000) = true) by (by vm_compute).
  rewrite forallb_zrange in H. by apply (bool_decide_eq_true_1 _), H.
Qed.

(** A text without hexadecimal digits is not a dark colour. *)
Lemma isDarkColor_NaN color :
  parseInt16 (substr 0 2 (remove_first "#" color)) = None → isDarkColor color = false.
Proof. unfold isDarkColor. by intros ->. Qed.

(** ** [handleGenerate] *)

Lemma generate_wf state : wf (generate state).
Proof. apply generateBODMAS_wf. Qed.

Lemma retry_wp fuel state (P : Question → Prop) newQ :
  P newQ → wp (generate state) P →
  wp (retry fuel state newQ)
    (λ found, ∀ q, found = Some q → P q ∧ question q ≠ AppState.question state).
Proof.
  intros HP Hgen. revert newQ HP.
  induction fuel as [|fuel IH]; intros newQ HP; simpl;
    destruct (String.eqb_spec (question newQ) (AppState.question state)).
  - by rewrite wp_ret.
  - rewrite wp_ret. by intros q [= <-].
  - rewrite wp_bind. eapply wp_mono; [|exact Hgen]. intros q Hq. by apply IH.
  - rewrite wp_ret. by intros q [= <-].
Qed.

Lemma retry_wf fuel state newQ : wf (retry fuel state newQ).
Proof.
  revert newQ. induction fuel as [|fuel IH]; intros newQ; simpl;
    destruct (String.eqb _ _); try done.
  apply wf_wp_bind; [apply generate_wf|]. apply wp_outcomes. auto.
Qed.

Lemma handleGenerate_wf fuel state : wf (handleGenerate fuel state).
Proof.
  unfold handleGenerate. apply wf_wp_bind; [apply generate_wf|].
  apply wp_outcomes. intros newQ _. apply wf_wp_bind; [apply retry_wf|].
  by apply wp_outcomes.
Qed.

(** C14. The updater of [handleGenerate], when there is one, installs a
    question of the generator's specification whose text differs from the
    one shown, with its answer, and changes nothing else. *)
Theorem handleGenerate_new fuel state :
  wp (handleGenerate fuel state) (λ found, ∀ u prev, found = Some u →
    (∃ e, e ∈ spec (AppState.difficulty state) (AppState.useFactorials state)
                (AppState.useExponents state) (AppState.useFractions state)
          ∧ AppState.question (u prev) = render e
          ∧ AppState.answer (u prev) = evalF e)
    ∧ AppState.question (u prev) ≠ AppState.question state
    ∧ ∀ key, key ≠ Key.question → key ≠ Key.answer → get key (u prev) = get key prev).
Proof.
  unfold handleGenerate. rewrite wp_bind.
  set (P := λ q : Question, ∃ e,
    e ∈ spec (AppState.difficulty state) (AppState.useFactorials state)
          (AppState.useExponents state) (AppState.useFractions state)
    ∧ q = question_of e).
  assert (Hgen : wp (generate state) P) by (apply generateBODMAS_wp; unfold P; eauto).
  eapply wp_mono; [|exact Hgen]. intros newQ HnewQ. rewrite wp_bind.
  eapply wp_mono; [|by apply retry_wp]. intros found Hfound. rewrite wp_ret.
  intros u prev Hu. destruct found as [q|]; [|done]. injection Hu as <-.
  destruct (Hfound q eq_refl) as [(e & He & ->) Hne]. split_and!.
  - exists e. by split_and!.
  - done.
  - intros key H1 H2. unfold set_question. by rewrite !get_update_ne.
Qed.

(** C15. On a source that repeats one sample the generator repeats one
    question: when that question is the one shown, no number of further
    draws ends the loop of [handleGenerate]. *)
Theorem handleGenerate_stuck fuel state (r : Q) :
  AppState.question state = question (result (generate state) (λ _, r) 0) →
  result (handleGenerate fuel state) (λ _, r) 0 = None.
Proof.
  intros Hq.
  assert (Hretry : ∀ fuel i j,
    result (retry fuel state (result (generate state) (λ _, r) j)) (λ _, r) i = None).
  { clear fuel. intros fuel. induction fuel as [|fuel IH]; intros i j; cbn [retry];
      rewrite (result_const _ r j 0), <- Hq, String.eqb_refl; [done|].
    unfold result at 1. rewrite run_bind. apply IH. }
  unfold handleGenerate, result at 1. rewrite !run_bind.
  fold (result (retry fuel state (result (generate state) (λ _, r) 0)) (λ _, r)
          (cursor (generate state) (λ _, r) 0)).
  by rewrite Hretry.
Qed.

(** ** The effects *)

Lemma effect_container_Some s u :
  effect_container s = Some u →
  u = update Key.questionBgStyle ContainerStyle.badge
  ∧ AppState.bgStyle s = BgStyle.FOOD ∧ AppState.questionBgStyle s = ContainerStyle.none.
Proof. unfold effect_container. case_decide; naive_solver. Qed.

Lemma effect_fontColor_Some s u :
  effect_fontColor s = Some u →
  u = update Key.fontColor (contrast_color s) ∧ AppState.autoColor s = true.
Proof. unfold effect_fontColor. destruct (AppState.autoColor s); naive_solver. Qed.

Lemma fire_unchanged {D} `{EqDecision D} (deps : AppState → D) effect o s :
  deps o = deps s → fire deps effect (Some o) s = None.
Proof. intros E. unfold fire, changed. by rewrite bool_decide_eq_false_2 by auto. Qed.

Lemma fire_Some {D} `{EqDecision D} (deps : AppState → D) effect old s u :
  fire deps effect old s = Some u → effect s = Some u.
Proof. unfold fire. by destruct (changed deps old s). Qed.

(** The dependencies of the first effect are among those of the second. *)
Lemma changed_container_fontColor old s :
  changed container_deps old s = true → changed fontColor_deps old s = true.
Proof.
  destruct old as [o|]; [|done]. unfold changed, container_deps, fontColor_deps.
  rewrite !bool_decide_eq_true. naive_solver.
Qed.

Lemma run_effects_Some old s s' : run_effects old s = Some s' → commit s s'.
Proof.
  unfold run_effects.
  destruct (fire container_deps _ _ _) as [u1|] eqn:E1;
    destruct (fire fontColor_deps _ _ _) as [u2|] eqn:E2; intros [= <-]; simpl.
  - apply fire_Some, effect_container_Some in E1 as (-> & ? & ?).
    apply fire_Some, effect_fontColor_Some in E2 as (-> & ?). by apply commit_both.
  - unfold fire in E1, E2. destruct (changed container_deps old s) eqn:Hc; [|done].
    rewrite (changed_container_fontColor _ _ Hc) in E2.
    apply effect_container_Some in E1 as (-> & ? & ?). apply commit_container; try done.
    unfold effect_fontColor in E2. by destruct (AppState.autoColor s).
  - apply fire_Some, effect_fontColor_Some in E2 as (-> & ?). by apply commit_fontColor.
Qed.

Lemma run_effects_unchanged o s :
  fontColor_deps o = fontColor_deps s → run_effects (Some o) s = None.
Proof.
  intros E. unfold run_effects. rewrite !fire_unchanged; [done..|].
  unfold fontColor_deps, container_deps in *. congruence.
Qed.

Lemma run_effects_changed o s :
  fontColor_deps o ≠ fontColor_deps s → AppState.autoColor s = true →
  is_Some (run_effects (Some o) s).
Proof.
  intros Hd Ha. unfold run_effects.
  assert (fire fontColor_deps effect_fontColor (Some o) s
          = Some (update Key.fontColor (contrast_color s))) as ->.
  { unfold fire, changed, effect_fontColor. by rewrite bool_decide_eq_true_2, Ha. }
  by destruct (fire container_deps _ _ _).
Qed.

Lemma run_effects_container old s u s1 :
  fire container_deps effect_container old s = Some u →
  run_effects old s = Some s1 →
  AppState.questionBgStyle s1 = ContainerStyle.badge.
Proof.
  intros Hf. unfold run_effects. rewrite Hf.
  apply fire_Some, effect_container_Some in Hf as (-> & _).
  destruct (fire fontColor_deps _ _ _) as [u2|] eqn:E; intros [= <-]; [|done].
  by apply fire_Some, effect_fontColor_Some in E as (-> & _).
Qed.

Lemma commit_bgStyle s s' : commit s s' → AppState.bgStyle s' = AppState.bgStyle s.
Proof. by destruct 1. Qed.

(** The commit after a commit runs the colour effect at most. *)
Lemma run_effects_second s s1 s2 :
  commit s s1 → run_effects (Some s) s1 = Some s2 →
  s2 = update Key.fontColor (contrast_color s1) s1 ∧ AppState.autoColor s1 = true.
Proof.
  intros Hc. unfold run_effects.
  rewrite (fire_unchanged container_deps) by (symmetry; by apply commit_bgStyle).
  destruct (fire fontColor_deps _ _ _) as [u|] eqn:E; [|done]. intros [= <-].
  by apply fire_Some, effect_fontColor_Some in E as (-> & ?).
Qed.

Lemma settle_None n old s : run_effects old s = None → settle n old s = Some s.
Proof. intros E. destruct n; simpl; by rewrite E. Qed.

(** The renders of [settle]: none, one, or two, the second setting the
    colour only. *)
Lemma settle_cases n old s s' :
  settle n old s = Some s' →
  (run_effects old s = None ∧ s' = s)
  ∨ ∃ s1, run_effects old s = Some s1
          ∧ (s' = s1 ∧ run_effects (Some s) s1 = None
             ∨ s' = update Key.fontColor (contrast_color s1) s1
               ∧ AppState.autoColor s1 = true).
Proof.
  destruct n as [|n]; simpl; destruct (run_effects old s) as [s1|] eqn:E1; try naive_solver.
  intros H. right. exists s1. split; [done|]. apply run_effects_Some in E1.
  destruct n as [|n]; simpl in H; destruct (run_effects (Some s) s1) as [s2|] eqn:E2;
    try naive_solver.
  apply run_effects_second in E2 as (-> & ?); [|done].
  rewrite settle_None in H by (by apply run_effects_unchanged). naive_solver.
Qed.

Lemma contrasted_update s : contrasted (update Key.fontColor (contrast_color s) s).
Proof. by intros _. Qed.

(** With fuel for two updates or more the renders end. *)
Lemma settle_enough n old s : (2 ≤ n)%nat → is_Some (settle n old s).
Proof.
  intros Hn. destruct n as [|[|n] ]; [lia..|]. simpl.
  destruct (run_effects old s) as [s1|] eqn:E1; [|by eexists].
  apply run_effects_Some in E1.
  destruct (run_effects (Some s) s1) as [s2|] eqn:E2; [|by eexists].
  apply run_effects_second in E2 as (-> & ?); [|done].
  rewrite settle_None by (by apply run_effects_unchanged). by eexists.
Qed.

(** A state that one commit reaches and the next render leaves alone has
    the contrast colour. *)
Lemma commit_contrasted s s1 :
  commit s s1 → run_effects (Some s) s1 = None → contrasted s1.
Proof.
  intros Hc E. destruct Hc as [? ? Ha|?|? Hq Ha]; [|apply contrasted_update|].
  { intros Ha'. state_simpl in Ha'. congruence. }
  destruct (run_effects_changed s
    (update Key.fontColor (contrast_color s)
       (update Key.questionBgStyle ContainerStyle.badge s))) as [? E'];
    [|done|congruence].
  unfold fontColor_deps. state_simpl. rewrite Hq. congruence.
Qed.

(** The contrast colour is a function of the dependencies of its effect. *)
Lemma contrast_color_deps o s :
  fontColor_deps o = fontColor_deps s → contrast_color o = contrast_color s.
Proof.
  unfold fontColor_deps, contrast_color, dark_background. by intros [= -> -> _ _ ->].
Qed.

(** C17. The renders after a change end: whatever the previous render and
    the state, the effects update the state twice at most. *)
Theorem settle_total old s : is_Some (settle 2 old s).
Proof. by apply settle_enough. Qed.


(** C19. When the background becomes the food background (or is it on the
    first render), the renders end with a container around the question. *)
Theorem settle_food_container n old s s' :
  settle n old s = Some s' →
  changed container_deps old s = true →
  AppState.bgStyle s = BgStyle.FOOD →
  AppState.questionBgStyle s' ≠ ContainerStyle.none.
Proof.
  intros Hs Hch Hfood.
  destruct (decide (AppState.questionBgStyle s = ContainerStyle.none)) as [Hq|Hq].
  - assert (fire container_deps effect_container old s
            = Some (update Key.questionBgStyle ContainerStyle.badge)) as Hf.
    { unfold fire, effect_container. rewrite Hch. by rewrite decide_True. }
    apply settle_cases in Hs as [[E ->]|(s1 & E1 & [[-> E]|[-> Ha] ])].
    + unfold run_effects in E. rewrite Hf in E. by destruct (fire fontColor_deps _ _ _).
    + by rewrite (run_effects_container _ _ _ _ Hf E1).
    + state_simpl. by rewrite (run_effects_container _ _ _ _ Hf E1).
  - apply settle_cases in Hs
      as [[E ->]|(s1 & Hc%run_effects_Some & [[-> E]|[-> Ha] ])]; [done|..];
      destruct Hc; by state_simpl.
Qed.

(** ** Instances on concrete states *)

(** The first state on the example source, and the state the first renders
    end in. *)
Definition example_initial : AppState := result initialState example_source 0.
Definition example_mounted : AppState := update Key.fontColor "#ffffff" example_initial.

Lemma isDarkColor_hex_color_witness :
  isDarkColor (hex_color 79 70 229) = brightness_dark (79 * 299 + 70 * 587 + 229 * 114).
Proof. apply isDarkColor_hex_color; lia. Defined.


Lemma settle_food_container_witness :
  AppState.questionBgStyle
    (update Key.fontColor "#ffffff"
       (update Key.questionBgStyle ContainerStyle.badge
          (update Key.bgStyle BgStyle.FOOD example_mounted)))
  ≠ ContainerStyle.none.
Proof.
  apply (settle_food_container 2 (Some example_mounted)
           (update Key.bgStyle BgStyle.FOOD example_mounted));
    by vm_compute.
Defined.

Lemma handleGenerate_stuck_witness :
  result (handleGenerate 1000 (result initialState (λ _, 0%Q) 0)) (λ _, 0%Q) 0 = None.
Proof. apply handleGenerate_stuck. by vm_compute. Defined.
