(* ===== verification/GeminiService.v ===== *)
(** * GeminiService.v: the critique service of [src/services/geminiService.ts]

    [analyzeVirality] builds a prompt from five fields of the state, sends
    it to the remote model and returns [JSON.parse] of the text of the
    response; when the call is rejected or the text does not parse, the
    exception is caught and a fixed triple is returned.

    - The remote call is a parameter: a function from the request to the
      [Reply] it gets, [rejected] when the promise is rejected or the call
      throws, and otherwise the response with its [text], which may be
      missing.  A call that never settles is not a reply: [analyzeVirality]
      does not return then (there is no timer in the code).
    - [JSON.parse] is a parameter of the section, a partial function from
      texts to [Json] values; [None] is the exception it throws.  A missing
      text is parsed as the text [undefined], as [JSON.parse(undefined)] is.
    - The result has the static type [ViralityAnalysis], which nothing
      checks: the function returns whatever value the text denotes.
      [conforms] is the check that is not made.
    - Writing to the console is not modelled. *)

From Stdlib Require Import Ascii.
From S2P Require Import Prelude Number Text Types Constants.

#[local] Open Scope string_scope.
#[local] Open Scope Z_scope.

(** ** Definitions *)

(** The interface [ViralityAnalysis] of [src/types.ts]. *)
Record ViralityAnalysis : Type := {
  score : number;
  suggestion : string;
  bestHeadline : string
}.

#[local] Set Warnings "-register-all".

(** The values [JSON.parse] returns.  The members of an object are in the
    order of the text; of two members with one name the later counts. *)
Inductive Json : Type :=
| JNull
| JBool (b : bool)
| JNumber (n : number)
| JString (s : string)
| JArray (items : list Json)
| JObject (members : list (string * Json)).

(** [value[name]] on a parsed value: [None] is [undefined]. *)
Definition member (name : string) (value : Json) : option Json :=
  match value with
  | JObject members =>
      (λ found, found.2.2) <$> list_find (λ m, m.1 = name) (reverse members)
  | _ => None
  end.

Definition newline : string := String (ascii_of_nat 10) EmptyString.

(** The lines of a template literal, joined by line feeds. *)
Fixpoint lines (l : list string) : string :=
  match l with
  | [] => ""
  | [s] => s
  | s :: l' => s +:+ newline +:+ lines l'
  end.

(** The template literal [prompt]. *)
Definition prompt (state : AppState) : string :=
  lines
    [ "";
      "    As an EdTech UI/UX expert, analyze this math challenge post for social media virality.";
      "    ";
      "    Post Details:";
      "    - Question: " +:+ AppState.question state;
      "    - Difficulty: " +:+ enum_value (AppState.difficulty state);
      "    - Platform: " +:+ enum_value (AppState.platform state);
      "    - Background Style: " +:+ enum_value (AppState.bgStyle state);
      "    - Font Family: " +:+ AppState.fontFamily state;
      "    ";
      "    Evaluate visual contrast, curiosity gap, and engagement potential.";
      "  " ].

(** A property of the response schema: its type and its description. *)
Inductive SchemaType : Set := NUMBER | STRING.

Record Property : Type := { type : SchemaType; description : string }.

(** The argument of [ai.models.generateContent]. *)
Record Request : Type := {
  model : string;
  contents : string;
  responseMimeType : string;
  properties : list (string * Property);
  required : list string
}.

Definition request (state : AppState) : Request :=
  {| model := "gemini-3-flash-preview";
     contents := prompt state;
     responseMimeType := "application/json";
     properties :=
       [ ("score", {| type := NUMBER; description := "Virality score from 0-100" |});
         ("suggestion", {| type := STRING; description := "Improvement tip" |});
         ("bestHeadline",
          {| type := STRING; description := "A high-converting headline" |}) ];
     required := ["score"; "suggestion"; "bestHeadline"] |}.

(** What the awaited call gives. *)
Inductive Reply : Type :=
| rejected
| response (text : option string).

(** The object returned when an exception is caught. *)
Definition fallback : Json :=
  JObject
    [ ("score", JNumber (of_Z 75));
      ("suggestion",
       JString ("Try using a higher contrast background color for better " +:+
                "readability on small screens."));
      ("bestHeadline", JString "Only Geniuses Can Solve This! 🧠") ].

(** The value has the members of [ViralityAnalysis], with their types. *)
Definition conforms (value : Json) : option ViralityAnalysis :=
  match member "score" value, member "suggestion" value, member "bestHeadline" value with
  | Some (JNumber n), Some (JString s), Some (JString h) =>
      Some {| score := n; suggestion := s; bestHeadline := h |}
  | _, _, _ => None
  end.

Section Service.
Context (JSON_parse : string → option Json).

(** [analyzeVirality]: the [try] block, and the [catch] block when the call
    or the parse throws. *)
Definition analyzeVirality (generateContent : Request → Reply) (state : AppState) : Json :=
  match generateContent (request state) with
  | response text =>
      match JSON_parse (default "undefined" text) with
      | Some value => value
      | None => fallback
      end
  | rejected => fallback
  end.

(** ** The error path *)

Lemma analyzeVirality_rejected generateContent state :
  generateContent (request state) = rejected →
  analyzeVirality generateContent state = fallback.
Proof. unfold analyzeVirality. by intros ->. Qed.

Lemma analyzeVirality_unparsed generateContent state text :
  generateContent (request state) = response text →
  JSON_parse (default "undefined" text) = None →
  analyzeVirality generateContent state = fallback.
Proof. unfold analyzeVirality. by intros -> ->. Qed.

Lemma analyzeVirality_parsed generateContent state text value :
  generateContent (request state) = response text →
  JSON_parse (default "undefined" text) = Some value →
  analyzeVirality generateContent state = value.
Proof. unfold analyzeVirality. by intros -> ->. Qed.

(** C35. A failure of the service is not propagated: when the call is
    rejected, or the text of the response is missing or is not JSON,
    [analyzeVirality] returns the fallback. *)
Theorem analyzeVirality_error generateContent state :
  generateContent (request state) = rejected
  ∨ (∃ text, generateContent (request state) = response text
             ∧ JSON_parse (default "undefined" text) = None) →
  analyzeVirality generateContent state = fallback.
Proof.
  intros [H|(text & H & Hp)];
    eauto using analyzeVirality_rejected, analyzeVirality_unparsed.
Qed.


(** The analysis depends on the state through the prompt only: two
    states with the same question, difficulty, platform, background style
    and font family get the same analysis from the same service. *)
Theorem analyzeVirality_prompt generateContent s s' :
  AppState.question s = AppState.question s' →
  AppState.difficulty s = AppState.difficulty s' →
  AppState.platform s = AppState.platform s' →
  AppState.bgStyle s = AppState.bgStyle s' →
  AppState.fontFamily s = AppState.fontFamily s' →
  analyzeVirality generateContent s = analyzeVirality generateContent s'.
Proof.
  intros Hq Hd Hp Hb Hf. unfold analyzeVirality, request, prompt.
  by rewrite Hq, Hd, Hp, Hb, Hf.
Qed.

(** Nothing checks the parsed value: when the text is JSON of another
    shape, [analyzeVirality] returns it as it is, and the result does not
    have the members of [ViralityAnalysis]. *)
Theorem analyzeVirality_unchecked generateContent state text value :
  generateContent (request state) = response (Some text) →
  JSON_parse text = Some value →
  conforms value = None →
  conforms (analyzeVirality generateContent state) = None.
Proof. intros Hr Hp Hc. by rewrite (analyzeVirality_parsed _ _ (Some text) value). Qed.

End Service.

(** ** The fallback *)

Lemma member_last name value members :
  member name (JObject (members ++ [(name, value)])) = Some value.
Proof.
  unfold member. rewrite reverse_app. simpl. by rewrite decide_True.
Qed.

(** The fallback has the three members of [ViralityAnalysis], and its
    score, 75, is a finite number between 0 and 100. *)
Lemma fallback_conforms :
  ∃ analysis, conforms fallback = Some analysis
    ∧ score analysis = of_Z 75
    ∧ isFinite (score analysis) = true
    ∧ (0 <= to_Q (score analysis) <= 100)%Q.
Proof. eexists. split; [reflexivity|]. by vm_compute. Qed.

(** What a value with the members of [ViralityAnalysis] holds. *)
Lemma conforms_members value :
  is_Some (conforms value) →
  ∃ n s h, member "score" value = Some (JNumber n)
    ∧ member "suggestion" value = Some (JString s)
    ∧ member "bestHeadline" value = Some (JString h)
    ∧ ∃ members, value = JObject members.
Proof.
  intros [analysis Hc]. unfold conforms in Hc.
  destruct value; try done. repeat case_match; try done. eauto 10.
Qed.

(** The prompt names the five fields and nothing else of the state. *)
Lemma prompt_update key (value : field_type key) state :
  key ∉ [Key.question; Key.difficulty; Key.platform; Key.bgStyle; Key.fontFamily] →
  prompt (update key value state) = prompt state.
Proof.
  intros Hk. destruct key; first [reflexivity | exfalso; apply Hk; set_solver].
Qed.

(** ** Instances *)

(** A parser for the examples: it knows the text [null] and the text of an
    object whose score is an empty object. *)
Definition example_text : string := "{" +:+ dquote +:+ "score" +:+ dquote +:+ ":{}}".

Definition example_parse (text : string) : option Json :=
  if String.eqb text "null" then Some JNull
  else if String.eqb text example_text then Some (JObject [("score", JObject [])])
  else None.

Lemma analyzeVirality_unchecked_witness :
  conforms (analyzeVirality example_parse (λ _, response (Some "null")) sample_state) = None.
Proof.
  by apply (analyzeVirality_unchecked example_parse (λ _, response (Some "null"))
              sample_state "null" JNull).
Defined.

Lemma analyzeVirality_error_witness :
  analyzeVirality example_parse (λ _, response None) sample_state = fallback.
Proof.
  apply (analyzeVirality_error example_parse (λ _, response None) sample_state).
  right. by exists None.
Defined.


Lemma analyzeVirality_prompt_witness :
  analyzeVirality example_parse (λ _, rejected) sample_state
  = analyzeVirality example_parse (λ _, rejected) (update Key.fontSize 80 sample_state).
Proof.
  by apply (analyzeVirality_prompt example_parse (λ _, rejected) sample_state
              (update Key.fontSize 80 sample_state)).
Defined.
