(* ===== verification/CanvasPreview.v ===== *)
(** * CanvasPreview.v: the card of [src/components/CanvasPreview.tsx]

    The component is a function of the state: it computes a style object
    and a few classes, and returns the tree of elements of the card.  The
    model is that function.  [containerStyle], [getBgClass],
    [footerOpacity], [getQuestionContainerClass], [getRankInfo] and
    [getRankPosClass] are the values of those names; [CanvasPreview] is the
    returned tree, a record with one field for each element whose presence
    or style depends on the state, [None] when the element is not
    rendered.

    - A [switch] on a string is [switch] below, with its [default]; the
      enumerations are compared through the strings they stand for.
    - A class attribute is the list of the parts of its template: the white
      space between classes has no meaning.  Classes and styles that do not
      depend on the state are left out.
    - A length [`${n}px`] is a string; [n] is an integer. *)

From Stdlib Require Import Ascii.
From S2P Require Import Prelude Number Text Types Constants.

#[local] Open Scope string_scope.
#[local] Open Scope Z_scope.

(** ** Definitions *)

(** [switch (s) { case c: return a; ... default: return d; }] *)
Fixpoint switch {A} (s : string) (cases : list (string * A)) (default : A) : A :=
  match cases with
  | [] => default
  | (c, a) :: cases' => if String.eqb s c then a else switch s cases' default
  end.

(** [`url("${address}")`] *)
Definition url (address : string) : string :=
  "url(" +:+ dquote +:+ address +:+ dquote +:+ ")".

(** [`${n}px`] *)
Definition px (n : Z) : string := toString n +:+ "px".

Definition isPortrait (state : AppState) : bool :=
  bool_decide (AppState.platform state = Platform.PORTRAIT).

(** The style object of the card; [None] is [undefined]. *)
Module Style.
Record Style : Type := {
  aspectRatio : string;
  maxWidth : string;
  width : string;
  maxHeight : string;
  fontFamily : string;
  backgroundColor : option string;
  backgroundImage : option string;
  backgroundSize : string;
  backgroundPosition : string
}.
End Style.
Abbreviation Style := Style.Style.

(** [FOOD_IMAGES[state.foodType][state.foodVariant]] in the template: a
    read out of range gives the text [undefined]. *)
Definition food_image (state : AppState) : string :=
  default "undefined" (nth_Z (FOOD_IMAGES (AppState.foodType state)) (AppState.foodVariant state)).

Definition containerStyle (state : AppState) : Style :=
  {| Style.aspectRatio := if isPortrait state then "9/16" else "1/1";
     Style.maxWidth := if isPortrait state then "400px" else "500px";
     Style.width := "100%";
     Style.maxHeight := "80vh";
     Style.fontFamily := AppState.fontFamily state;
     Style.backgroundColor :=
       if decide (AppState.bgStyle state = BgStyle.CUSTOM)
       then Some (AppState.customBgColor state) else None;
     Style.backgroundImage :=
       if decide (AppState.bgStyle state = BgStyle.FOOD)
       then Some (url (food_image state)) else None;
     Style.backgroundSize := "cover";
     Style.backgroundPosition := "center" |}.

Definition getBgClass (state : AppState) : string :=
  let preset := BG_PRESETS (AppState.bgStyle state) in
  class preset.

Definition footerOpacity (state : AppState) : string :=
  if String.eqb (AppState.fontColor state) "#ffffff"
  then "rgba(255,255,255,0.8)" else "rgba(0,0,0,0.7)".

Definition getQuestionContainerClass (state : AppState) : string :=
  switch (enum_value (AppState.questionBgStyle state))
    [ ("ribbon", "bg-red-600 rotate-1 shadow-xl rounded-sm");
      ("badge", "bg-indigo-600 rounded-3xl shadow-2xl border-4 border-white/20");
      ("glass", "bg-white/10 backdrop-blur-md rounded-2xl border border-white/20 shadow-lg");
      ("minimal", "bg-white/90 rounded-xl shadow-lg") ]
    "".

Record RankInfo : Type := { label : string; color : string }.

Definition getRankInfo (state : AppState) : RankInfo :=
  switch (enum_value (AppState.difficulty state))
    [ (enum_value Difficulty.EASY, {| label := "Novice"; color := "bg-emerald-500" |});
      (enum_value Difficulty.MEDIUM, {| label := "Expert"; color := "bg-blue-500" |});
      (enum_value Difficulty.TRICKY, {| label := "Elite"; color := "bg-purple-600" |});
      (enum_value Difficulty.ULTRA_TRICKY,
       {| label := "Legend";
          color := "bg-amber-500 shadow-[0_0_15px_rgba(245,158,11,0.5)]" |}) ]
    {| label := "Pro"; color := "bg-indigo-600" |}.

Definition getRankPosClass (state : AppState) : string :=
  switch (enum_value (AppState.rankPosition state))
    [ (enum_value RankPosition.TOP_LEFT, "top-6 left-6");
      (enum_value RankPosition.TOP_RIGHT, "top-6 right-6");
      (enum_value RankPosition.BOTTOM_LEFT, "bottom-6 left-6");
      (enum_value RankPosition.CENTER_RIGHT, "top-1/2 -translate-y-1/2 right-6") ]
    "top-6 left-6".

(** The header: its inline style, the parts of its class that depend on
    the style chosen, and its text. *)
Module Header.
Record Header : Type := {
  fontFamily : string;
  color : string;
  borderColor : string;
  className : list string;
  children : string
}.
End Header.
Abbreviation Header := Header.Header.

Definition header (state : AppState) : option Header :=
  if AppState.headerEnabled state then
    let style := enum_value (AppState.headerStyle state) in
    Some
      {| Header.fontFamily := AppState.headerFont state;
         Header.color :=
           if bool_decide (style ∈ ["ribbon"; "badge"]) then "#ffffff"
           else if decide (AppState.bgStyle state = BgStyle.FOOD) then "#ffffff"
           else AppState.fontColor state;
         Header.borderColor :=
           if String.eqb style "minimal" then "rgba(255,255,255,0.5)" else "transparent";
         Header.className :=
           [ if String.eqb style "ribbon" then "bg-red-600 -rotate-2 shadow-md rounded-sm"
             else "";
             if String.eqb style "badge" then "bg-indigo-600 rounded-full shadow-md" else "";
             if String.eqb style "glow" then "drop-shadow-[0_0_8px_rgba(255,255,255,0.8)]"
             else "";
             if String.eqb style "minimal" then "border-b-2 pb-1" else "" ];
         Header.children := AppState.headerText state |}
  else None.

(** The logo: where it is placed and the image shown.  An empty address is
    falsy, like [null]. *)
Module Logo.
Record Logo : Type := { className : string; src : string }.
End Logo.
Abbreviation Logo := Logo.Logo.

Definition logo (state : AppState) : option Logo :=
  match AppState.logoUrl state with
  | Some logoUrl =>
      if String.eqb logoUrl "" then None
      else
        Some
          {| Logo.className :=
               if decide (AppState.logoPosition state = LogoPosition.TOP_LEFT)
               then "top-4 left-4"
               else if decide (AppState.logoPosition state = LogoPosition.TOP_RIGHT)
               then "top-4 right-4"
               else "bottom-4 right-4";
             Logo.src := logoUrl |}
  | None => None
  end.

(** The question: the translation of the block, the container around the
    text and the style of the text. *)
Module Content.
Record Content : Type := {
  transform : string;
  className : string;
  paddingLeft : string;
  paddingRight : string;
  paddingTop : string;
  paddingBottom : string;
  fontSize : string;
  color : string;
  fontWeight : string;
  letterSpacing : string;
  lineHeight : Q;
  textShadow : string;
  glow : string;
  children : string
}.
End Content.
Abbreviation Content := Content.Content.

Definition content (state : AppState) : Content :=
  let contained := bool_decide (AppState.questionBgStyle state ≠ ContainerStyle.none) in
  {| Content.transform := "translateY(" +:+ px (AppState.questionYOffset state) +:+ ")";
     Content.className := getQuestionContainerClass state;
     Content.paddingLeft := if contained then px (AppState.questionPaddingX state) else "0px";
     Content.paddingRight := if contained then px (AppState.questionPaddingX state) else "0px";
     Content.paddingTop := if contained then px (AppState.questionPaddingY state) else "0px";
     Content.paddingBottom := if contained then px (AppState.questionPaddingY state) else "0px";
     Content.fontSize := px (AppState.fontSize state);
     Content.color := AppState.fontColor state;
     Content.fontWeight := AppState.fontWeight state;
     Content.letterSpacing := px (AppState.letterSpacing state);
     Content.lineHeight := AppState.lineSpacing state;
     Content.textShadow :=
       if AppState.showShadow state
          && bool_decide (AppState.questionBgStyle state = ContainerStyle.none)
       then "0 10px 30px rgba(0,0,0,0.3)" else "none";
     Content.glow :=
       if AppState.showGlow state then "drop-shadow-[0_0_15px_rgba(255,255,255,0.5)]" else "";
     Content.children := AppState.question state |}.

(** The rank badge: its place, its colour and its label. *)
Module Badge.
Record Badge : Type := { className : string; color : string; children : string }.
End Badge.
Abbreviation Badge := Badge.Badge.

Definition badge (state : AppState) : option Badge :=
  let rank := getRankInfo state in
  if AppState.showRankBadge state then
    Some {| Badge.className := getRankPosClass state;
            Badge.color := color rank;
            Badge.children := label rank |}
  else None.

(** The colour of the footer, when it is shown. *)
Definition footer (state : AppState) : option string :=
  if AppState.showCommentFooter state then
    Some (if decide (AppState.bgStyle state = BgStyle.FOOD)
          then "rgba(255,255,255,0.9)" else footerOpacity state)
  else None.

(** The card. *)
Module Canvas.
Record Canvas : Type := {
  style : Style;
  className : string;
  overlay : bool;
  decor : list string;
  header : option Header;
  logo : option Logo;
  content : Content;
  badge : option Badge;
  footer : option string
}.
End Canvas.
Abbreviation Canvas := Canvas.Canvas.

Definition CanvasPreview (state : AppState) : Canvas :=
  {| Canvas.style := containerStyle state;
     Canvas.className := getBgClass state;
     Canvas.overlay := bool_decide (AppState.bgStyle state = BgStyle.FOOD);
     Canvas.decor := replicate 12 "+ − × ÷ √";
     Canvas.header := header state;
     Canvas.logo := logo state;
     Canvas.content := content state;
     Canvas.badge := badge state;
     Canvas.footer := footer state |}.

(** The fields of the state that nothing of the card depends on. *)
Definition unrendered : list Key :=
  [ Key.answer; Key.useFactorials; Key.useExponents; Key.useFractions; Key.autoColor;
    Key.questionBorderRadius; Key.bgColors; Key.showWatermark; Key.watermarkText;
    Key.watermarkAlign; Key.watermarkOffset ].

(** ** The background *)

Lemma food_image_Some state :
  0 ≤ AppState.foodVariant state < 3 →
  nth_Z (FOOD_IMAGES (AppState.foodType state)) (AppState.foodVariant state)
  = Some (food_image state).
Proof.
  intros Hv. unfold food_image.
  destruct (nth_Z_is_Some (FOOD_IMAGES (AppState.foodType state)) (AppState.foodVariant state))
    as [_ [a ->]]; [|done].
  rewrite FOOD_IMAGES_length. lia.
Qed.

(** Out of the pool the address is the text [undefined]. *)
Lemma food_image_undefined state :
  ¬ 0 ≤ AppState.foodVariant state < 3 → food_image state = "undefined".
Proof.
  intros Hv. unfold food_image.
  destruct (nth_Z _ _) as [a|] eqn:E; [|done].
  destruct Hv. assert (H : is_Some (nth_Z (FOOD_IMAGES (AppState.foodType state))
                                      (AppState.foodVariant state))) by eauto.
  apply nth_Z_is_Some in H. rewrite FOOD_IMAGES_length in H. lia.
Qed.

(** With a variant that is an index of the pool, the image of a food
    background is an address of the pool of the food type chosen. *)
Theorem food_image_defined state :
  AppState.bgStyle state = BgStyle.FOOD →
  0 ≤ AppState.foodVariant state < 3 →
  ∃ address, address ∈ FOOD_IMAGES (AppState.foodType state)
    ∧ Style.backgroundImage (Canvas.style (CanvasPreview state)) = Some (url address).
Proof.
  intros Hbg Hv. exists (food_image state). split.
  - by eapply nth_Z_elem_of, food_image_Some.
  - simpl. by rewrite decide_True.
Qed.

(** C38. The card has one background: the custom colour and no class, or
    the food image under the dark overlay, or the class of the preset; the
    colour and the image are set for no other style. *)
Theorem background_exclusive state :
  let card := CanvasPreview state in
  let style := Canvas.style card in
  match AppState.bgStyle state with
  | BgStyle.CUSTOM =>
      Style.backgroundColor style = Some (AppState.customBgColor state)
      ∧ Style.backgroundImage style = None
      ∧ Canvas.className card = "" ∧ Canvas.overlay card = false
  | BgStyle.FOOD =>
      Style.backgroundColor style = None
      ∧ Style.backgroundImage style = Some (url (food_image state))
      ∧ Canvas.overlay card = true
  | _ =>
      Style.backgroundColor style = None ∧ Style.backgroundImage style = None
      ∧ Canvas.className card ≠ "" ∧ Canvas.overlay card = false
  end.
Proof.
  simpl. unfold getBgClass. by destruct (AppState.bgStyle state).
Qed.

(** ** The question *)

(** Without a container the question has no container class and no
    padding, whatever the paddings of the state; with one it has the class
    of the container, the paddings of the state and no text shadow. *)
Theorem content_container state :
  let block := content state in
  if decide (AppState.questionBgStyle state = ContainerStyle.none) then
    Content.className block = ""
    ∧ Content.paddingLeft block = "0px" ∧ Content.paddingRight block = "0px"
    ∧ Content.paddingTop block = "0px" ∧ Content.paddingBottom block = "0px"
  else
    Content.className block ≠ ""
    ∧ Content.paddingLeft block = px (AppState.questionPaddingX state)
    ∧ Content.paddingRight block = px (AppState.questionPaddingX state)
    ∧ Content.paddingTop block = px (AppState.questionPaddingY state)
    ∧ Content.paddingBottom block = px (AppState.questionPaddingY state)
    ∧ Content.textShadow block = "none".
Proof.
  simpl. unfold getQuestionContainerClass.
  destruct (AppState.questionBgStyle state); simpl; split_and!; try done;
    by rewrite andb_false_r.
Qed.

(** ** The rank *)

(** The rank shown is one of the four ranks, never the default of the
    [switch], and distinct difficulties have distinct ranks. *)
Theorem getRankInfo_exhaustive state :
  label (getRankInfo state) ∈ ["Novice"; "Expert"; "Elite"; "Legend"]
  ∧ ∀ state', getRankInfo state = getRankInfo state' →
              AppState.difficulty state = AppState.difficulty state'.
Proof.
  unfold getRankInfo. split.
  - destruct (AppState.difficulty state); simpl; set_solver.
  - intros state'.
    by destruct (AppState.difficulty state), (AppState.difficulty state').
Qed.

(** The default of [getRankPosClass] is the class of the first position. *)
Lemma getRankPosClass_cases state :
  getRankPosClass state
  ∈ ["top-6 left-6"; "top-6 right-6"; "bottom-6 left-6"; "top-1/2 -translate-y-1/2 right-6"].
Proof. unfold getRankPosClass. destruct (AppState.rankPosition state); simpl; set_solver. Qed.

(** ** Legibility on a food background *)

(** C39. On a food background the texts on the image are light whatever the
    font colour: the overlay is drawn, the header, when shown, is white,
    and so is the footer. *)
Theorem food_legible state :
  AppState.bgStyle state = BgStyle.FOOD →
  let card := CanvasPreview state in
  Canvas.overlay card = true
  ∧ (∀ h, Canvas.header card = Some h → Header.color h = "#ffffff")
  ∧ (∀ c, Canvas.footer card = Some c → c = "rgba(255,255,255,0.9)").
Proof.
  intros Hbg. simpl. unfold header, footer. rewrite Hbg. split_and!; [done|..].
  - intros h. destruct (AppState.headerEnabled state); [|done]. intros [= <-]. simpl.
    by case_bool_decide.
  - intros c. destruct (AppState.showCommentFooter state); [|done]. by intros [= <-].
Qed.

(** ** Fields without effect *)

(** Eleven fields of the state have no effect on the card: the answer
    and the toggles, which concern the generator, the automatic colour
    flag, and the border radius, the background colours and the four
    watermark fields, which nothing reads. *)
Theorem CanvasPreview_unrendered key value state :
  key ∈ unrendered → CanvasPreview (update key value state) = CanvasPreview state.
Proof.
  intros Hk. unfold unrendered in Hk.
  repeat (apply elem_of_cons in Hk as [->|Hk]; [reflexivity|]).
  by apply elem_of_nil in Hk.
Qed.

(** ** Instances *)

Lemma food_image_defined_witness :
  ∃ address, address ∈ FOOD_IMAGES FoodType.VEG
    ∧ Style.backgroundImage
        (Canvas.style (CanvasPreview (update Key.bgStyle BgStyle.FOOD sample_state)))
      = Some (url address).
Proof.
  apply (food_image_defined (update Key.bgStyle BgStyle.FOOD sample_state)); [done|].
  split; by vm_compute.
Defined.

Lemma food_legible_witness :
  let card := CanvasPreview (update Key.bgStyle BgStyle.FOOD sample_state) in
  Canvas.overlay card = true
  ∧ (∀ h, Canvas.header card = Some h → Header.color h = "#ffffff")
  ∧ (∀ c, Canvas.footer card = Some c → c = "rgba(255,255,255,0.9)").
Proof. by apply (food_legible (update Key.bgStyle BgStyle.FOOD sample_state)). Defined.

Lemma CanvasPreview_unrendered_witness :
  CanvasPreview (update Key.watermarkText "Brand" sample_state) = CanvasPreview sample_state.
Proof.
  apply (CanvasPreview_unrendered Key.watermarkText "Brand" sample_state).
  unfold unrendered. set_solver.
Defined.
