(* ===== verification/Interaction.v ===== *)
(** * Interaction.v: the application as a transition system

    The page of [src/App.tsx] with its two children: the state of the
    component [App] ([state], [virality], [isAnalyzing], [isExporting]), the
    state of the sidebar ([openSections]), and the asynchronous calls that
    have not returned yet.  A step is one event with the renders that follow
    it:

    - an event of a control of the sidebar ([SidebarView.v]): the browser
      delivers it to the handler ([delivers]), the handler passes an updater
      to [setState], and the effects run until the state is stable
      ([App.settle]);
    - a click on one of the two buttons that call [handleGenerate];
    - a click on the title of a section of the sidebar;
    - [handleAnalyze] and [handleExport], each in two steps, the click and
      the return of the awaited call, with the other events free to happen
      in between; the buttons are disabled while their flag is set;
    - the button that closes the analysis panel.

    [reachable] is what can be reached from the first render on a source of
    unit samples.  The invariants are proved by induction on the steps:
    the values of the sliders are within their bounds, the strings are
    among the options of their controls, the font has the contrast colour
    when the colour is automatic, a flag is set exactly while its call is
    awaited.  With them, the card ([CanvasPreview.v]) is shown never to read
    the pool of images out of range.

    The critique service and [JSON.parse] are parameters
    ([GeminiService.v]); the replies of the service range over a set
    [replies].  The files read by the browser and the image rendered by
    [html2canvas] are outcomes chosen by the environment. *)

From Stdlib Require Import Floats.SpecFloat.
From stdpp Require Import gmap relations.
From S2P Require Import Prelude Random Number Text Types Constants Sidebar MathGenerator.
From S2P Require Import Expression GeneratorSpec App GeminiService CanvasPreview SidebarView.

#[local] Open Scope string_scope.
#[local] Open Scope Z_scope.

(** ** Definitions *)

(** *** What the browser delivers *)

(** The actions an element can take: the handler applied to what an event
    of the element can carry.  A [select] delivers one of its options, a
    check box the negation of what it shows, a colour input a colour
    [#rrggbb], a range input an integer between its bounds, a file input
    the data address of the file read. *)
Definition delivers (el : Element) (action : Action) : Prop :=
  match el with
  | file_input _ onChange => ∃ result, action = onChange (Some result)
  | select _ options onChange => ∃ value, value ∈ options ∧ action = onChange value
  | textarea _ onChange => ∃ value, action = onChange value
  | checkbox checked onChange => action = onChange (negb checked)
  | button _ _ onClick => action = onClick
  | color_input _ onChange =>
      ∃ r g b, 0 ≤ r ≤ 255 ∧ 0 ≤ g ≤ 255 ∧ 0 ≤ b ≤ 255 ∧ action = onChange (hex_color r g b)
  | SidebarView.range min max _ onChange =>
      ∃ value, min ≤ value ≤ max ∧ action = onChange value
  | readout _ => False
  end.

(** *** The page *)

Module Ui.
Record Ui : Type := {
  state : AppState;
  virality : option Json;
  isAnalyzing : bool;
  isExporting : bool;
  openSections : gmap string bool;
  (** the states [analyzeVirality] was called on and has not returned for *)
  analyses : list AppState;
  (** the cards [html2canvas] was called on and has not returned for *)
  exports : list Canvas;
  (** the cards downloaded *)
  downloads : list Canvas
}.
End Ui.
Abbreviation Ui := Ui.Ui.

(** [setState] of [App], after the renders that follow. *)
Definition set_state (s : AppState) (ui : Ui) : Ui :=
  {| Ui.state := s; Ui.virality := Ui.virality ui; Ui.isAnalyzing := Ui.isAnalyzing ui;
     Ui.isExporting := Ui.isExporting ui; Ui.openSections := Ui.openSections ui;
     Ui.analyses := Ui.analyses ui; Ui.exports := Ui.exports ui;
     Ui.downloads := Ui.downloads ui |}.

Definition setOpenSections (updater : gmap string bool → gmap string bool) (ui : Ui) : Ui :=
  {| Ui.state := Ui.state ui; Ui.virality := Ui.virality ui;
     Ui.isAnalyzing := Ui.isAnalyzing ui; Ui.isExporting := Ui.isExporting ui;
     Ui.openSections := updater (Ui.openSections ui);
     Ui.analyses := Ui.analyses ui; Ui.exports := Ui.exports ui;
     Ui.downloads := Ui.downloads ui |}.

Definition setVirality (value : option Json) (ui : Ui) : Ui :=
  {| Ui.state := Ui.state ui; Ui.virality := value; Ui.isAnalyzing := Ui.isAnalyzing ui;
     Ui.isExporting := Ui.isExporting ui; Ui.openSections := Ui.openSections ui;
     Ui.analyses := Ui.analyses ui; Ui.exports := Ui.exports ui;
     Ui.downloads := Ui.downloads ui |}.

(** The page after the first render, with the state [s] the effects of the
    mount end in. *)
Definition mounted (s : AppState) : Ui :=
  {| Ui.state := s; Ui.virality := None; Ui.isAnalyzing := false; Ui.isExporting := false;
     Ui.openSections := Sidebar.openSections;
     Ui.analyses := []; Ui.exports := []; Ui.downloads := [] |}.

(** *** [handleAnalyze] *)

(** Up to the [await]: the flag is set and the service is called on the
    state of the render. *)
Definition handleAnalyze_call (ui : Ui) : Ui :=
  {| Ui.state := Ui.state ui; Ui.virality := Ui.virality ui; Ui.isAnalyzing := true;
     Ui.isExporting := Ui.isExporting ui; Ui.openSections := Ui.openSections ui;
     Ui.analyses := Ui.analyses ui ++ [Ui.state ui]; Ui.exports := Ui.exports ui;
     Ui.downloads := Ui.downloads ui |}.

(** After the [await]: the result is stored and the flag is cleared. *)
Definition handleAnalyze_return (result : Json) (rest : list AppState) (ui : Ui) : Ui :=
  {| Ui.state := Ui.state ui; Ui.virality := Some result; Ui.isAnalyzing := false;
     Ui.isExporting := Ui.isExporting ui; Ui.openSections := Ui.openSections ui;
     Ui.analyses := rest; Ui.exports := Ui.exports ui;
     Ui.downloads := Ui.downloads ui |}.

(** *** [handleExport] *)

(** Up to the [await]: nothing without a card ([canvasRef.current] is
    [null]); otherwise the flag is set and [html2canvas] is called. *)
Definition handleExport_call (current : option Canvas) (ui : Ui) : Ui :=
  match current with
  | None => ui
  | Some card =>
      {| Ui.state := Ui.state ui; Ui.virality := Ui.virality ui;
         Ui.isAnalyzing := Ui.isAnalyzing ui; Ui.isExporting := true;
         Ui.openSections := Ui.openSections ui; Ui.analyses := Ui.analyses ui;
         Ui.exports := Ui.exports ui ++ [card]; Ui.downloads := Ui.downloads ui |}
  end.

(** After the [await]: the image is downloaded when there is one
    ([rendered]); when [html2canvas] throws, the exception is caught; in both
    cases the [finally] block clears the flag. *)
Definition handleExport_return (rendered : bool) (card : Canvas) (rest : list Canvas)
    (ui : Ui) : Ui :=
  {| Ui.state := Ui.state ui; Ui.virality := Ui.virality ui;
     Ui.isAnalyzing := Ui.isAnalyzing ui; Ui.isExporting := false;
     Ui.openSections := Ui.openSections ui; Ui.analyses := Ui.analyses ui;
     Ui.exports := rest;
     Ui.downloads := if rendered then Ui.downloads ui ++ [card] else Ui.downloads ui |}.

(** *** The analysis panel *)

(** The truth value of a parsed value in a condition. *)
Definition truthy (value : Json) : bool :=
  match value with
  | JNull => false
  | JBool b => b
  | JNumber n => match n with S754_zero _ | S754_nan => false | _ => true end
  | JString s => negb (String.eqb s "")
  | JArray _ | JObject _ => true
  end.

(** Whether React can render a value between braces: texts and numbers
    are shown, [null], [undefined] and booleans show nothing, an array shows
    its items, and an object is an error. *)
Fixpoint renderable (value : Json) : bool :=
  match value with
  | JObject _ => false
  | JArray items => forallb renderable items
  | _ => true
  end.

(** The panel [{virality && (...)}]: the three members shown, when the
    panel is rendered. *)
Definition panel (ui : Ui) : option (list (option Json)) :=
  match Ui.virality ui with
  | Some virality =>
      if truthy virality then
        Some [member "score" virality; member "suggestion" virality;
              member "bestHeadline" virality]
      else None
  | None => None
  end.

(** The render of the panel does not throw. *)
Definition panel_renders (ui : Ui) : Prop :=
  ∀ shown, panel ui = Some shown → Forall (λ m, default true (renderable <$> m) = true) shown.

Section Steps.
Context (JSON_parse : string → option Json).
(** The replies the critique service may give. *)
Context (replies : Reply → Prop).

(** *** The steps *)

Inductive step (ui : Ui) : Ui → Prop :=
| step_control el updater s' :
    el ∈ controls (Ui.state ui) →
    delivers el (setState updater) →
    settle 2 (Some (Ui.state ui)) (updater (Ui.state ui)) = Some s' →
    step ui (set_state s' ui)
| step_generate rnd i fuel updater s' :
    unit_source rnd →
    result (handleGenerate fuel (Ui.state ui)) rnd i = Some updater →
    settle 2 (Some (Ui.state ui)) (updater (Ui.state ui)) = Some s' →
    step ui (set_state s' ui)
| step_toggle section :
    section ∈ (Sidebar (Ui.state ui) (Ui.openSections ui)).1 →
    step ui (setOpenSections (onToggle section) ui)
| step_analyze :
    Ui.isAnalyzing ui = false →
    step ui (handleAnalyze_call ui)
| step_analyzed captured rest reply :
    Ui.analyses ui = captured :: rest →
    replies reply →
    step ui (handleAnalyze_return (analyzeVirality JSON_parse (λ _, reply) captured) rest ui)
| step_dismiss :
    is_Some (panel ui) →
    step ui (setVirality None ui)
| step_export :
    Ui.isExporting ui = false →
    step ui (handleExport_call (Some (CanvasPreview (Ui.state ui))) ui)
| step_exported card rest rendered :
    Ui.exports ui = card :: rest →
    step ui (handleExport_return rendered card rest ui).

(** The first render: the state drawn by [initialState], after the effects
    of the mount. *)
Definition initial (ui : Ui) : Prop :=
  ∃ rnd i s, unit_source rnd
    ∧ settle 2 None (result initialState rnd i) = Some s
    ∧ ui = mounted s.

Definition reachable (ui : Ui) : Prop := ∃ ui0, initial ui0 ∧ rtc step ui0 ui.

(** The reply honours the response schema: its text, when it parses, has
    the members of [ViralityAnalysis]. *)
Definition honest (reply : Reply) : Prop :=
  match reply with
  | response text =>
      ∀ value, JSON_parse (default "undefined" text) = Some value → is_Some (conforms value)
  | rejected => True
  end.

End Steps.

(** *** The invariants *)

(** A colour [#rrggbb]. *)
Definition is_color (value : string) : Prop :=
  ∃ r g b, 0 ≤ r ≤ 255 ∧ 0 ≤ g ≤ 255 ∧ 0 ≤ b ≤ 255 ∧ value = hex_color r g b.

(** What the controls and the effects write to each field: the bounds of
    the sliders, the options of the two selects over strings (and the weight
    the application starts with), the families of the fonts, colours. *)
Definition field_ok (key : Key) : field_type key → Prop :=
  match key with
  | Key.fontSize => λ v, 10 ≤ v ≤ 250
  | Key.questionYOffset => λ v, -300 ≤ v ≤ 300
  | Key.questionPaddingX => λ v, 0 ≤ v ≤ 150
  | Key.questionPaddingY => λ v, 0 ≤ v ≤ 100
  | Key.foodVariant => λ v, 0 ≤ v < 3
  | Key.customBgColor => is_color
  | Key.fontColor => is_color
  | Key.headerText => λ v, v ∈ HEADLINES
  | Key.fontWeight => λ v, v ∈ ["700"; "400"; "600"; "800"; "900"]
  | Key.fontFamily => λ v, v ∈ family <$> FONTS
  | _ => λ _, True
  end.

Definition state_ok (s : AppState) : Prop := ∀ key, field_ok key (get key s).

(** The updater writes one field, with a value the field admits; the font
    colour only while the colour is not automatic. *)
Definition writes (s : AppState) (updater : AppState → AppState) : Prop :=
  ∃ key value, updater = update key value ∧ field_ok key value
    ∧ (key = Key.fontColor → AppState.autoColor s = false).

(** A flag is set exactly while its call is awaited, and one call at most
    is. *)
Definition flags_ok (ui : Ui) : Prop :=
  (length (Ui.analyses ui) ≤ 1)%nat
  ∧ (Ui.isAnalyzing ui = true ↔ Ui.analyses ui ≠ [])
  ∧ (length (Ui.exports ui) ≤ 1)%nat
  ∧ (Ui.isExporting ui = true ↔ Ui.exports ui ≠ []).

(** The cards that are being rendered or were downloaded are cards of
    states within bounds and with the contrast colour. *)
Definition cards_ok (ui : Ui) : Prop :=
  Forall (λ card, ∃ s, state_ok s ∧ contrasted s ∧ card = CanvasPreview s)
    (Ui.exports ui ++ Ui.downloads ui).

(** The value a slider shows is between its bounds. *)
Definition in_range (el : Element) : Prop :=
  match el with
  | SidebarView.range min max value _ => min ≤ value ≤ max
  | _ => True
  end.

(** ** What the controls write *)

Lemma is_color_white : is_color "#ffffff".
Proof. exists 255, 255, 255. by split_and!. Qed.

Lemma is_color_black : is_color "#000000".
Proof. exists 0, 0, 0. by split_and!. Qed.

Lemma contrast_color_is_color s : is_color (contrast_color s).
Proof.
  unfold contrast_color. repeat case_match; auto using is_color_white, is_color_black.
Qed.

Lemma is_color_hex_color r g b :
  0 ≤ r ≤ 255 → 0 ≤ g ≤ 255 → 0 ≤ b ≤ 255 → is_color (hex_color r g b).
Proof. intros. by exists r, g, b. Qed.

#[export] Hint Resolve is_color_white is_color_black contrast_color_is_color
  is_color_hex_color : bodmas.

Lemma state_ok_update key value s :
  field_ok key value → state_ok s → state_ok (update key value s).
Proof.
  intros Hv Hs key'. destruct (decide (key = key')) as [<-|Hne].
  - by rewrite get_update.
  - by rewrite get_update_ne.
Qed.

Lemma writes_update s key value :
  field_ok key value → (key = Key.fontColor → AppState.autoColor s = false) →
  writes s (update key value).
Proof. intros. by exists key, value. Qed.

Lemma writes_layout_update s key value :
  (limits key).1 ≤ value ≤ (limits key).2 → writes s (layout_update key value).
Proof. intros Hv. destruct key; by apply writes_update. Qed.

Lemma writes_adjustLayoutValue s state key delta : writes s (adjustLayoutValue state key delta).
Proof.
  unfold adjustLayoutValue. destruct (limits key) as [lo hi] eqn:E.
  apply writes_layout_update. rewrite E. apply clamp_range.
  pose proof (limits_ordered key) as H. by rewrite E in H.
Qed.

Lemma writes_adjustFontSize s state delta : writes s (adjustFontSize state delta).
Proof. apply writes_update; [|done]. by apply clamp_range. Qed.

Lemma writes_shuffleFood s state :
  0 ≤ AppState.foodVariant state → writes s (shuffleFood state).
Proof.
  intros Hv. unfold shuffleFood. rewrite FOOD_IMAGES_length. apply writes_update; [|done].
  pose proof (Z.rem_bound_pos (AppState.foodVariant state + 1) 3). simpl. lia.
Qed.

Lemma writes_booster_update s key value : writes s (booster_update key value).
Proof. destruct key; by apply writes_update. Qed.

Lemma writes_handleLogoUpload s result : writes s (handleLogoUpload (Some result)).
Proof. by apply writes_update. Qed.

(** The action of [update_value] on a string, when it is an update. *)
Lemma update_value_inv {A} `{StringEnum A} key (write : A → AppState → AppState) value u :
  setState u = update_value key write value → ∃ member, u = write member.
Proof. unfold update_value. destruct (of_value value); [|done]. intros [= ->]. eauto. Qed.

(** The hypothesis [Hd] that an element delivers [setState u], in cases. *)
Ltac delivered Hd :=
  simpl in Hd;
  repeat lazymatch type of Hd with
    | ∃ _, _ => let x := fresh "x" in destruct Hd as [x Hd]
    | _ ∧ _ => let H := fresh "H" in destruct Hd as [H Hd]
    | False => destruct Hd
    end;
  first
    [ discriminate Hd
    | apply update_value_inv in Hd as [? ->]
    | injection Hd as -> ].

(** Membership in a list of elements, in cases. *)
Ltac element_cases H :=
  repeat lazymatch type of H with
    | _ ∈ [] => apply elem_of_nil in H; destruct H
    | _ ∈ _ :: _ => apply elem_of_cons in H as [->|H]
    | _ ∈ (_ ++ _)%list => apply elem_of_app in H as [H|H]
    | _ ∈ (if _ then _ else _) => progress cbn [negb] in H
    end.

(** The goal [writes s u] for the updater of a control. *)
Ltac writes_goal :=
  first
    [ apply writes_adjustLayoutValue
    | apply writes_adjustFontSize
    | apply writes_booster_update
    | apply writes_handleLogoUpload
    | apply writes_layout_update; simpl; lia
    | apply writes_shuffleFood; lia
    | apply writes_update; [|first [discriminate | intros _; assumption] ];
      first [ exact I | assumption | simpl; lia | by apply is_color_hex_color
            | apply elem_of_cons; by right
            | lazymatch goal with
              | |- field_ok Key.fontFamily _ =>
                  cbn [field_ok]; apply (bool_decide_unpack _); by vm_compute
              end ] ].

Lemma logo_section_writes s el u :
  delivers el (setState u) → el ∈ logo_section s → writes s u.
Proof. unfold logo_section. intros Hd H. element_cases H; delivered Hd; writes_goal. Qed.

Lemma general_section_writes s el u :
  delivers el (setState u) → el ∈ general_section s → writes s u.
Proof.
  unfold general_section. intros Hd H. element_cases H; delivered Hd; writes_goal.
Qed.

Lemma bg_section_writes s el u :
  delivers el (setState u) →
  0 ≤ AppState.foodVariant s → el ∈ bg_section s → writes s u.
Proof.
  unfold bg_section. cbn [fmap list_fmap enum_values BgStyle_enum BgStyle_values].
  intros Hd Hv H.
  destruct (decide (AppState.bgStyle s = BgStyle.CUSTOM)),
    (decide (AppState.bgStyle s = BgStyle.FOOD));
    element_cases H; delivered Hd; writes_goal.
Qed.

Lemma layout_controls_writes s el u key :
  delivers el (setState u) → el ∈ layout_controls s key → writes s u.
Proof.
  unfold layout_controls. intros Hd H. element_cases H; delivered Hd; writes_goal.
Qed.

Lemma qstyling_section_writes s el u :
  delivers el (setState u) → el ∈ qstyling_section s → writes s u.
Proof.
  unfold qstyling_section. cbn [fmap list_fmap]. intros Hd H.
  destruct (decide (AppState.questionBgStyle s ≠ ContainerStyle.none));
    element_cases H; eauto using layout_controls_writes; delivered Hd; writes_goal.
Qed.

Lemma header_section_writes s el u :
  delivers el (setState u) → el ∈ header_section s → writes s u.
Proof.
  unfold header_section. cbn [fmap list_fmap]. intros Hd H.
  destruct (AppState.headerEnabled s); element_cases H; delivered Hd; writes_goal.
Qed.

Lemma boosters_section_writes s el u :
  delivers el (setState u) → el ∈ boosters_section s → writes s u.
Proof.
  unfold boosters_section. cbn [fmap list_fmap]. intros Hd H.
  destruct (AppState.showRankBadge s); element_cases H; delivered Hd; writes_goal.
Qed.

Lemma typo_section_writes s el u :
  delivers el (setState u) → el ∈ typo_section s → writes s u.
Proof.
  unfold typo_section. cbn [fmap list_fmap FONTS]. intros Hd H.
  destruct (AppState.autoColor s) eqn:Ha; element_cases H; delivered Hd; writes_goal.
Qed.

(** Every update a control of the sidebar can make writes one field, with
    a value the field admits. *)
Lemma controls_writes s el u :
  delivers el (setState u) → 0 ≤ AppState.foodVariant s → el ∈ controls s → writes s u.
Proof.
  intros Hd Hv H. unfold controls in H. element_cases H;
    eauto using logo_section_writes, general_section_writes, bg_section_writes,
      qstyling_section_writes, header_section_writes, boosters_section_writes,
      typo_section_writes.
  unfold generate_button in Hd. by delivered Hd.
Qed.


(** ** The effects keep the invariants *)

Lemma commit_state_ok s s1 : commit s s1 → state_ok s → state_ok s1.
Proof.
  destruct 1; intros; repeat apply state_ok_update;
    first [done | apply contrast_color_is_color | exact I].
Qed.

Lemma settle_state_ok n old s s' : settle n old s = Some s' → state_ok s → state_ok s'.
Proof.
  intros [[_ ->]|(s1 & Hc%run_effects_Some & [[-> _]|[-> _] ])]%settle_cases Hs;
    eauto using commit_state_ok.
  apply state_ok_update; [apply contrast_color_is_color|]. eauto using commit_state_ok.
Qed.

(** After a change that leaves the font colour alone, or that happens
    while the colour is not automatic, the renders end with the contrast
    colour. *)
Lemma settle_keeps_contrast n o s s' :
  contrasted o →
  (fontColor_deps o = fontColor_deps s → AppState.autoColor s = true →
   AppState.fontColor s = AppState.fontColor o) →
  settle n (Some o) s = Some s' → contrasted s'.
Proof.
  intros Ho Hf [[E ->]|(s1 & Hc%run_effects_Some & [[-> E]|[-> Ha] ])]%settle_cases;
    eauto using commit_contrasted, contrasted_update.
  intros Ha. destruct (decide (fontColor_deps o = fontColor_deps s)) as [Hd|Hd].
  - rewrite (Hf Hd Ha), <- (contrast_color_deps o s Hd). apply Ho.
    unfold fontColor_deps in Hd. congruence.
  - destruct (run_effects_changed o s Hd Ha) as [? E']. congruence.
Qed.

(** The renders of the mount end with the contrast colour. *)
Lemma settle_mount_contrasted n s s' : settle n None s = Some s' → contrasted s'.
Proof.
  intros [[E ->]|(s1 & Hc%run_effects_Some & [[-> E]|[-> Ha] ])]%settle_cases;
    eauto using commit_contrasted, contrasted_update.
  intros Ha. unfold run_effects, fire, changed, effect_fontColor in E.
  rewrite Ha in E. simpl in E. by destruct (effect_container s).
Qed.

(** The effects do not touch the background style, and leave the container
    alone when the background style has not changed. *)
Lemma settle_bgStyle n old s s' :
  settle n old s = Some s' → AppState.bgStyle s' = AppState.bgStyle s.
Proof.
  intros [[_ ->]|(s1 & Hc%run_effects_Some & [[-> _]|[-> _] ])]%settle_cases;
    [done|by apply commit_bgStyle|]. state_simpl. by apply commit_bgStyle.
Qed.

Lemma run_effects_same_bgStyle o s s1 :
  AppState.bgStyle o = AppState.bgStyle s → run_effects (Some o) s = Some s1 →
  s1 = update Key.fontColor (contrast_color s) s.
Proof.
  intros Hb. unfold run_effects. rewrite (fire_unchanged container_deps) by done.
  destruct (fire fontColor_deps _ _ _) as [u|] eqn:E; [|done]. intros [= <-].
  by apply fire_Some, effect_fontColor_Some in E as (-> & _).
Qed.

Lemma settle_same_bgStyle n o s s' :
  AppState.bgStyle o = AppState.bgStyle s → settle n (Some o) s = Some s' →
  ∀ key, key ≠ Key.fontColor → get key s' = get key s.
Proof.
  intros Hb [[_ ->]|(s1 & E1 & H)]%settle_cases key Hk; [done|].
  apply run_effects_same_bgStyle in E1 as ->; [|done].
  destruct H as [[-> _]|[-> _] ]; by rewrite !get_update_ne.
Qed.

(** ** The first state *)

Lemma initialState_ok rnd i : state_ok (result initialState rnd i).
Proof.
  unfold initialState, result. rewrite run_bind. simpl. intros key.
  destruct key; simpl; first
    [ exact I | lia | by exists 79, 70, 229 | by exists 0, 0, 0
    | apply (bool_decide_unpack _); by vm_compute ].
Qed.

(** ** [handleGenerate] as an update *)

Lemma handleGenerate_Some fuel state rnd i updater :
  result (handleGenerate fuel state) rnd i = Some updater →
  ∃ newQ, updater = set_question newQ.
Proof.
  unfold handleGenerate, result. rewrite !run_bind. simpl.
  intros (newQ & _ & ->)%fmap_Some. eauto.
Qed.

Lemma set_question_ok newQ s : state_ok s → state_ok (set_question newQ s).
Proof. intros Hs. unfold set_question. by repeat apply state_ok_update. Qed.

Lemma set_question_get newQ s key :
  key ≠ Key.question → key ≠ Key.answer → get key (set_question newQ s) = get key s.
Proof. intros. unfold set_question. by rewrite !get_update_ne. Qed.

(** ** Induction on the steps *)

Section Reachable.
Context (JSON_parse : string → option Json) (replies : Reply → Prop).

#[local] Abbreviation step := (step JSON_parse replies).
#[local] Abbreviation reachable := (reachable JSON_parse replies).
#[local] Abbreviation honest := (honest JSON_parse).

Lemma reachable_initial ui : initial ui → reachable ui.
Proof. intros Hi. by exists ui. Qed.

Lemma reachable_step ui ui' : reachable ui → step ui ui' → reachable ui'.
Proof. intros (ui0 & Hi & Hr) Hs. exists ui0. eauto using rtc_r. Qed.

Lemma reachable_steps ui ui' : reachable ui → rtc step ui ui' → reachable ui'.
Proof. intros (ui0 & Hi & Hr) Hs. exists ui0. split; [done|]. by etrans. Qed.

(** What holds at the first render and is kept by every step from a
    reachable page holds of every reachable page. *)
Lemma reachable_ind (P : Ui → Prop) :
  (∀ ui, initial ui → P ui) →
  (∀ ui ui', reachable ui → P ui → step ui ui' → P ui') →
  ∀ ui, reachable ui → P ui.
Proof.
  intros Hinit Hstep ui (ui0 & Hi & Hr).
  revert ui Hr. apply (rtc_ind_r (λ ui, P ui)); [by apply Hinit|].
  intros ui1 ui2 Hr Hs IH. apply (Hstep ui1); [by exists ui0|done..].
Qed.

(** The same for a property of the state of [App]: the steps that do not
    call [setState] keep it. *)
Lemma reachable_state_ind (P : AppState → Prop) :
  (∀ rnd i s, unit_source rnd → settle 2 None (result initialState rnd i) = Some s → P s) →
  (∀ s el u s', P s → el ∈ controls s → delivers el (setState u) →
                settle 2 (Some s) (u s) = Some s' → P s') →
  (∀ s newQ s', P s → settle 2 (Some s) (set_question newQ s) = Some s' → P s') →
  ∀ ui, reachable ui → P (Ui.state ui).
Proof.
  intros Hinit Hcontrol Hgen. apply reachable_ind.
  - intros ui (rnd & i & s & Hrnd & Hs & ->). eauto.
  - intros ui ui' _ HP [el u s' Hel Hd Hs|rnd i fuel u s' _ Hu Hs| | | | | |]; simpl;
      try done; [eauto|].
    apply handleGenerate_Some in Hu as [newQ ->]. eauto.
Qed.

(** ** The invariants *)

(** Every reachable state is within bounds: the font size, the offset and
    the paddings are within the limits of their sliders, the food variant
    is an index of the pools, the two colours are colours [#rrggbb], and
    the header text, the font weight and the font family are among the
    strings the application offers (or starts with). *)
Lemma state_ok_reachable ui : reachable ui → state_ok (Ui.state ui).
Proof.
  apply reachable_state_ind.
  - intros rnd i s _ Hs. eapply settle_state_ok; [done|]. apply initialState_ok.
  - intros s el u s' Hok Hel Hd Hs. eapply settle_state_ok; [done|].
    destruct (controls_writes s el u Hd) as (key & value & -> & Hv & _); [apply (Hok Key.foodVariant)|done|].
    by apply state_ok_update.
  - intros s newQ s' Hok Hs. eapply settle_state_ok; [done|]. by apply set_question_ok.
Qed.

(** In every reachable state with automatic colour, the font has the
    contrast colour of the state. *)
Lemma contrasted_reachable ui : reachable ui → contrasted (Ui.state ui).
Proof.
  intros Hr. assert (H : state_ok (Ui.state ui) ∧ contrasted (Ui.state ui)); [|by destruct H].
  revert ui Hr. apply (reachable_state_ind (λ s, state_ok s ∧ contrasted s)).
  - intros rnd i s _ Hs. split; [|by eapply settle_mount_contrasted].
    eapply settle_state_ok; [done|]. apply initialState_ok.
  - intros s el u s' [Hok Hc] Hel Hd Hs.
    destruct (controls_writes s el u Hd) as (key & value & -> & Hv & Hk);
      [apply (Hok Key.foodVariant)|done|].
    split; [eapply settle_state_ok; [done|]; by apply state_ok_update|].
    eapply settle_keeps_contrast; [exact Hc| |exact Hs].
    intros Hdeps Ha. destruct (decide (key = Key.fontColor)) as [->|Hne].
    + unfold fontColor_deps in Hdeps. state_simpl in Ha. rewrite Hk in Ha; done.
    + by apply (get_update_ne key Key.fontColor).
  - intros s newQ s' [Hok Hc] Hs.
    split; [eapply settle_state_ok; [done|]; by apply set_question_ok|].
    eapply settle_keeps_contrast; [exact Hc| |exact Hs].
    intros _ _. by apply (set_question_get newQ s Key.fontColor).
Qed.

(** A flag is set exactly while the call is awaited, and no second call is
    made before the first returns. *)
Lemma flags_ok_reachable ui : reachable ui → flags_ok ui.
Proof.
  revert ui. apply reachable_ind.
  - intros ui (rnd & i & s & _ & _ & ->). unfold flags_ok. simpl. naive_solver lia.
  - intros ui ui' _ (Ha & Hfa & He & Hfe) Hs. unfold flags_ok.
    destruct Hs as [| | |Hflag|captured rest reply Heq _| |Hflag|card rest rendered Heq];
      simpl; try done.
    + apply not_true_iff_false in Hflag. rewrite Hfa in Hflag.
      destruct (Ui.analyses ui); naive_solver.
    + rewrite Heq in Ha. destruct rest; [naive_solver|simpl in Ha; lia].
    + apply not_true_iff_false in Hflag. rewrite Hfe in Hflag.
      destruct (Ui.exports ui); naive_solver.
    + rewrite Heq in He. destruct rest; [naive_solver|simpl in He; lia].
Qed.

(** ** The sliders *)

Lemma layout_controls_in_range s key : state_ok s → Forall in_range (layout_controls s key).
Proof.
  intros Hok. unfold layout_controls.
  repeat (apply Forall_cons_2; [try exact I|]); [|apply Forall_nil_2].
  destruct key; [apply (Hok Key.questionYOffset)|apply (Hok Key.questionPaddingX)
                |apply (Hok Key.questionPaddingY)].
Qed.

Lemma controls_in_range s : state_ok s → Forall in_range (controls s).
Proof.
  intros Hok.
  unfold controls, logo_section, general_section, bg_section, qstyling_section,
    header_section, boosters_section, typo_section, generate_button.
  cbn [fmap list_fmap enum_values BgStyle_enum BgStyle_values FONTS].
  by_elements ltac:(idtac; first [exact I | apply (Hok Key.fontSize)]);
    by apply layout_controls_in_range.
Qed.

(** C20. In every reachable state each slider shows a value between its
    bounds: the font size is in 10..250, the vertical offset in -300..300
    and the paddings in 0..150 and 0..100, whatever the events so far. *)
Theorem reachable_in_range ui : reachable ui → Forall in_range (controls (Ui.state ui)).
Proof. intros Hr. by apply controls_in_range, state_ok_reachable. Qed.

(** ** The card of a reachable state *)

(** C22. The card of a reachable state with a food background shows an
    image of the pool of its food type: the variant is never out of the
    pool, and the address is never the text [undefined]. *)
Theorem reachable_food_image ui :
  reachable ui → AppState.bgStyle (Ui.state ui) = BgStyle.FOOD →
  ∃ address, address ∈ FOOD_IMAGES (AppState.foodType (Ui.state ui))
    ∧ Style.backgroundImage (Canvas.style (CanvasPreview (Ui.state ui)))
      = Some (url address).
Proof.
  intros Hok%state_ok_reachable Hbg. apply food_image_defined; [done|].
  apply (Hok Key.foodVariant).
Qed.

(** C23. In a reachable state the custom background colour is a colour
    [#rrggbb]: [isDarkColor] reads three components, none of them NaN, and
    compares their weighted sum, divided by 1000, with 128. *)
Theorem reachable_isDarkColor ui :
  reachable ui →
  ∃ r g b, 0 ≤ r ≤ 255 ∧ 0 ≤ g ≤ 255 ∧ 0 ≤ b ≤ 255
    ∧ AppState.customBgColor (Ui.state ui) = hex_color r g b
    ∧ isDarkColor (AppState.customBgColor (Ui.state ui))
      = brightness_dark (r * 299 + g * 587 + b * 114).
Proof.
  intros Hok%state_ok_reachable.
  destruct (Hok Key.customBgColor) as (r & g & b & Hr & Hg & Hb & Hc).
  change (AppState.customBgColor (Ui.state ui) = hex_color r g b) in Hc.
  exists r, g, b. split_and!; try lia; [done|]. rewrite Hc. by apply isDarkColor_hex_color.
Qed.

(** C21. In a reachable state with automatic colour the question on the
    card is legible: white on a badge or a ribbon, black on glass and on
    the minimal box, and without a container white exactly when the
    background counts as dark. *)
Theorem reachable_legible ui :
  reachable ui → AppState.autoColor (Ui.state ui) = true →
  Content.color (Canvas.content (CanvasPreview (Ui.state ui)))
  = match AppState.questionBgStyle (Ui.state ui) with
    | ContainerStyle.badge | ContainerStyle.ribbon => "#ffffff"
    | ContainerStyle.glass | ContainerStyle.minimal => "#000000"
    | ContainerStyle.none =>
        if dark_background (Ui.state ui) then "#ffffff" else "#000000"
    end.
Proof.
  intros Hc%contrasted_reachable Ha. simpl. rewrite (Hc Ha). unfold contrast_color.
  by destruct (AppState.questionBgStyle (Ui.state ui)).
Qed.

(** ** The asynchronous calls *)

(** C24. A flag is set exactly while its call is awaited, and no second
    call is made before the first returns: [isAnalyzing] with the critique
    service, [isExporting] with the rendering of the image. *)
Theorem reachable_flags_ok ui : reachable ui → flags_ok ui.
Proof. apply flags_ok_reachable. Qed.

Lemma cards_ok_reachable ui : reachable ui → cards_ok ui.
Proof.
  revert ui. apply reachable_ind.
  - intros ui (rnd & i & s & _ & _ & ->). by apply Forall_nil.
  - intros ui ui' Hr Hcards Hs. unfold cards_ok in *.
    destruct Hs as [| | | | | | |card rest rendered Heq]; simpl; try done.
    + apply Forall_app in Hcards as [He Hd]. rewrite !Forall_app, Forall_singleton.
      split_and!; try done. exists (Ui.state ui).
      eauto using state_ok_reachable, contrasted_reachable.
    + rewrite Heq in Hcards. apply Forall_cons in Hcards as [Hcard Hcards].
      apply Forall_app in Hcards as [He Hd].
      destruct rendered; rewrite ?Forall_app, ?Forall_singleton; by split_and!.
Qed.


(** C27. An export that fails is not fatal: when the rendering of the
    image returns, with or without an image, the flag is cleared and the
    button is enabled again; without an image nothing is downloaded. *)
Theorem export_returns ui :
  reachable ui → Ui.isExporting ui = true →
  ∃ card, Ui.exports ui = [card]
    ∧ ∀ rendered,
        let ui' := handleExport_return rendered card [] ui in
        step ui ui' ∧ flags_ok ui' ∧ Ui.isExporting ui' = false
        ∧ Ui.downloads ui'
          = if rendered then (Ui.downloads ui ++ [card])%list else Ui.downloads ui.
Proof.
  intros Hr Hflag. pose proof (flags_ok_reachable ui Hr) as (_ & _ & Hlen & Hfe).
  apply Hfe in Hflag. destruct (Ui.exports ui) as [|card [|] ] eqn:Heq; [done| |simpl in Hlen; lia].
  exists card. split; [done|]. intros rendered ui'.
  assert (Hs : step ui ui') by (by apply step_exported).
  split_and!; [done| |done..]. apply flags_ok_reachable. eauto using reachable_step.
Qed.


(** ** Progress *)

(** The step of an event of a control. *)
Lemma control_step ui el u :
  el ∈ controls (Ui.state ui) → delivers el (setState u) →
  ∃ s', settle 2 (Some (Ui.state ui)) (u (Ui.state ui)) = Some s'
        ∧ step ui (set_state s' ui).
Proof.
  intros Hel Hd.
  destruct (settle_enough 2 (Some (Ui.state ui)) (u (Ui.state ui))) as [s' Hs]; [lia|].
  exists s'. split; [done|]. by eapply step_control.
Qed.

(** C25. Every event of a control is handled: from a reachable page, when
    a control of the sidebar delivers an update there is a next page, the
    renders that follow the update ending after two updates at most, and
    the update is the write of one field. *)
Theorem step_progress ui el u :
  reachable ui → el ∈ controls (Ui.state ui) → delivers el (setState u) →
  writes (Ui.state ui) u
  ∧ ∃ s', settle 2 (Some (Ui.state ui)) (u (Ui.state ui)) = Some s'
          ∧ step ui (set_state s' ui).
Proof.
  intros Hok%state_ok_reachable Hel Hd. split; [|by apply (control_step ui el)].
  apply (controls_writes _ el u Hd); [apply (Hok Key.foodVariant)|done].
Qed.

(** ** Two states the effects do not prevent *)

Lemma bg_section_controls s el : el ∈ bg_section s → el ∈ controls s.
Proof. unfold controls. rewrite !elem_of_app. tauto. Qed.

Lemma general_section_controls s el : el ∈ general_section s → el ∈ controls s.
Proof. unfold controls. rewrite !elem_of_app. tauto. Qed.

Lemma qstyling_section_controls s el : el ∈ qstyling_section s → el ∈ controls s.
Proof. unfold controls. rewrite !elem_of_app. tauto. Qed.

(** The step of a control that writes a field other than the background
    style and the font colour: the value written is in the next state. *)
Lemma control_step_get ui el key value :
  el ∈ controls (Ui.state ui) → delivers el (setState (update key value)) →
  key ≠ Key.fontColor →
  AppState.bgStyle (update key value (Ui.state ui)) = AppState.bgStyle (Ui.state ui) →
  ∃ ui', step ui ui'
    ∧ get key (Ui.state ui') = value
    ∧ ∀ key', key' ≠ key → key' ≠ Key.fontColor →
              get key' (Ui.state ui') = get key' (Ui.state ui).
Proof.
  intros Hel Hd Hk Hbg. destruct (control_step ui el _ Hel Hd) as (s' & Hs & Hstep).
  exists (set_state s' ui). split; [done|].
  pose proof (settle_same_bgStyle _ _ _ _ (eq_sym Hbg) Hs) as Hget. simpl. split.
  - by rewrite Hget, get_update.
  - intros key' H1 H2. by rewrite Hget, get_update_ne.
Qed.

(** C31. The container the first effect adds on a food background can be
    removed again: from every page, two clicks lead to a page with the food
    background and no container, which the effect, whose only dependency is
    the background style, leaves as it is. *)
Theorem food_without_container ui :
  ∃ ui', rtc step ui ui'
    ∧ AppState.bgStyle (Ui.state ui') = BgStyle.FOOD
    ∧ AppState.questionBgStyle (Ui.state ui') = ContainerStyle.none.
Proof.
  destruct (control_step ui
    (button (enum_value BgStyle.FOOD)
       (bool_decide (AppState.bgStyle (Ui.state ui) = BgStyle.FOOD))
       (update_field Key.bgStyle BgStyle.FOOD))
    (update Key.bgStyle BgStyle.FOOD)) as (s1 & Hs1 & Hstep1); [|done|].
  { apply bg_section_controls, elem_of_app. left.
    apply list_elem_of_fmap. exists BgStyle.FOOD. split; [done|apply enum_complete]. }
  apply settle_bgStyle in Hs1. state_simpl in Hs1.
  destruct (control_step_get (set_state s1 ui)
    (button "No Container"
       (String.eqb (enum_value (AppState.questionBgStyle s1)) "none")
       (update_value Key.questionBgStyle (update Key.questionBgStyle) "none"))
    Key.questionBgStyle ContainerStyle.none) as (ui2 & Hstep2 & Hget & Hother);
    [|done..|].
  { apply qstyling_section_controls, elem_of_app. left. apply elem_of_cons. by left. }
  exists ui2. split; [by apply rtc_l with (set_state s1 ui); [|apply rtc_once] |].
  split; [|done]. etrans; [by apply (Hother Key.bgStyle)|exact Hs1].
Qed.

(** C32. The answer does not follow the question: typing a question in the
    sidebar replaces the text and leaves the answer of the question that
    was generated before. *)
Theorem manual_question ui text :
  ∃ ui', step ui ui'
    ∧ AppState.question (Ui.state ui') = text
    ∧ AppState.answer (Ui.state ui') = AppState.answer (Ui.state ui).
Proof.
  destruct (control_step_get ui
    (textarea (AppState.question (Ui.state ui)) (update_field Key.question))
    Key.question text) as (ui' & Hstep & Hget & Hother); [|by exists text|done..|].
  { apply general_section_controls, elem_of_cons. by left. }
  exists ui'. split_and!; [done..|]. by apply (Hother Key.answer).
Qed.

(** ** The analysis panel *)

Lemma analyzeVirality_honest reply state :
  honest reply → is_Some (conforms (analyzeVirality JSON_parse (λ _, reply) state)).
Proof.
  unfold analyzeVirality. destruct reply as [|text]; simpl; [by eexists|].
  intros Hh. destruct (JSON_parse _) as [value|]; [by apply Hh|by eexists].
Qed.

(** What is stored is a value with the members of [ViralityAnalysis], when
    the replies honour the schema. *)
Lemma virality_conforms_reachable ui :
  (∀ reply, replies reply → honest reply) → reachable ui →
  ∀ value, Ui.virality ui = Some value → is_Some (conforms value).
Proof.
  intros Hh. revert ui.
  apply (reachable_ind (λ ui, ∀ value, Ui.virality ui = Some value → is_Some (conforms value))).
  - by intros ui (rnd & i & s & _ & _ & ->).
  - intros ui ui' _ IH [| | | |captured rest reply _ Hreply| | |]; simpl; try done.
    intros value [= <-]. by apply analyzeVirality_honest, Hh.
Qed.


(** C30. Nothing checks the reply before it is shown: when the service
    answers with JSON whose score is an object, the page that stores the
    result fails to render the panel. *)
Theorem panel_throws ui text value :
  reachable ui → Ui.isAnalyzing ui = false →
  replies (response (Some text)) →
  JSON_parse text = Some value → truthy value = true →
  member "score" value = Some (JObject []) →
  ∃ ui', rtc step ui ui' ∧ ¬ panel_renders ui'.
Proof.
  intros Hr Hflag Hreply Hparse Htruthy Hscore.
  pose proof (flags_ok_reachable ui Hr) as (_ & Hfa & _).
  assert (Ui.analyses ui = []) as Hnil.
  { destruct (Ui.analyses ui); [done|]. rewrite (proj2 Hfa) in Hflag; done. }
  set (result := analyzeVirality JSON_parse (λ _, response (Some text)) (Ui.state ui)).
  exists (handleAnalyze_return result [] (handleAnalyze_call ui)). split.
  - eapply rtc_l; [by apply step_analyze|]. apply rtc_once.
    apply step_analyzed; [|done]. simpl. by rewrite Hnil.
  - intros Hp. specialize (Hp [member "score" value; member "suggestion" value;
                                 member "bestHeadline" value]).
    unfold panel in Hp. simpl in Hp. unfold result, analyzeVirality in Hp. simpl in Hp.
    rewrite Hparse, Htruthy, Hscore in Hp. specialize (Hp eq_refl).
    by apply Forall_cons in Hp as [? _].
Qed.

End Reachable.

(** ** Instances *)

(** The page after the first render on the example source, with a service
    that may give any reply. *)
Definition example_ui : Ui := mounted example_mounted.

#[local] Abbreviation example_reachable := (reachable example_parse (λ _, True)).
#[local] Abbreviation example_step := (step example_parse (λ _, True)).

Lemma example_ui_reachable : example_reachable example_ui.
Proof.
  apply reachable_initial. exists example_source, 0%nat, example_mounted.
  split_and!; [apply example_source_unit|by vm_compute|done].
Qed.

(** The page after a click on the export button, and after the image is
    rendered. *)
Definition example_exporting : Ui :=
  handleExport_call (Some (CanvasPreview example_mounted)) example_ui.

Definition example_exported : Ui :=
  handleExport_return true (CanvasPreview example_mounted) [] example_exporting.

Lemma example_exporting_reachable : example_reachable example_exporting.
Proof. eapply reachable_step; [apply example_ui_reachable|]. by apply step_export. Qed.

Lemma example_exported_reachable : example_reachable example_exported.
Proof.
  eapply reachable_step; [apply example_exporting_reachable|]. by apply step_exported.
Qed.

(** The page after a click on the analysis button. *)
Definition example_analyzing : Ui := handleAnalyze_call example_ui.

Lemma example_analyzing_reachable : example_reachable example_analyzing.
Proof. eapply reachable_step; [apply example_ui_reachable|]. by apply step_analyze. Qed.

(** The state with the food background: after the click, the effects add
    the badge and set the white font. *)
Definition example_food : AppState :=
  update Key.fontColor "#ffffff"
    (update Key.questionBgStyle ContainerStyle.badge
       (update Key.bgStyle BgStyle.FOOD example_mounted)).

Lemma example_food_reachable : example_reachable (set_state example_food example_ui).
Proof.
  eapply reachable_step; [apply example_ui_reachable|].
  apply (step_control _ _ example_ui
           (button (enum_value BgStyle.FOOD) false (update_field Key.bgStyle BgStyle.FOOD))
           (update Key.bgStyle BgStyle.FOOD)); [|done|by vm_compute].
  apply bg_section_controls, elem_of_app. left.
  apply list_elem_of_fmap. exists BgStyle.FOOD. split; [done|apply enum_complete].
Qed.

Lemma reachable_in_range_witness : Forall in_range (controls example_mounted).
Proof. apply (reachable_in_range example_parse (λ _, True) example_ui), example_ui_reachable. Defined.

Lemma reachable_food_image_witness :
  ∃ address, address ∈ FOOD_IMAGES FoodType.VEG
    ∧ Style.backgroundImage (Canvas.style (CanvasPreview example_food)) = Some (url address).
Proof.
  apply (reachable_food_image example_parse (λ _, True) (set_state example_food example_ui));
    [apply example_food_reachable|done].
Defined.

Lemma reachable_isDarkColor_witness :
  ∃ r g b, 0 ≤ r ≤ 255 ∧ 0 ≤ g ≤ 255 ∧ 0 ≤ b ≤ 255
    ∧ AppState.customBgColor example_mounted = hex_color r g b
    ∧ isDarkColor (AppState.customBgColor example_mounted)
      = brightness_dark (r * 299 + g * 587 + b * 114).
Proof.
  apply (reachable_isDarkColor example_parse (λ _, True) example_ui), example_ui_reachable.
Defined.

Lemma reachable_legible_witness :
  Content.color (Canvas.content (CanvasPreview example_food)) = "#ffffff".
Proof.
  apply (reachable_legible example_parse (λ _, True) (set_state example_food example_ui));
    [apply example_food_reachable|done].
Defined.

Lemma reachable_flags_ok_witness : flags_ok example_analyzing.
Proof.
  apply (reachable_flags_ok example_parse (λ _, True)), example_analyzing_reachable.
Defined.


Lemma export_returns_witness :
  ∃ card, Ui.exports example_exporting = [card]
    ∧ ∀ rendered,
        let ui' := handleExport_return rendered card [] example_exporting in
        example_step example_exporting ui' ∧ flags_ok ui' ∧ Ui.isExporting ui' = false
        ∧ Ui.downloads ui'
          = if rendered then (Ui.downloads example_exporting ++ [card])%list
            else Ui.downloads example_exporting.
Proof.
  apply (export_returns example_parse (λ _, True) example_exporting);
    [apply example_exporting_reachable|done].
Defined.


Lemma step_progress_witness :
  writes example_mounted (update Key.useFactorials true)
  ∧ ∃ s', settle 2 (Some example_mounted) (update Key.useFactorials true example_mounted)
          = Some s'
          ∧ example_step example_ui (set_state s' example_ui).
Proof.
  apply (step_progress example_parse (λ _, True) example_ui
           (checkbox false (update_field Key.useFactorials)));
    [apply example_ui_reachable| |done].
  apply general_section_controls. unfold general_section.
  do 3 (apply elem_of_cons; right). apply elem_of_cons. by left.
Defined.


Lemma panel_throws_witness :
  ∃ ui', rtc example_step example_ui ui' ∧ ¬ panel_renders ui'.
Proof.
  apply (panel_throws example_parse (λ _, True) example_ui example_text
           (JObject [("score", JObject [])]));
    [apply example_ui_reachable|done..].
Defined.
